(** * Jira sprint KPI reporter and story-points field detector

    A shallow embedding of [jira_sprint_kpi.py] and
    [detect_story_points_field.py].

    Conventions of the embedding.
    - A decoded JSON document (what [resp.json()] returns) is a value of
      [json]; a Python [dict] is an association list in insertion order.
    - Python [int] is [Z].  A Python [float] is a finite IEEE 754 double,
      given by its rational value ([Q]); infinities and NaN are outside the
      model.  Conversion of an [int] to [float], division, the product with
      [100.0], [statistics.mean] and [round(x, 1)] round to the nearest
      double as Python does ([fl]), and raise [OverflowError] where Python
      does.  The sums of story points ([+=], [sum]) are idealised as exact.
    - JSON integers and JSON reals are both [JNum]; a [JNum] beyond the
      range of a double is a JSON integer, since a JSON real is decoded to
      a double.
    - Python [str] is [string], the UTF-8 bytes of the text.  [lower]
      lowers the ASCII letters, as [str.lower] does on ASCII text; the
      order of the lowered names, by which [write_csv] sorts its rows, is
      stated for ASCII names.
    - A Python computation that may raise is a value of [result]; the
      exception classes that the two scripts can meet are in [exn].
    - The Python runtime functions [float(str)] and
      [datetime.fromisoformat], and the environment variable
      [JIRA_STORY_POINTS_FIELD], are fields of the record [Runtime], a
      parameter of the development. *)

From Stdlib Require Import List String Ascii ZArith QArith Qround Lia Bool.
From Stdlib Require Import Qabs Qpower Lqa.
From Stdlib Require Import Permutation Morphisms Setoid Sorted.
From Stdlib Require OrderedTypeEx.
Import ListNotations.

Local Open Scope string_scope.
Local Open Scope Z_scope.

(** ** Exceptions and the error monad *)

Inductive exn : Type :=
| KeyError
| IndexError
| AttributeError
| TypeError
| ValueError
| ZeroDivisionError
| OverflowError
| StatisticsError
| HTTPError
| SystemExit.

Inductive result (A : Type) : Type :=
| Ok (a : A)
| Raise (e : exn).

Arguments Ok {A} a.
Arguments Raise {A} e.

Definition bind {A B} (r : result A) (k : A -> result B) : result B :=
  match r with
  | Ok a => k a
  | Raise e => Raise e
  end.

Notation "x <- c ;; k" := (bind c (fun x => k))
  (at level 61, c at next level, right associativity).

(** [try: body except (e1, e2, ...): handler] *)
Definition try_except {A} (body : result A) (caught : exn -> bool)
    (handler : result A) : result A :=
  match body with
  | Ok a => Ok a
  | Raise e => if caught e then handler else Raise e
  end.

Fixpoint mapM {A B} (f : A -> result B) (l : list A) : result (list B) :=
  match l with
  | [] => Ok []
  | x :: l' => y <- f x ;; ys <- mapM f l' ;; Ok (y :: ys)
  end.

Fixpoint foldM {A B} (f : A -> B -> result A) (l : list B) (a : A)
    : result A :=
  match l with
  | [] => Ok a
  | x :: l' => a' <- f a x ;; foldM f l' a'
  end.

(** ** JSON values, as Python sees them *)

#[local] Unset Elimination Schemes.
Inductive json : Type :=
| JNull
| JBool (b : bool)
| JNum (q : Q)
| JStr (s : string)
| JArr (l : list json)
| JObj (kv : list (string * json)).
#[local] Set Elimination Schemes.

(** [bool(v)]: Python truthiness. *)
Definition truthy (v : json) : bool :=
  match v with
  | JNull => false
  | JBool b => b
  | JNum q => negb (Qeq_bool q 0)
  | JStr s => negb (s =? "")%string
  | JArr l => match l with [] => false | _ => true end
  | JObj kv => match kv with [] => false | _ => true end
  end.

(** [a or b] *)
Definition py_or (a b : json) : json := if truthy a then a else b.

Fixpoint lookup {V} (k : string) (kv : list (string * V)) : option V :=
  match kv with
  | [] => None
  | (k', v) :: kv' => if (k =? k')%string then Some v else lookup k kv'
  end.

(** [d[k]] *)
Definition py_getitem (d : json) (k : string) : result json :=
  match d with
  | JObj kv => match lookup k kv with Some v => Ok v | None => Raise KeyError end
  | _ => Raise TypeError
  end.

(** [d.get(k, default)]; only a [dict] has the attribute [get]. *)
Definition py_get_default (d : json) (k : string) (default : json)
    : result json :=
  match d with
  | JObj kv => match lookup k kv with Some v => Ok v | None => Ok default end
  | _ => Raise AttributeError
  end.

(** [d.get(k)] *)
Definition py_get (d : json) (k : string) : result json :=
  py_get_default d k JNull.

(** ** Strings *)

Definition lower_ascii (c : ascii) : ascii :=
  let n := nat_of_ascii c in
  if andb (Nat.leb 65 n) (Nat.leb n 90) then ascii_of_nat (n + 32) else c.

Fixpoint lower (s : string) : string :=
  match s with
  | EmptyString => EmptyString
  | String c s' => String (lower_ascii c) (lower s')
  end.

(** [v.lower()]; only a [str] has the attribute [lower]. *)
Definition py_lower (v : json) : result string :=
  match v with
  | JStr s => Ok (lower s)
  | _ => Raise AttributeError
  end.

(** [s.startswith(p)] *)
Definition startswith (s p : string) : bool := String.prefix p s.

(** [p in s] for two strings. *)
Fixpoint contains (s p : string) : bool :=
  if String.prefix p s then true
  else match s with
       | EmptyString => false
       | String _ s' => contains s' p
       end.

(** [s.replace(a, r)] for a one-character [a]. *)
Fixpoint replace_char (a : ascii) (r : string) (s : string) : string :=
  match s with
  | EmptyString => EmptyString
  | String c s' =>
      if Ascii.eqb c a then r ++ replace_char a r s'
      else String c (replace_char a r s')
  end.

(** [v.replace('Z', '+00:00')]; only a [str] has the attribute. *)
Definition py_replace_Z (v : json) : result string :=
  match v with
  | JStr s => Ok (replace_char "Z"%char "+00:00" s)
  | _ => Raise AttributeError
  end.

(** ** Numbers *)

(** Nearest integer, ties to the even one: Python's [round(x)]. *)
Definition round_half_even (x : Q) : Z :=
  let f := Qfloor x in
  let r := (x - inject_Z f)%Q in
  match (r ?= 1 # 2)%Q with
  | Lt => f
  | Gt => f + 1
  | Eq => if Z.even f then f else f + 1
  end.

(** [2 ** e] *)
Definition pow2 (e : Z) : Q := (2 ^ e)%Q.

(** The exponent [e] of the unit in the last place of the doubles around
    [x]: [2^52 <= |x| / 2^e < 2^53] for a normal [x], and [-1074] for a
    subnormal one. *)
Definition binade (x : Q) : Z :=
  let e1 := Z.log2 (Z.abs (Qnum x)) - Z.log2 (Zpos (Qden x)) - 53 in
  let e := if Qle_bool (pow2 (e1 + 53)) (Qabs x) then e1 + 1 else e1 in
  Z.max e (-1074).

(** The double nearest to [x], ties to the even significand: the rounding
    of every IEEE 754 operation. *)
Definition fl (x : Q) : Q :=
  let e := binade x in
  Qred (inject_Z (round_half_even (x / pow2 e)) * pow2 e).

(** [fl] is unfolded after the functions that call it. *)
Strategy 1000 [fl].

(** The nearest double would be beyond the largest finite one. *)
Definition overflows (x : Q) : bool := Qle_bool (pow2 1024) (Qabs (fl x)).

(** [float(n)] on an [int], also implicit in [x * n] and [x / n]. *)
Definition float_of_int (n : Z) : result Q :=
  if overflows (inject_Z n) then Raise OverflowError
  else Ok (fl (inject_Z n)).

(** [a * b] on floats. *)
Definition float_mul (a b : Q) : Q := fl (a * b).

(** [a / b] on floats. *)
Definition py_div (a b : Q) : result Q :=
  if Qeq_bool b 0 then Raise ZeroDivisionError else Ok (fl (a / b)).

(** [a / b] on two [int]s. *)
Definition int_truediv (a b : Z) : result Q :=
  if b =? 0 then Raise ZeroDivisionError
  else if overflows (inject_Z a / inject_Z b) then Raise OverflowError
  else Ok (fl (inject_Z a / inject_Z b)).

(** [round(x, 1)]: the tenth nearest to the double [x], ties to the even
    one, as a double. *)
Definition round1 (x : Q) : Q :=
  fl (inject_Z (round_half_even (x * 10)) / 10).

Definition Qsum (l : list Q) : Q := fold_right Qplus 0%Q l.
Definition Zsum (l : list Z) : Z := fold_right Z.add 0 l.
Definition len {A} (l : list A) : Z := Z.of_nat (List.length l).

(** ** The Python runtime and the configuration *)

(** A [datetime]: the wall-clock reading in microseconds since the epoch
    of the proleptic Gregorian calendar, and the UTC offset in microseconds
    when the value is timezone-aware. *)
Record datetime : Type := mkDatetime {
  wall_us : Z;
  utcoffset_us : option Z
}.

Record Runtime : Type := mkRuntime {
  (** [os.getenv("JIRA_STORY_POINTS_FIELD")] *)
  STORY_POINTS_FIELD : string;
  (** [float(s)] on a [str]; [None] stands for [ValueError]. *)
  float_of_str : string -> option Q;
  (** [datetime.fromisoformat(s)]; [None] stands for [ValueError]. *)
  fromisoformat : string -> option datetime
}.

(** [a - b] on two [datetime]s, as [timedelta] microseconds; mixing a naive
    and an aware value raises [TypeError]. *)
Definition datetime_sub (a b : datetime) : result Z :=
  match utcoffset_us a, utcoffset_us b with
  | None, None => Ok (wall_us a - wall_us b)
  | Some oa, Some ob => Ok ((wall_us a - oa) - (wall_us b - ob))
  | _, _ => Raise TypeError
  end.

(** [delta.total_seconds()] *)
Definition total_seconds (delta_us : Z) : Q :=
  fl (inject_Z delta_us / 1000000).

(** [float(v)] *)
Definition py_float (rt : Runtime) (v : json) : result Q :=
  match v with
  | JNum q => if overflows q then Raise OverflowError else Ok (fl q)
  | JBool b => Ok (if b then 1 else 0)%Q
  | JStr s => match float_of_str rt s with
              | Some q => Ok q
              | None => Raise ValueError
              end
  | _ => Raise TypeError
  end.

(** * [jira_sprint_kpi.py] *)

(** Some Jira instances use different "done" statuses; the script keys on
    [statusCategory.key]. *)
Definition DONE_STATUS_CATEGORIES : list string := ["done"].

Section SprintKpi.

Variable rt : Runtime.

Definition get_assignee_name (issue : json) : result json :=
  fields <- py_getitem issue "fields" ;;
  assignee <- py_get fields "assignee" ;;
  match assignee with
  | JNull => Ok (JStr "Unassigned")
  | _ =>
      display_name <- py_get assignee "displayName" ;;
      if truthy display_name then Ok display_name
      else
        email <- py_get assignee "emailAddress" ;;
        Ok (py_or email (JStr "Unknown"))
  end.

Definition get_status_category (issue : json) : result string :=
  fields <- py_getitem issue "fields" ;;
  status0 <- py_get fields "status" ;;
  let status := py_or status0 (JObj []) in
  status_category0 <- py_get status "statusCategory" ;;
  let status_category := py_or status_category0 (JObj []) in
  (* Typically: "new", "indeterminate", "done" *)
  key <- py_get_default status_category "key" (JStr "") ;;
  py_lower key.

Definition get_issue_type (issue : json) : result json :=
  fields <- py_getitem issue "fields" ;;
  issue_type0 <- py_get fields "issuetype" ;;
  let issue_type := py_or issue_type0 (JObj []) in
  py_get_default issue_type "name" (JStr "Unknown").

Definition get_story_points (issue : json) : result Q :=
  fields <- py_getitem issue "fields" ;;
  (* Story points may be None or missing *)
  sp <- py_get fields (STORY_POINTS_FIELD rt) ;;
  match sp with
  | JNull => Ok 0%Q
  | _ =>
      try_except (py_float rt sp)
        (fun e => match e with TypeError | ValueError => true | _ => false end)
        (Ok 0%Q)
  end.

(** [datetime.fromisoformat(s)] *)
Definition py_fromisoformat (s : string) : result datetime :=
  match fromisoformat rt s with
  | Some d => Ok d
  | None => Raise ValueError
  end.

Definition get_cycle_time_days (issue : json) : result Q :=
  try_except
    (fields <- py_getitem issue "fields" ;;
     created <- py_get fields "created" ;;
     fields' <- py_getitem issue "fields" ;;
     resolved <- py_get fields' "resolutiondate" ;;
     if negb (truthy created) || negb (truthy resolved) then Ok 0%Q
     else
       created_s <- py_replace_Z created ;;
       created_dt <- py_fromisoformat created_s ;;
       resolved_s <- py_replace_Z resolved ;;
       resolved_dt <- py_fromisoformat resolved_s ;;
       delta <- datetime_sub resolved_dt created_dt ;;
       (* Convert to days *)
       days <- py_div (total_seconds delta) (inject_Z (24 * 3600)) ;;
       Ok (round1 days))
    (fun e => match e with
              | ValueError | TypeError | AttributeError => true
              | _ => false
              end)
    (Ok 0%Q).

(** The value of one assignee in the [metrics] dictionary. *)
Record bucket : Type := mkBucket {
  total_issues : Z;
  completed_issues : Z;
  total_story_points : Q;
  completed_story_points : Q;
  issue_type_counts : list (string * Z);
  bug_count : Z;
  story_count : Z;
  cycle_times : list Q;
  story_points_list : list Q
}.

(** The default of the [defaultdict]. *)
Definition new_bucket : bucket := mkBucket 0 0 0 0 [] 0 0 [] [].

(** Only [None], [bool], numbers and [str] can be dictionary keys. *)
Definition hashable (v : json) : bool :=
  match v with
  | JArr _ | JObj _ => false
  | _ => true
  end.

Definition as_number (v : json) : option Q :=
  match v with
  | JNum q => Some q
  | JBool b => Some (if b then 1 else 0)%Q
  | _ => None
  end.

(** [a == b] on hashable values: [True == 1 == 1.0]. *)
Definition py_eqb (a b : json) : bool :=
  match a, b with
  | JStr s, JStr t => (s =? t)%string
  | JNull, JNull => true
  | _, _ =>
      match as_number a, as_number b with
      | Some x, Some y => Qeq_bool x y
      | _, _ => false
      end
  end.

(** A dictionary keyed by arbitrary hashable values, in insertion order. *)
Definition metrics_map : Type := list (json * bucket).

(** [m = metrics[k]; m := f(m)] on the [defaultdict]: a missing key is
    inserted last, with the default bucket. *)
Fixpoint dd_update (k : json) (f : bucket -> bucket) (metrics : metrics_map)
    : metrics_map :=
  match metrics with
  | [] => [(k, f new_bucket)]
  | (k', m) :: rest =>
      if py_eqb k' k then (k', f m) :: rest
      else (k', m) :: dd_update k f rest
  end.

(** [counts[t] += 1] on a [defaultdict(int)]. *)
Fixpoint count_incr (t : string) (counts : list (string * Z))
    : list (string * Z) :=
  match counts with
  | [] => [(t, 1)]
  | (t', n) :: rest =>
      if (t' =? t)%string then (t', n + 1) :: rest
      else (t', n) :: count_incr t rest
  end.

Definition is_done (status_cat : string) : bool :=
  existsb (String.eqb status_cat) DONE_STATUS_CATEGORIES.

(** [0 < x] on floats. *)
Definition Qpos_b (x : Q) : bool := negb (Qle_bool x 0).

(** The updates that the loop body of [compute_metrics] applies to the
    bucket [m] of the issue's assignee. *)
Definition record_issue (status_cat issue_type : string)
    (story_points cycle_time : Q) (m : bucket) : bucket :=
  let is_bug := (lower issue_type =? "bug")%string in
  let is_story := (lower issue_type =? "story")%string in
  let done := is_done status_cat in
  mkBucket
    (total_issues m + 1)
    (if done then completed_issues m + 1 else completed_issues m)
    (total_story_points m + story_points)%Q
    (if done then (completed_story_points m + story_points)%Q
     else completed_story_points m)
    (count_incr issue_type (issue_type_counts m))
    (if is_bug then bug_count m + 1 else bug_count m)
    (if is_bug then story_count m
     else if is_story then story_count m + 1 else story_count m)
    (* Only track cycle time for completed issues *)
    (if done && Qpos_b cycle_time then cycle_times m ++ [cycle_time]
     else cycle_times m)
    (* Track story points per issue (including 0-point issues) *)
    (story_points_list m ++ [story_points]).

(** One iteration of [for issue in issues]. *)
Definition compute_metrics_step (metrics : metrics_map) (issue : json)
    : result metrics_map :=
  assignee <- get_assignee_name issue ;;
  status_cat <- get_status_category issue ;;
  issue_type <- get_issue_type issue ;;
  story_points <- get_story_points issue ;;
  cycle_time <- get_cycle_time_days issue ;;
  (* m = metrics[assignee] *)
  if negb (hashable assignee) then Raise TypeError
  else
    (* m["issue_type_counts"][issue_type] += 1, then issue_type.lower() *)
    match issue_type with
    | JStr t =>
        Ok (dd_update assignee
              (record_issue status_cat t story_points cycle_time) metrics)
    | JArr _ | JObj _ => Raise TypeError
    | _ => Raise AttributeError
    end.

Definition compute_metrics (issues : list json) : result metrics_map :=
  foldM compute_metrics_step issues [].

End SprintKpi.

(** The dictionary [totals] of [compute_sprint_totals]. *)
Record totals : Type := mkTotals {
  sprint_total_issues : Z;
  sprint_completed_issues : Z;
  sprint_total_story_points : Q;
  sprint_completed_story_points : Q;
  total_bugs : Z;
  total_stories : Z;
  all_cycle_times : list Q;
  all_story_points : list Q;
  (* Story points per assignee for distribution analysis *)
  assignee_story_points : list Q
}.

Definition no_totals : totals := mkTotals 0 0 0 0 0 0 [] [] [].

Definition UNASSIGNED : json := JStr "Unassigned".

(** One iteration of [for assignee, m in metrics.items()]. *)
Definition sprint_totals_step (t : totals) (entry : json * bucket) : totals :=
  let (assignee, m) := entry in
  if py_eqb assignee UNASSIGNED then t (* Skip unassigned for team metrics *)
  else
    mkTotals
      (sprint_total_issues t + total_issues m)
      (sprint_completed_issues t + completed_issues m)
      (sprint_total_story_points t + total_story_points m)%Q
      (sprint_completed_story_points t + completed_story_points m)%Q
      (total_bugs t + bug_count m)
      (total_stories t + story_count m)
      (all_cycle_times t ++ cycle_times m)
      (all_story_points t ++ story_points_list m)
      (* Track story points per assignee for workload distribution *)
      (if Qpos_b (total_story_points m)
       then assignee_story_points t ++ [total_story_points m]
       else assignee_story_points t).

Definition compute_sprint_totals (metrics : metrics_map) : totals :=
  fold_left sprint_totals_step metrics no_totals.

(** ** Sorting and statistics used by [write_csv] *)

Fixpoint insert_by {A} (le : A -> A -> bool) (x : A) (l : list A) : list A :=
  match l with
  | [] => [x]
  | y :: l' => if le x y then x :: l else y :: insert_by le x l'
  end.

(** [sorted(l)]: a stable sort. *)
Definition sort_by {A} (le : A -> A -> bool) (l : list A) : list A :=
  fold_right (insert_by le) [] l.

(** [sorted(set(l))] on strings. *)
Definition sorted_set (l : list string) : list string :=
  sort_by String.leb (nodup string_dec l).

(** [statistics.mean(xs)] *)
Definition statistics_mean (xs : list Q) : result Q :=
  match xs with
  | [] => Raise StatisticsError
  | _ => Ok (fl (Qsum xs / inject_Z (len xs)))
  end.

(** [min(xs)] and [max(xs)] *)
Definition py_min (xs : list Q) : result Q :=
  match xs with
  | [] => Raise ValueError
  | x :: r => Ok (fold_left (fun cur y => if Qle_bool cur y then cur else y) r x)
  end.

Definition py_max (xs : list Q) : result Q :=
  match xs with
  | [] => Raise ValueError
  | x :: r => Ok (fold_left (fun cur y => if Qle_bool y cur then cur else y) r x)
  end.

(** [statistics.variance(xs)]: the sample variance, which the module
    computes exactly, on fractions. *)
Definition statistics_variance (xs : list Q) : result Q :=
  if len xs <? 2 then Raise StatisticsError
  else
    let c := (Qsum xs / inject_Z (len xs))%Q in
    Ok (Qsum (map (fun x => (x - c) * (x - c))%Q xs) / inject_Z (len xs - 1))%Q.

(** [round(math.sqrt(v), 1)] for [0 <= v]: the square root is irrational
    in general, its rounding to one decimal is not. *)
Definition round1_sqrt (v : Q) : Q :=
  let y := (v * 100)%Q in
  let n := Z.sqrt (Qfloor y) in
  let mid := ((inject_Z n + (1 # 2)) * (inject_Z n + (1 # 2)))%Q in
  let r := match (y ?= mid)%Q with
           | Lt => n
           | Gt => n + 1
           | Eq => if Z.even n then n else n + 1
           end in
  fl (inject_Z r / 10).

(** [round(statistics.stdev(xs), 1)] *)
Definition stdev_round1 (xs : list Q) : result Q :=
  v <- statistics_variance xs ;; Ok (round1_sqrt v).

(** ** The CSV report *)

(** A piece of an f-string: literal text or an interpolated value. *)
Inductive piece : Type :=
| PLit (s : string)
| PInt (n : Z)
| PFloat (q : Q).

(** A value handed to [csv.DictWriter.writerow]. *)
Inductive cell : Type :=
| CInt (n : Z)
| CFloat (q : Q)
| CStr (s : string)
| CFmt (ps : list piece).

Definition row : Type := list (string * cell).

Record csv_file : Type := mkCsv {
  fieldnames : list string;
  written_rows : list row
}.

(** [round(100.0 * part / whole, 1) if whole > 0 else 0.0] on floats *)
Definition percent_of (part whole : Q) : result Q :=
  if Qpos_b whole then
    r <- py_div (float_mul 100 part) whole ;; Ok (round1 r)
  else Ok 0%Q.

(** [round(100.0 * part / whole, 1) if whole > 0 else 0.0] on [int]s *)
Definition percent_of_int (part whole : Z) : result Q :=
  if 0 <? whole then
    p <- float_of_int part ;;
    w <- float_of_int whole ;;
    r <- py_div (float_mul 100 p) w ;; Ok (round1 r)
  else Ok 0%Q.

(** [x[0].lower()], the sort key of the assignee rows, with the key. *)
Definition sort_key (entry : json * bucket)
    : result (string * (string * bucket)) :=
  match fst entry with
  | JStr a => Ok (lower a, (a, snd entry))
  | _ => Raise AttributeError
  end.

Definition assignee_row (all_issue_types : list string)
    (assignee : string) (m : bucket) : result row :=
  let total_issues := total_issues m in
  let completed_issues := completed_issues m in
  let total_sp := total_story_points m in
  let completed_sp := completed_story_points m in
  (* Calculate enhanced metrics *)
  avg_sp_per_issue <-
    (if 0 <? total_issues
     then n <- float_of_int total_issues ;;
          r <- py_div total_sp n ;; Ok (round1 r)
     else Ok 0%Q) ;;
  avg_cycle_time <-
    (match cycle_times m with
     | [] => Ok 0%Q
     | _ => r <- statistics_mean (cycle_times m) ;; Ok (round1 r)
     end) ;;
  bug_ratio <- percent_of_int (bug_count m) total_issues ;;
  (* Workload score (normalized story points - higher means more work) *)
  n <- float_of_int (Z.max 1 total_issues) ;;
  workload <- py_div total_sp n ;;
  let workload_score := round1 workload in
  completion_issues <- percent_of_int completed_issues total_issues ;;
  completion_sp <- percent_of completed_sp total_sp ;;
  Ok (app
      [ ("Assignee", CStr assignee);
        ("Total Issues", CInt total_issues);
        ("Completed Issues", CInt completed_issues);
        ("Completion % (Issues)", CFloat completion_issues);
        ("Total Story Points", CFloat total_sp);
        ("Completed Story Points", CFloat completed_sp);
        ("Completion % (Story Points)", CFloat completion_sp);
        ("Avg Story Points per Issue", CFloat avg_sp_per_issue);
        ("Avg Cycle Time (Days)", CFloat avg_cycle_time);
        ("Bug Ratio (%)", CFloat bug_ratio);
        ("Workload Score", CFloat workload_score) ]
      (map (fun t => ("Issues: " ++ t,
                        CInt (match lookup t (issue_type_counts m) with
                              | Some n => n
                              | None => 0
                              end)))
             all_issue_types)).

(** The rows of the sprint summary and of the workload distribution. *)
Definition summary_rows (sprint_totals : totals) : result (list row) :=
  sprint_completion_issues <-
    percent_of_int (sprint_completed_issues sprint_totals)
                   (sprint_total_issues sprint_totals) ;;
  sprint_completion_sp <-
    percent_of (sprint_completed_story_points sprint_totals)
               (sprint_total_story_points sprint_totals) ;;
  avg_cycle_time_sprint <-
    (match all_cycle_times sprint_totals with
     | [] => Ok 0%Q
     | xs => r <- statistics_mean xs ;; Ok (round1 r)
     end) ;;
  avg_sp_per_task <-
    (match all_story_points sprint_totals with
     | [] => Ok 0%Q
     | xs => r <- statistics_mean xs ;; Ok (round1 r)
     end) ;;
  (* Workload distribution analysis *)
  workload <-
    (match assignee_story_points sprint_totals with
     | [] => Ok (0, 0, 0, 0)%Q
     | xs =>
         min_workload <- py_min xs ;;
         max_workload <- py_max xs ;;
         avg <- statistics_mean xs ;;
         workload_std <- (if 1 <? len xs then stdev_round1 xs else Ok 0%Q) ;;
         Ok (min_workload, max_workload, round1 avg, workload_std)
     end) ;;
  let '(min_workload, max_workload, avg_workload, workload_std) := workload in
  let team_velocity := sprint_completed_story_points sprint_totals in
  ratio <- int_truediv (total_bugs sprint_totals)
                       (Z.max 1 (total_stories sprint_totals)) ;;
  let bug_to_story_ratio := round1 (float_mul ratio 100) in
  Ok [ [("Assignee", CStr "=== SPRINT SUMMARY ===")];
       [("Assignee", CStr "Total Tasks Completed");
        ("Total Issues",
         CFmt [PInt (sprint_completed_issues sprint_totals); PLit "/";
               PInt (sprint_total_issues sprint_totals); PLit " (";
               PFloat sprint_completion_issues; PLit "%)"])];
       [("Assignee", CStr "Total Story Points Completed");
        ("Total Issues",
         CFmt [PFloat (sprint_completed_story_points sprint_totals); PLit "/";
               PFloat (sprint_total_story_points sprint_totals); PLit " (";
               PFloat sprint_completion_sp; PLit "%)"])];
       [("Assignee", CStr "Team Velocity (Completed SP)");
        ("Total Issues", CFloat team_velocity)];
       [("Assignee", CStr "Average Cycle Time");
        ("Total Issues", CFmt [PFloat avg_cycle_time_sprint; PLit " days"])];
       [("Assignee", CStr "Average Story Points per Task");
        ("Total Issues", CFloat avg_sp_per_task)];
       [("Assignee", CStr "Bug-to-Story Ratio");
        ("Total Issues", CFmt [PFloat bug_to_story_ratio; PLit "%"])];
       [("Assignee", CStr "")];
       [("Assignee", CStr "=== WORKLOAD DISTRIBUTION ===")];
       [("Assignee", CStr "Min Story Points (Assignee)");
        ("Total Issues", CFloat min_workload)];
       [("Assignee", CStr "Max Story Points (Assignee)");
        ("Total Issues", CFloat max_workload)];
       [("Assignee", CStr "Avg Story Points (Assignee)");
        ("Total Issues", CFloat avg_workload)];
       [("Assignee", CStr "Workload Std Deviation");
        ("Total Issues", CFloat workload_std)] ].

Definition BASE_FIELDNAMES : list string :=
  [ "Assignee"; "Total Issues"; "Completed Issues"; "Completion % (Issues)";
    "Total Story Points"; "Completed Story Points";
    "Completion % (Story Points)"; "Avg Story Points per Issue";
    "Avg Cycle Time (Days)"; "Bug Ratio (%)"; "Workload Score" ].

(** [write_csv]: the header and the rows handed to the CSV writer, in
    order.  The file name and the [print] diagnostics are left out. *)
Definition write_csv (metrics : metrics_map) : result csv_file :=
  let sprint_totals := compute_sprint_totals metrics in
  (* Collect all issue types seen to make consistent columns *)
  let all_issue_types :=
    sorted_set
      (flat_map (fun e => map fst (issue_type_counts (snd e))) metrics) in
  let fieldnames :=
    app BASE_FIELDNAMES (map (fun t => "Issues: " ++ t) all_issue_types) in
  (* Write individual assignee metrics *)
  keyed <- mapM sort_key metrics ;;
  let sorted := sort_by (fun x y => String.leb (fst x) (fst y)) keyed in
  assignee_rows <-
    mapM (fun e => assignee_row all_issue_types (fst (snd e)) (snd (snd e)))
         sorted ;;
  (* Add separator and sprint totals *)
  summary <- summary_rows sprint_totals ;;
  Ok (mkCsv fieldnames (assignee_rows ++ [[]] ++ summary)).

(** ** The Jira REST endpoints *)

(** What [requests.get(...)], [raise_for_status()] and [resp.json()] give
    for the three endpoints that the scripts call: the decoded body, or the
    exception raised on the way. *)
Record JiraServer : Type := mkServer {
  (** [GET /rest/api/2/issue/{issue_key}] *)
  issue_by_key : string -> result json;
  (** [GET /rest/agile/1.0/sprint/{sprint_id}/issue?startAt=&maxResults=] *)
  sprint_issue_page : Z -> Z -> Z -> result json;
  (** [GET /rest/api/2/field] *)
  all_field_metadata : result json
}.

(** [for x in v]: the items that iterating over [v] yields. *)
Definition py_iter (v : json) : result (list json) :=
  match v with
  | JArr l => Ok l
  | JStr s => Ok (map (fun c => JStr (String c EmptyString)) (list_ascii_of_string s))
  | JObj kv => Ok (map (fun e => JStr (fst e)) kv)
  | _ => Raise TypeError
  end.

(** [n >= v] for an [int] [n]. *)
Definition py_int_ge (n : Z) (v : json) : result bool :=
  match as_number v with
  | Some q => Ok (Qle_bool q (inject_Z n))
  | None => Raise TypeError
  end.

(** One iteration of [while True] in [fetch_issues_for_sprint]: the new
    [issues], the new [start_at], and whether the loop breaks. *)
Definition fetch_page (http : JiraServer) (sprint_id : Z)
    (issues : list json) (start_at : Z) : result (list json * Z * bool) :=
  let max_results := 100 in
  data <- sprint_issue_page http sprint_id start_at max_results ;;
  page <- py_get_default data "issues" (JArr []) ;;
  items <- py_iter page ;;
  let issues := (issues ++ items)%list in
  total <- py_get_default data "total" (JNum 0) ;;
  let start_at := start_at + max_results in
  stop <- py_int_ge start_at total ;;
  Ok (issues, start_at, stop).

(** The loop, run for at most [fuel] iterations; [None] when it is still
    running after them. *)
Fixpoint fetch_loop (fuel : nat) (http : JiraServer) (sprint_id : Z)
    (issues : list json) (start_at : Z) : option (result (list json)) :=
  match fuel with
  | O => None
  | S fuel' =>
      match fetch_page http sprint_id issues start_at with
      | Raise e => Some (Raise e)
      | Ok (issues', _, true) => Some (Ok issues')
      | Ok (issues', start_at', false) =>
          fetch_loop fuel' http sprint_id issues' start_at'
      end
  end.

Definition fetch_issues_for_sprint (fuel : nat) (http : JiraServer)
    (sprint_id : Z) : option (result (list json)) :=
  fetch_loop fuel http sprint_id [] 0.

(** * [detect_story_points_field.py] *)

(** [isinstance(v, (int, float))]; a Python [bool] is an [int]. *)
Definition is_number (v : json) : bool :=
  match v with
  | JNum _ | JBool _ => true
  | _ => false
  end.

(** [v > 0] for a number [v]. *)
Definition is_positive (v : json) : bool :=
  match as_number v with
  | Some q => Qpos_b q
  | None => false
  end.

(** [d.items()] *)
Definition py_items (d : json) : result (list (string * json)) :=
  match d with
  | JObj kv => Ok kv
  | _ => Raise AttributeError
  end.

(** [k in v] for a string [k]. *)
Definition py_in (k : string) (v : json) : result bool :=
  match v with
  | JObj kv => Ok (match lookup k kv with Some _ => true | None => false end)
  | JStr s => Ok (contains s k)
  | JArr l => Ok (existsb (py_eqb (JStr k)) l)
  | _ => Raise TypeError
  end.

Definition is_custom_field (field_id : string) : bool :=
  startswith field_id "customfield_".

(** [except Exception] *)
Definition is_Exception (e : exn) : bool :=
  match e with
  | SystemExit => false
  | _ => true
  end.

(** The search for an issue with story points among the issues of the
    sprint: the first one with a positive numeric custom field. *)
Fixpoint find_issue_with_points (l : list json) : result (option json) :=
  match l with
  | [] => Ok None
  | iss :: rest =>
      fields <- py_get_default iss "fields" (JObj []) ;;
      items <- py_items fields ;;
      if existsb (fun e => is_custom_field (fst e) && is_number (snd e)
                           && is_positive (snd e)) items
      then Ok (Some iss)
      else find_issue_with_points rest
  end.

(** [v[0]] *)
Definition py_first (v : json) : result json :=
  match v with
  | JArr (first :: _) => Ok first
  | JStr (String c _) => Ok (JStr (String c EmptyString))
  | JArr [] | JStr EmptyString => Raise IndexError
  | JObj _ => Raise KeyError
  | _ => Raise TypeError
  end.

(** [if issue_key:] fetch the specific issue. *)
Definition sample_by_key (http : JiraServer) (issue_key : string)
    : result (option json) :=
  try_except (issue <- issue_by_key http issue_key ;; Ok (Some issue))
             is_Exception (Ok None).

(** [elif sprint_id:] fetch the first issues of the sprint and pick one. *)
Definition sample_from_sprint (http : JiraServer) (sprint_id : Z)
    : result (option json) :=
  try_except
    (data <- sprint_issue_page http sprint_id 0 5 ;;
     found <- py_get data "issues" ;;
     if negb (truthy found) then Ok None (* No issues found in sprint *)
     else
       issues <- py_getitem data "issues" ;;
       l <- py_iter issues ;;
       (* Try to find an issue with story points *)
       issue <- find_issue_with_points l ;;
       match issue with
       | Some iss => Ok (Some iss)
       | None => first <- py_first issues ;; Ok (Some first)
       end)
    is_Exception (Ok None).

(** The sample issue; [None] when the function returns [None] before it
    has one.  An empty issue key and the sprint id [0] are falsy. *)
Definition sample_issue (http : JiraServer) (sprint_id : option Z)
    (issue_key : option string) : result (option json) :=
  let issue_key_given :=
    match issue_key with
    | Some k => if (k =? "")%string then None else Some k
    | None => None
    end in
  let sprint_id_given :=
    match sprint_id with
    | Some n => if n =? 0 then None else Some n
    | None => None
    end in
  match issue_key_given with
  | Some key => sample_by_key http key
  | None =>
      match sprint_id_given with
      | Some sid => sample_from_sprint http sid
      | None => Ok None (* ERROR: Please provide either --sprint-id or --issue-key *)
      end
  end.

(** Find all custom fields with numeric values. *)
Definition potential_fields_of (fields : list (string * json))
    : list (string * json) :=
  filter (fun e => is_custom_field (fst e) && is_number (snd e))
         (sort_by (fun x y => String.leb (fst x) (fst y)) fields).

(** The patterns of [exact_patterns]: characters, some of them optional,
    between [^] and [$]. *)
Inductive ritem : Type :=
| RChar (c : ascii)
| ROpt (c : ascii).

Definition NEWLINE : string := String (ascii_of_nat 10) EmptyString.

(** [re.match("^" + items + "$", s)]; [$] also matches just before a
    newline that ends the string. *)
Fixpoint re_match (items : list ritem) (s : string) : bool :=
  match items with
  | [] => (s =? "")%string || (s =? NEWLINE)%string
  | RChar c :: items' =>
      match s with
      | String c' s' => Ascii.eqb c' c && re_match items' s'
      | EmptyString => false
      end
  | ROpt c :: items' =>
      match s with
      | String c' s' =>
          (Ascii.eqb c' c && re_match items' s') || re_match items' s
      | EmptyString => re_match items' s
      end
  end.

Definition literal (s : string) : list ritem :=
  map RChar (list_ascii_of_string s).

Definition exact_patterns : list (list ritem) :=
  [ (literal "story point" ++ [ROpt "s"%char])%list; (* ^story points?$ *)
    literal "story point estimate";                  (* ^story point estimate$ *)
    (literal "point" ++ [ROpt "s"%char])%list ].      (* ^points?$ *)

Definition partial_patterns : list string :=
  ["story points"; "story point"; "estimate"; "sp"].

Definition exclude_terms : list string :=
  ["sprint"; "response"; "chart"; "date"; "time"; "ready"; "spec"].

Definition is_exact_match (field_name_lower : string) : bool :=
  existsb (fun pattern => re_match pattern field_name_lower) exact_patterns.

Definition is_partial_match (field_name_lower : string) : bool :=
  existsb (contains field_name_lower) partial_patterns
  && negb (existsb (contains field_name_lower) exclude_terms).

(** One entry of the comprehension that builds [field_names]. *)
Definition field_name_entry (f : json) : result (option (json * json)) :=
  has_id <- py_in "id" f ;;
  if negb has_id then Ok None
  else
    has_name <- py_in "name" f ;;
    if negb has_name then Ok None
    else
      id <- py_getitem f "id" ;;
      name <- py_getitem f "name" ;;
      if hashable id then Ok (Some (id, name)) else Raise TypeError.

Definition matches : Type := list (string * string) * list (string * string).

(** One iteration of [for field in all_fields]: the new [exact_matches]
    and [partial_matches]. *)
Definition match_field (acc : matches) (field : json) : result matches :=
  field_id <- py_get_default field "id" (JStr "") ;;
  field_name <- py_get_default field "name" (JStr "") ;;
  match field_name with
  | JStr name =>
      let field_name_lower := lower name in
      match field_id with
      | JStr id =>
          if negb (is_custom_field id) then Ok acc
          else if is_exact_match field_name_lower
          then Ok ((fst acc ++ [(id, name)])%list, snd acc)
          else if is_partial_match field_name_lower
          then Ok (fst acc, (snd acc ++ [(id, name)])%list)
          else Ok acc
      | _ => Raise AttributeError (* no startswith *)
      end
  | _ => Raise AttributeError (* no lower *)
  end.

(** The body of the [try] that fetches the field metadata and makes the
    recommendation. *)
Definition recommend (http : JiraServer)
    (potential_fields : list (string * json)) : result string :=
  all_fields <- all_field_metadata http ;;
  fields_list <- py_iter all_fields ;;
  (* Create a mapping of field IDs to names *)
  field_names <- mapM field_name_entry fields_list ;;
  found <- foldM match_field fields_list ([], []) ;;
  let exact_matches := fst found in
  let partial_matches := snd found in
  let found_matches := (exact_matches ++ partial_matches)%list in
  (* Make a recommendation *)
  match exact_matches with
  | (recommended, _) :: _ => Ok recommended
  | [] =>
      match found_matches with
      | (recommended, _) :: _ => Ok recommended
      | [] =>
          match potential_fields with
          | (recommended, _) :: _ => Ok recommended
          | [] => Ok "customfield_10016"
          end
      end
  end.

(** [detect_story_points_field(sprint_id, issue_key)]: the value returned,
    [None] for Python's [None].  [configured] tells whether
    [JIRA_BASE_URL], [JIRA_EMAIL] and [JIRA_API_TOKEN] are all set. *)
Definition detect_story_points_field (configured : bool) (http : JiraServer)
    (sprint_id : option Z) (issue_key : option string)
    : result (option string) :=
  if negb configured then Raise SystemExit
  else
    (* Get a sample issue *)
    sample <- sample_issue http sprint_id issue_key ;;
    match sample with
    | None => Ok None
    | Some issue =>
        if negb (truthy issue) then Ok None (* Could not fetch a sample issue *)
        else
          key <- py_get_default issue "key" (JStr "Unknown") ;;
          fields <- py_get_default issue "fields" (JObj []) ;;
          items <- py_items fields ;;
          let potential_fields := potential_fields_of items in
          try_except
            (recommended <- recommend http potential_fields ;;
             Ok (Some recommended))
            is_Exception
            (match potential_fields with
             | (best_guess, _) :: _ => Ok (Some best_guess)
             | [] => Ok None
             end)
    end.

(** * A concrete runtime

    An instance of [Runtime] on which the development can be run: decimal
    literals for [float(str)], and for [datetime.fromisoformat] the layout
    [YYYY-MM-DD], optionally followed by a separator, [HH:MM], [:SS],
    [.fff] or [.ffffff], and a UTC offset [+HH:MM] or [-HH:MM]. *)

Definition digit_of (c : ascii) : option Z :=
  let n := nat_of_ascii c in
  if andb (Nat.leb 48 n) (Nat.leb n 57) then Some (Z.of_nat n - 48) else None.

(** Exactly [n] decimal digits at the head of [s]. *)
Fixpoint read_digits (n : nat) (acc : Z) (s : string) : option (Z * string) :=
  match n with
  | O => Some (acc, s)
  | S n' =>
      match s with
      | String c s' =>
          match digit_of c with
          | Some d => read_digits n' (10 * acc + d) s'
          | None => None
          end
      | EmptyString => None
      end
  end.

Definition expect (c : ascii) (s : string) : option string :=
  match s with
  | String c' s' => if Ascii.eqb c' c then Some s' else None
  | EmptyString => None
  end.

Definition is_leap (y : Z) : bool :=
  ((y mod 4 =? 0) && negb (y mod 100 =? 0)) || (y mod 400 =? 0).

Definition days_in_month (y m : Z) : Z :=
  if m =? 2 then (if is_leap y then 29 else 28)
  else if (m =? 4) || (m =? 6) || (m =? 9) || (m =? 11) then 30
  else 31.

(** Days from 1970-01-01 to the given date of the proleptic Gregorian
    calendar. *)
Definition days_from_civil (y m d : Z) : Z :=
  let y' := if m <=? 2 then y - 1 else y in
  let era := y' / 400 in
  let yoe := y' - era * 400 in
  let doy := (153 * (if 2 <? m then m - 3 else m + 9) + 2) / 5 + d - 1 in
  let doe := yoe * 365 + yoe / 4 - yoe / 100 + doy in
  era * 146097 + doe - 719468.

Definition option_bind {A B} (o : option A) (k : A -> option B) : option B :=
  match o with
  | Some a => k a
  | None => None
  end.

Notation "x <-? c ;; k" := (option_bind c (fun x => k))
  (at level 61, c at next level, right associativity).

(** [+HH:MM] or [-HH:MM] up to the end of the string: the offset in
    microseconds. *)
Definition read_offset (s : string) : option Z :=
  match s with
  | String sign s1 =>
      sgn <-? (if Ascii.eqb sign "+" then Some 1
               else if Ascii.eqb sign "-" then Some (-1) else None) ;;
      hs <-? read_digits 2 0 s1 ;;
      s2 <-? expect ":" (snd hs) ;;
      ms <-? read_digits 2 0 s2 ;;
      match snd ms with
      | EmptyString =>
          if (fst hs <? 24) && (fst ms <? 60)
          then Some (sgn * (fst hs * 3600 + fst ms * 60) * 1000000)
          else None
      | _ => None
      end
  | EmptyString => None
  end.

(** The seconds and the fraction, when present: microseconds and the rest
    of the string. *)
Definition read_seconds (s : string) : option (Z * string) :=
  match expect ":" s with
  | None => Some (0, s)
  | Some s1 =>
      ss <-? read_digits 2 0 s1 ;;
      if 60 <=? fst ss then None
      else
        match expect "." (snd ss) with
        | None => Some (fst ss * 1000000, snd ss)
        | Some s2 =>
            ms <-? read_digits 3 0 s2 ;;
            match read_digits 3 0 (snd ms) with
            | Some us =>
                Some (fst ss * 1000000 + fst ms * 1000 + fst us, snd us)
            | None => Some (fst ss * 1000000 + fst ms * 1000, snd ms)
            end
        end
  end.

Definition iso_fromisoformat (s : string) : option datetime :=
  ys <-? read_digits 4 0 s ;;
  s1 <-? expect "-" (snd ys) ;;
  ms <-? read_digits 2 0 s1 ;;
  s2 <-? expect "-" (snd ms) ;;
  ds <-? read_digits 2 0 s2 ;;
  let y := fst ys in
  let m := fst ms in
  let d := fst ds in
  if negb ((1 <=? y) && (1 <=? m) && (m <=? 12) && (1 <=? d)
           && (d <=? days_in_month y m))
  then None
  else
    let day_us := days_from_civil y m d * 86400 * 1000000 in
    match snd ds with
    | EmptyString => Some (mkDatetime day_us None)
    | String _ s3 =>
        hs <-? read_digits 2 0 s3 ;;
        s4 <-? expect ":" (snd hs) ;;
        mins <-? read_digits 2 0 s4 ;;
        secs <-? read_seconds (snd mins) ;;
        if negb ((fst hs <? 24) && (fst mins <? 60)) then None
        else
          let wall :=
            day_us + (fst hs * 3600 + fst mins * 60) * 1000000 + fst secs in
          match snd secs with
          | EmptyString => Some (mkDatetime wall None)
          | tz => off <-? read_offset tz ;; Some (mkDatetime wall (Some off))
          end
    end.

(** The digits of a decimal literal: the number read so far and the
    number of digits. *)
Fixpoint read_decimal (acc : Z) (n : nat) (s : string) : option (Z * nat) :=
  match s with
  | EmptyString => Some (acc, n)
  | String c s' =>
      match digit_of c with
      | Some d => read_decimal (10 * acc + d) (S n) s'
      | None => None
      end
  end.

(** The integer part of a decimal literal and what follows the point. *)
Fixpoint split_point (s : string) : string * option string :=
  match s with
  | EmptyString => (EmptyString, None)
  | String c s' =>
      if Ascii.eqb c "." then (EmptyString, Some s')
      else let (a, b) := split_point s' in (String c a, b)
  end.

Definition decimal_float_of_str (s : string) : option Q :=
  let (neg, body) :=
    match s with
    | String c s' =>
        if Ascii.eqb c "-" then (true, s')
        else if Ascii.eqb c "+" then (false, s') else (false, s)
    | EmptyString => (false, s)
    end in
  let (int_part, frac_part) := split_point body in
  ip <-? read_decimal 0 0 int_part ;;
  fp <-? read_decimal 0 0 (match frac_part with Some f => f | None => "" end) ;;
  if (Nat.eqb (snd ip) 0) && (Nat.eqb (snd fp) 0) then None
  else
    let q := (inject_Z (fst ip) + inject_Z (fst fp) / inject_Z (10 ^ Z.of_nat (snd fp)))%Q in
    Some (Qred (if neg then - q else q))%Q.

Definition sample_runtime : Runtime :=
  mkRuntime "customfield_10016" decimal_float_of_str iso_fromisoformat.

(** * Vocabulary of the specification *)

(** [fields.get(k)] on a dictionary given by its items. *)
Definition field_of (fields : list (string * json)) (k : string) : json :=
  match lookup k fields with
  | Some v => v
  | None => JNull
  end.

(** The entry [k] of [v] when [v] is a dictionary that has one. *)
Definition entry_of (v : json) (k : string) : json :=
  match v with
  | JObj kv => field_of kv k
  | _ => JNull
  end.

(** [issue] is a dictionary whose entry ['fields'] is the dictionary
    [fields]. *)
Definition has_fields (issue : json) (fields : list (string * json)) : Prop :=
  py_getitem issue "fields" = Ok (JObj fields).

Definition null_or_dict (v : json) : bool :=
  match v with
  | JNull | JObj _ => true
  | _ => false
  end.

Definition null_or_str (v : json) : bool :=
  match v with
  | JNull | JStr _ => true
  | _ => false
  end.

(** The nested entries that the getters dereference have the types of the
    Jira schema: assignee, status, status category and issue type are
    absent, null or a dictionary, and the key of the status category is
    absent or a string. *)
Definition schema_typed (fields : list (string * json)) : bool :=
  let status := field_of fields "status" in
  let status_category := entry_of status "statusCategory" in
  null_or_dict (field_of fields "assignee")
  && null_or_dict status
  && null_or_dict status_category
  && match status_category with
     | JObj kv => match lookup "key" kv with
                  | None | Some (JStr _) => true
                  | Some _ => false
                  end
     | _ => true
     end
  && null_or_dict (field_of fields "issuetype").

(** The display name and the e-mail address of the assignee are absent,
    null or strings. *)
Definition names_typed (fields : list (string * json)) : bool :=
  let assignee := field_of fields "assignee" in
  null_or_str (entry_of assignee "displayName")
  && null_or_str (entry_of assignee "emailAddress").

(** The timestamp that a field value carries: the value is a string that
    [fromisoformat] accepts once [Z] is written [+00:00]. *)
Definition timestamp_of (rt : Runtime) (v : json) : option datetime :=
  match v with
  | JStr s => fromisoformat rt (replace_char "Z"%char "+00:00" s)
  | _ => None
  end.

(** The instant of a [datetime] on the UTC time line, in microseconds; a
    naive value is read as UTC. *)
Definition instant_us (d : datetime) : Z :=
  match utcoffset_us d with
  | Some off => wall_us d - off
  | None => wall_us d
  end.

Definition is_aware (d : datetime) : bool :=
  match utcoffset_us d with
  | Some _ => true
  | None => false
  end.

(** The time from [created] to [resolved], in days. *)
Definition elapsed_days (created resolved : datetime) : Q :=
  (inject_Z (instant_us resolved - instant_us created)
   / inject_Z (86400 * 1000000))%Q.

(** [delta.total_seconds() / (24 * 3600)] in double arithmetic, for a
    [timedelta] of [delta_us] microseconds. *)
Definition float_days (delta_us : Z) : Q :=
  fl (fl (inject_Z delta_us / 1000000) / inject_Z (24 * 3600)).

(** [r] is the double of a number with one decimal, and no number with
    one decimal is nearer to [y]. *)
Definition tenth_of (y r : Q) : Prop :=
  exists d : Z,
    r = fl (inject_Z d / 10) /\ (Qabs (inject_Z d / 10 - y) <= 1 # 20)%Q.

(** [days] is the time from [created] to [resolved] in days, rounded to
    one decimal: the rounding of the double quotient, which is the exact
    number of days up to a relative error of [2^-51]. *)
Definition rounded_days (created resolved : datetime) (days : Q) : Prop :=
  let x := float_days (instant_us resolved - instant_us created) in
  days = round1 x /\
  tenth_of x days /\
  (Qabs (x - elapsed_days created resolved)
   <= Qabs (elapsed_days created resolved) * pow2 (-51))%Q.

(** [100.0 * c / t] on two [int]s, in double arithmetic. *)
Definition float_percent (c t : Z) : Q :=
  fl (fl (100 * fl (inject_Z c)) / fl (inject_Z t)).

(** [100.0 * a / b] on two floats, in double arithmetic. *)
Definition float_percent_of (a b : Q) : Q := fl (fl (100 * a) / b).



(** [float] converts the value without overflow: a number beyond the
    range of a double is an [int] that [float] rejects. *)
Definition in_float_range (v : json) : bool :=
  match v with
  | JNum q => negb (overflows q)
  | _ => true
  end.

(** A value that [float] does not convert: [None] (also for a missing
    entry), a list, a dictionary, or a string that [float] rejects. *)
Definition not_a_number (rt : Runtime) (v : json) : bool :=
  match v with
  | JNum _ | JBool _ => false
  | JStr s => match float_of_str rt s with Some _ => false | None => true end
  | _ => true
  end.

(** Sample issues. *)
Definition issue_with_fields (fields : list (string * json)) : json :=
  JObj [("key", JStr "KPI-1"); ("fields", JObj fields)].

Definition person (name : string) : json :=
  JObj [("displayName", JStr name); ("emailAddress", JStr "dev@example.com")].

Definition status_of (key : string) : json :=
  JObj [("name", JStr "Status");
        ("statusCategory", JObj [("key", JStr key)])].

Definition type_of (name : string) : json := JObj [("name", JStr name)].

(** What one iteration of [compute_metrics] reads from an issue: the
    assignee name, the status category, the issue type, the story points
    and the cycle time. *)
Definition reading : Type := json * string * string * Q * Q.

Definition read_issue (rt : Runtime) (issue : json) : result reading :=
  assignee <- get_assignee_name issue ;;
  status_cat <- get_status_category issue ;;
  issue_type <- get_issue_type issue ;;
  story_points <- get_story_points rt issue ;;
  cycle_time <- get_cycle_time_days rt issue ;;
  if negb (hashable assignee) then Raise TypeError
  else
    match issue_type with
    | JStr t => Ok (assignee, status_cat, t, story_points, cycle_time)
    | JArr _ | JObj _ => Raise TypeError
    | _ => Raise AttributeError
    end.

Definition reading_assignee (r : reading) : json :=
  let '(assignee, _, _, _, _) := r in assignee.

Definition add_reading (metrics : metrics_map) (r : reading) : metrics_map :=
  let '(assignee, status_cat, issue_type, story_points, cycle_time) := r in
  dd_update assignee
    (record_issue status_cat issue_type story_points cycle_time) metrics.

(** The assignee name of the issue equals the key [k]. *)
Definition assigned_to (k : json) (issue : json) : bool :=
  match get_assignee_name issue with
  | Ok name => py_eqb k name
  | Raise _ => false
  end.

(** No two keys of the dictionary are equal. *)
Definition keys_distinct (metrics : metrics_map) : Prop :=
  ForallOrdPairs (fun e1 e2 => py_eqb (fst e1) (fst e2) = false) metrics.

(** The assignee is not ["Unassigned"]. *)
Definition assigned (assignee : json) : bool := negb (py_eqb assignee UNASSIGNED).

Definition assigned_entry (entry : json * bucket) : bool := assigned (fst entry).

(** Sums of a bucket field over the entries whose key satisfies [p]. *)
Definition Zsum_where (p : json -> bool) (f : bucket -> Z)
    (metrics : metrics_map) : Z :=
  Zsum (map (fun e => f (snd e)) (filter (fun e => p (fst e)) metrics)).

Definition Qsum_where (p : json -> bool) (f : bucket -> Q)
    (metrics : metrics_map) : Q :=
  Qsum (map (fun e => f (snd e)) (filter (fun e => p (fst e)) metrics)).

(** [p] does not tell equal keys apart. *)
Definition key_respects (p : json -> bool) : Prop :=
  forall k k', py_eqb k' k = true -> p k' = p k.

Definition every_key (_ : json) : bool := true.

(** The invariants of one bucket, against the issues of the sprint. *)
Definition bucket_invariant (rt : Runtime) (issues : list json) (m : bucket)
    : Prop :=
  completed_issues m <= total_issues m /\
  bug_count m + story_count m <= total_issues m /\
  len (story_points_list m) = total_issues m /\
  forall c, In c (cycle_times m) ->
    (0 < c)%Q /\
    exists issue, In issue issues /\
                  get_status_category issue = Ok "done" /\
                  get_cycle_time_days rt issue = Ok c.

(** A sprint of four issues: two of Ada, one of Bob, one without
    assignee. *)
Definition sprint_issues : list json :=
  [ issue_with_fields
      [("assignee", person "Ada"); ("status", status_of "done");
       ("issuetype", type_of "Bug"); ("customfield_10016", JNum 3);
       ("created", JStr "2024-01-01T09:00:00.000Z");
       ("resolutiondate", JStr "2024-01-03T21:00:00.000Z")];
    issue_with_fields
      [("assignee", person "Ada"); ("status", status_of "indeterminate");
       ("issuetype", type_of "Story"); ("customfield_10016", JNum 5)];
    issue_with_fields
      [("assignee", JNull); ("status", status_of "done");
       ("issuetype", type_of "Task"); ("customfield_10016", JNum 2)];
    issue_with_fields
      [("assignee", person "bob"); ("status", status_of "Done");
       ("issuetype", type_of "Story"); ("customfield_10016", JNum 8);
       ("created", JStr "2024-01-02T00:00:00+02:00");
       ("resolutiondate", JStr "2024-01-02T12:00:00+02:00")] ].

Definition sprint_metrics : metrics_map :=
  Eval vm_compute in
    match compute_metrics sample_runtime sprint_issues with
    | Ok m => m
    | Raise _ => []
    end.

(** The entries of the assignees other than ["Unassigned"]. *)
Definition team_entries (metrics : metrics_map) : metrics_map :=
  filter assigned_entry metrics.

(** The issue has an assignee name other than ["Unassigned"]. *)
Definition has_assignee (issue : json) : bool :=
  match get_assignee_name issue with
  | Ok name => assigned name
  | Raise _ => true
  end.

(** The rows before and after the empty separator row of the report. *)
Fixpoint assignee_section (rows : list row) : list row :=
  match rows with
  | [] => []
  | [] :: _ => []
  | r :: rest => r :: assignee_section rest
  end.

Fixpoint summary_section (rows : list row) : list row :=
  match rows with
  | [] => []
  | [] :: rest => rest
  | _ :: rest => summary_section rest
  end.

(** The value of the summary row labelled [label]. *)
Definition summary_value (label : string) (file : csv_file) : option cell :=
  match find (fun r => match lookup "Assignee" r with
                       | Some (CStr s) => (s =? label)%string
                       | _ => false
                       end)
             (summary_section (written_rows file)) with
  | Some r => lookup "Total Issues" r
  | None => None
  end.

Definition team_velocity (file : csv_file) : option cell :=
  summary_value "Team Velocity (Completed SP)" file.

(** The report of the sample sprint. *)
Definition sprint_report : csv_file :=
  Eval vm_compute in
    match write_csv sprint_metrics with
    | Ok file => file
    | Raise _ => mkCsv [] []
    end.

Definition ada_bucket : bucket :=
  Eval vm_compute in snd (hd (JNull, new_bucket) sprint_metrics).

(** The story points that an issue brings to the velocity: those of a
    completed issue. *)
Definition done_points (rt : Runtime) (issue : json) : Q :=
  match get_status_category issue, get_story_points rt issue with
  | Ok status_cat, Ok points => if is_done status_cat then points else 0%Q
  | _, _ => 0%Q
  end.

(** The same, for the issues that have an assignee only. *)
Definition team_done_points (rt : Runtime) (issue : json) : Q :=
  if has_assignee issue then done_points rt issue else 0%Q.

(** A sprint whose only issue is completed and has no assignee. *)
Definition orphan_sprint : list json :=
  [ issue_with_fields
      [("assignee", JNull); ("status", status_of "done");
       ("issuetype", type_of "Task"); ("customfield_10016", JNum 2)] ].

(** The server holds the issues [all] of the sprint and serves them in
    pages of 100: the page that starts at [100 * k] carries the issues
    from that position on, at most 100 of them, and the number of issues
    of the sprint as [total]. *)
Definition serves_pages (http : JiraServer) (sprint_id : Z)
    (all : list json) : Prop :=
  forall k : nat, exists data,
    sprint_issue_page http sprint_id (Z.of_nat (100 * k)) 100
    = Ok (JObj data) /\
    lookup "issues" data = Some (JArr (firstn 100 (skipn (100 * k) all))) /\
    lookup "total" data = Some (JNum (inject_Z (len all))).

(** What [/rest/agile/1.0/sprint/{id}/issue] answers for a sprint that
    holds the issues [all]. *)
Definition page_of (all : list json) (start_at max_results : Z) : json :=
  JObj [("startAt", JNum (inject_Z start_at));
        ("maxResults", JNum (inject_Z max_results));
        ("total", JNum (inject_Z (len all)));
        ("issues", JArr (firstn (Z.to_nat max_results)
                                (skipn (Z.to_nat start_at) all)))].

(** A field of the metadata list. *)
Definition field_meta (id name : string) : json :=
  JObj [("id", JStr id); ("name", JStr name); ("custom", JBool true)].

Definition sample_metadata : list json :=
  [ field_meta "summary" "Summary";
    field_meta "customfield_10020" "Sprint";
    field_meta "customfield_10030" "T-Shirt Estimate";
    field_meta "customfield_10016" "Story Points";
    field_meta "customfield_10015" "Start date" ].

(** A server that holds the sample sprint under every sprint id, its
    first issue under every issue key, and the fields [metadata]. *)
Definition server_with (all : list json) (metadata : result json)
    : JiraServer :=
  mkServer
    (fun _ => match all with
              | issue :: _ => Ok issue
              | [] => Raise HTTPError
              end)
    (fun _ start_at max_results => Ok (page_of all start_at max_results))
    metadata.

Definition sample_server : JiraServer :=
  server_with sprint_issues (Ok (JArr sample_metadata)).

(** A server that cannot be reached. *)
Definition offline_server : JiraServer :=
  mkServer (fun _ => Raise HTTPError) (fun _ _ _ => Raise HTTPError)
           (Raise HTTPError).

(** A sprint of [n] issues numbered from [from]. *)
Fixpoint numbered_issues (from : Z) (n : nat) : list json :=
  match n with
  | O => []
  | S n' => JObj [("id", JNum (inject_Z from))]
            :: numbered_issues (from + 1) n'
  end.

(** An entry of the field metadata has the types of the Jira schema: a
    dictionary whose [id] and [name], when present, are strings. *)
Definition field_typed (f : json) : bool :=
  match f with
  | JObj kv =>
      match lookup "id" kv with None | Some (JStr _) => true | _ => false end
      && match lookup "name" kv with None | Some (JStr _) => true | _ => false end
  | _ => false
  end.






(** The sample issue is usable: a non-empty dictionary whose [fields]
    entry, when present, is the dictionary [fields]. *)
Definition sample_with_fields (issue : json) (fields : list (string * json))
    : Prop :=
  truthy issue = true /\
  py_get_default issue "fields" (JObj []) = Ok (JObj fields).

(** The order of [sorted] on the items of a dictionary: by key. *)
Definition key_le {V} (x y : string * V) : bool := String.leb (fst x) (fst y).




(** The best guess from the numeric custom fields alone. *)
Definition best_guess (fields : list (string * json)) : option string :=
  match potential_fields_of fields with
  | (id, _) :: _ => Some id
  | [] => None
  end.

(** The first issue of the sample sprint and its fields. *)
Definition first_issue : json := hd JNull sprint_issues.

Definition first_issue_fields : list (string * json) :=
  Eval vm_compute in
    match first_issue with
    | JObj kv => match lookup "fields" kv with
                 | Some (JObj fields) => fields
                 | _ => []
                 end
    | _ => []
    end.

(** Sample issues for the getters. *)
Definition cycle_issue : json :=
  issue_with_fields [("created", JStr "2024-01-01T09:00:00.000Z");
                     ("resolutiondate", JStr "2024-01-03T21:00:00.000+00:00")].

Definition mixed_issue : json :=
  issue_with_fields [("created", JStr "2024-01-01T00:00:00");
                     ("resolutiondate", JStr "2024-01-02T00:00:00Z")].

Definition brief_issue : json :=
  issue_with_fields [("created", JStr "2024-01-01T09:00:00Z");
                     ("resolutiondate", JStr "2024-01-01T10:12:00Z")].

(** An issue whose story points are the JSON integer [10 ** 400]. *)
Definition huge_points_issue : json :=
  issue_with_fields [("customfield_10016", JNum (inject_Z (10 ^ 400)))].

Definition plain_fields : list (string * json) :=
  [("assignee", person "Ada"); ("status", status_of "done");
   ("issuetype", type_of "Bug"); ("customfield_10016", JStr "n/a")].

(** The first [pages] pages that the server serves for the sprint carry
    at most [cap] issues each: the page that starts at [100 * k] carries
    the issues of [all] from that position on, at most [cap] of them, and
    the number of issues of the sprint as [total]. *)
Definition serves_capped (http : JiraServer) (sprint_id : Z)
    (all : list json) (cap pages : nat) : Prop :=
  forall k : nat, (k < pages)%nat -> exists data,
    sprint_issue_page http sprint_id (Z.of_nat (100 * k)) 100
    = Ok (JObj data) /\
    lookup "issues" data = Some (JArr (firstn cap (skipn (100 * k) all))) /\
    lookup "total" data = Some (JNum (inject_Z (len all))).

(** What [n] requests collect from such a server, from page [k] on. *)
Fixpoint capped_blocks (cap : nat) (all : list json) (k n : nat)
    : list json :=
  match n with
  | O => []
  | S n' =>
      (firstn cap (skipn (100 * k) all) ++ capped_blocks cap all (S k) n')%list
  end.

(** A server that holds the issues [all] and caps every page at [cap]
    issues, whatever [maxResults] asks for. *)
Definition capped_server (all : list json) (cap : nat) : JiraServer :=
  mkServer
    (fun _ => Raise HTTPError)
    (fun _ start_at max_results =>
       Ok (page_of all start_at (Z.min max_results (Z.of_nat cap))))
    (Raise HTTPError).

(** A server that serves the pages of [all] that start before [limit]
    and fails on the others. *)
Definition failing_server (all : list json) (limit : Z) : JiraServer :=
  mkServer
    (fun _ => Raise HTTPError)
    (fun _ start_at max_results =>
       if start_at <? limit then Ok (page_of all start_at max_results)
       else Raise HTTPError)
    (Raise HTTPError).

(** A server whose pages carry the issues [page] and nothing else. *)
Definition bare_server (page : list json) : JiraServer :=
  mkServer (fun _ => Raise HTTPError)
           (fun _ _ _ => Ok (JObj [("issues", JArr page)]))
           (Raise HTTPError).

(** The name of the issue type is absent or a string. *)
Definition type_name_typed (fields : list (string * json)) : bool :=
  match field_of fields "issuetype" with
  | JObj kv => match lookup "name" kv with
               | None | Some (JStr _) => true
               | Some _ => false
               end
  | _ => true
  end.

(** [float] converts the story points of the issue without overflow. *)
Definition points_in_range (rt : Runtime) (issue : json) : Prop :=
  forall fields,
    has_fields issue fields ->
    in_float_range (field_of fields (STORY_POINTS_FIELD rt)) = true.

(** The text is ASCII: on such text [lower] is [str.lower], and the order
    of the bytes is the order of the code points. *)
Definition is_ascii (s : string) : bool :=
  forallb (fun c => Nat.ltb (nat_of_ascii c) 128) (list_ascii_of_string s).

Definition ascii_key (k : json) : bool :=
  match k with
  | JStr s => is_ascii s
  | _ => true
  end.

(** An issue with the types of the Jira schema. *)
Definition jira_issue (issue : json) : Prop :=
  exists fields,
    has_fields issue fields /\ schema_typed fields = true /\
    names_typed fields = true /\ type_name_typed fields = true.

Definition is_str (v : json) : bool :=
  match v with
  | JStr _ => true
  | _ => false
  end.

(** The names in the order of their first occurrence. *)
Definition first_occurrences (names : list json) : list json :=
  fold_left
    (fun seen name =>
       if existsb (fun k => py_eqb k name) seen then seen
       else (seen ++ [name])%list)
    names [].

(** The number of issues of the types that [p] selects. *)
Definition count_of_types (p : string -> bool) (counts : list (string * Z))
    : Z :=
  Zsum (map snd (filter (fun e => p (fst e)) counts)).

Definition is_bug_type (t : string) : bool := (lower t =? "bug")%string.
Definition is_story_type (t : string) : bool := (lower t =? "story")%string.

(** What the counts of a bucket keep: every issue is counted under its
    type, once. *)
Definition counts_invariant (m : bucket) : Prop :=
  NoDup (map fst (issue_type_counts m)) /\
  Forall (fun e => 1 <= snd e) (issue_type_counts m) /\
  Zsum (map snd (issue_type_counts m)) = total_issues m /\
  bug_count m = count_of_types is_bug_type (issue_type_counts m) /\
  story_count m = count_of_types is_story_type (issue_type_counts m).

(** A bucket holds at least one issue, and its story points are those of
    its list. *)
Definition bucket_sums_invariant (m : bucket) : Prop :=
  1 <= total_issues m /\ 0 <= completed_issues m /\
  0 <= bug_count m /\ 0 <= story_count m /\
  (total_story_points m == Qsum (story_points_list m))%Q.

(** A sprint whose only issue is assigned to someone whose display name
    is a number. *)
Definition numeric_name_sprint : list json :=
  [ issue_with_fields
      [("assignee", JObj [("displayName", JNum 7)]);
       ("status", status_of "done"); ("issuetype", type_of "Task")] ].

Definition numeric_name_metrics : metrics_map :=
  Eval vm_compute in
    match compute_metrics sample_runtime numeric_name_sprint with
    | Ok m => m
    | Raise _ => []
    end.

(** The issue has a custom field that holds a positive number. *)
Definition has_points (issue : json) : bool :=
  match entry_of issue "fields" with
  | JObj fields =>
      existsb (fun e => is_custom_field (fst e) && is_number (snd e)
                        && is_positive (snd e)) fields
  | _ => false
  end.

(** An issue of a sprint page: a dictionary whose [fields], when present,
    is a dictionary. *)
Definition page_issue_typed (issue : json) : bool :=
  match issue with
  | JObj kv => match lookup "fields" kv with
               | None | Some (JObj _) => true
               | Some _ => false
               end
  | _ => false
  end.

(** The names that the exact patterns accept, lowered. *)
Definition EXACT_NAMES : list string :=
  ["story point"; "story points"; "story point estimate"; "point"; "points"].

(** Metadata with an entry whose name is null. *)
Definition broken_metadata : list json :=
  [ field_meta "customfield_10016" "Story Points";
    JObj [("id", JStr "customfield_10040"); ("name", JNull)] ].

(** A sprint whose second issue is the first with story points. *)
Definition pointed_sprint : list json :=
  [ JObj [("key", JStr "KPI-1"); ("fields", JObj [("customfield_1", JNum 0)])];
    JObj [("key", JStr "KPI-2"); ("fields", JObj [("customfield_1", JNum 5)])] ].

(** ** [ensure_config] and [main] *)

(** The four variables that [jira_sprint_kpi.py] reads with [os.getenv];
    [None] for a variable that is not set. *)
Record Config : Type := mkConfig {
  env_JIRA_BASE_URL : option string;
  env_JIRA_EMAIL : option string;
  env_JIRA_API_TOKEN : option string;
  env_JIRA_STORY_POINTS_FIELD : option string
}.

(** [bool(v)] for the value of an environment variable. *)
Definition is_set (v : option string) : bool :=
  match v with
  | Some s => negb (s =? "")%string
  | None => false
  end.

(** The list [missing] of [ensure_config]. *)
Definition missing_variables (cfg : Config) : list string :=
  ((if is_set (env_JIRA_BASE_URL cfg) then [] else ["JIRA_BASE_URL"])
   ++ (if is_set (env_JIRA_EMAIL cfg) then [] else ["JIRA_EMAIL"])
   ++ (if is_set (env_JIRA_API_TOKEN cfg) then [] else ["JIRA_API_TOKEN"])
   ++ (if is_set (env_JIRA_STORY_POINTS_FIELD cfg) then []
       else ["JIRA_STORY_POINTS_FIELD"]))%list.

(** Ensure required environment variables are set, or exit. *)
Definition ensure_config (cfg : Config) : result unit :=
  match missing_variables cfg with
  | [] => Ok tt
  | _ => Raise SystemExit
  end.

(** The runtime of a run under the configuration [cfg]: the story-points
    field is the one of the environment. *)
Definition runtime_of (cfg : Config) (py : Runtime) : Runtime :=
  mkRuntime
    (match env_JIRA_STORY_POINTS_FIELD cfg with Some f => f | None => "" end)
    (float_of_str py) (fromisoformat py).

(** [main], for the sprint id that [parse_args] returns: the report
    written; [None] when the fetch is still running after [fuel]
    requests. *)
Definition main (fuel : nat) (cfg : Config) (py : Runtime)
    (http : JiraServer) (sprint_id : Z) : option (result csv_file) :=
  match ensure_config cfg with
  | Raise e => Some (Raise e)
  | Ok _ =>
      match fetch_issues_for_sprint fuel http sprint_id with
      | None => None
      | Some (Raise e) => Some (Raise e)
      | Some (Ok issues) =>
          Some (metrics <- compute_metrics (runtime_of cfg py) issues ;;
                write_csv metrics)
      end
  end.

Definition sample_config : Config :=
  mkConfig (Some "https://example.atlassian.net") (Some "dev@example.com")
           (Some "token") (Some "customfield_10016").

(** ** The recommendation, in the words of the specification *)























(** * Properties *)

(** ** The error monad and the Python primitives *)

Lemma bind_Ok {A B} (r : result A) (k : A -> result B) (b : B) :
  bind r k = Ok b -> exists a, r = Ok a /\ k a = Ok b.
Proof.
  destruct r as [a|e]; simpl; intros H; [eauto | discriminate].
Qed.

Lemma py_get_obj (fields : list (string * json)) (k : string) :
  py_get (JObj fields) k = Ok (field_of fields k).
Proof.
  unfold py_get, py_get_default, field_of.
  destruct (lookup k fields); reflexivity.
Qed.

Lemma py_or_null_or_dict (v : json) :
  null_or_dict v = true -> py_or v (JObj []) = JObj (match v with JObj kv => kv | _ => [] end).
Proof.
  destruct v as [| | | | |kv]; simpl; try discriminate; intros _.
  - reflexivity.
  - unfold py_or; simpl. destruct kv; reflexivity.
Qed.

(** ** Doubles *)

Section Doubles.

Local Open Scope Q_scope.

Lemma pow2_pos e : 0 < pow2 e.
Proof. apply Qpower_0_lt. reflexivity. Qed.

Lemma pow2_add a b : pow2 (a + b) == pow2 a * pow2 b.
Proof. apply Qpower_plus. discriminate. Qed.

Lemma pow2_Z n : (0 <= n)%Z -> inject_Z (2 ^ n) == pow2 n.
Proof. intros H. unfold pow2. now rewrite Zpower_Qpower. Qed.

Lemma round_half_even_near (x : Q) :
  x - (1 # 2) <= inject_Z (round_half_even x) <= x + (1 # 2).
Proof.
  pose proof (Qfloor_le x) as Hlo.
  pose proof (Qlt_floor x) as Hhi.
  rewrite inject_Z_plus in Hhi. change (inject_Z 1) with 1 in Hhi.
  unfold round_half_even.
  destruct (Qcompare_spec (x - inject_Z (Qfloor x)) (1 # 2)) as [E|E|E].
  - destruct (Z.even (Qfloor x));
      [|rewrite inject_Z_plus; change (inject_Z 1) with 1]; split; lra.
  - split; lra.
  - rewrite inject_Z_plus. change (inject_Z 1) with 1. split; lra.
Qed.

Lemma round_half_even_below (x : Q) (b : Z) :
  x < inject_Z b + (1 # 2) -> (round_half_even x <= b)%Z.
Proof.
  intros H. destruct (round_half_even_near x) as [_ Hhi].
  assert (Hlt : inject_Z (round_half_even x) < inject_Z (b + 1)).
  { rewrite inject_Z_plus. change (inject_Z 1) with 1. lra. }
  rewrite <- Zlt_Qlt in Hlt. lia.
Qed.

Lemma round_half_even_above (x : Q) (a : Z) :
  inject_Z a - (1 # 2) < x -> (a <= round_half_even x)%Z.
Proof.
  intros H. destruct (round_half_even_near x) as [Hlo _].
  assert (Hlt : inject_Z (a - 1) < inject_Z (round_half_even x)).
  { unfold Z.sub. rewrite inject_Z_plus, inject_Z_opp.
    change (inject_Z 1) with 1. lra. }
  rewrite <- Zlt_Qlt in Hlt. lia.
Qed.

Lemma fl_eq (x : Q) :
  fl x == inject_Z (round_half_even (x / pow2 (binade x))) * pow2 (binade x).
Proof. unfold fl. apply Qred_correct. Qed.

Lemma fl_err (x : Q) : Qabs (fl x - x) <= pow2 (binade x) * (1 # 2).
Proof.
  rewrite fl_eq.
  pose proof (pow2_pos (binade x)) as Hp.
  set (p := pow2 (binade x)) in *.
  destruct (round_half_even_near (x / p)) as [Hlo Hhi].
  set (m := inject_Z (round_half_even (x / p))) in *.
  assert (Ex : x == (x / p) * p) by (field; lra).
  apply Qabs_Qle_condition. split.
  - assert (H : ((x / p) - (1 # 2)) * p <= m * p).
    { apply Qmult_le_compat_r; lra. }
    lra.
  - assert (H : m * p <= ((x / p) + (1 # 2)) * p).
    { apply Qmult_le_compat_r; lra. }
    lra.
Qed.

Lemma log2_bracket (x : Q) :
  ~ x == 0 ->
  pow2 (Z.log2 (Z.abs (Qnum x)) - Z.log2 (Zpos (Qden x)) - 1) <= Qabs x.
Proof.
  destruct x as [n d]. intros Hx. cbn [Qnum Qden].
  assert (Hn : (0 < Z.abs n)%Z).
  { assert (n <> 0%Z); [|lia]. intros ->. apply Hx. reflexivity. }
  destruct (Z.log2_spec (Z.abs n) Hn) as [Ha _].
  destruct (Z.log2_spec (Zpos d) eq_refl) as [_ Hb].
  pose proof (Z.log2_nonneg (Z.abs n)) as Ha0.
  pose proof (Z.log2_nonneg (Zpos d)) as Hb0.
  set (a := Z.log2 (Z.abs n)) in *. set (b := Z.log2 (Zpos d)) in *.
  change (Qabs (n # d)) with (Z.abs n # d).
  rewrite (Qmake_Qdiv (Z.abs n) d).
  apply Qle_shift_div_l; [reflexivity|].
  apply Qle_trans with (pow2 (a - b - 1) * pow2 (Z.succ b)).
  - apply Qmult_le_l; [apply pow2_pos|].
    rewrite <- pow2_Z by lia. rewrite <- Zle_Qle. lia.
  - rewrite <- pow2_add. replace (a - b - 1 + Z.succ b)%Z with a by lia.
    rewrite <- pow2_Z by lia. rewrite <- Zle_Qle. exact Ha.
Qed.

Lemma binade_bracket (x : Q) :
  ~ x == 0 ->
  pow2 52 * pow2 (binade x) <= Qabs x \/ binade x = (-1074)%Z.
Proof.
  intros Hx. unfold binade.
  set (e1 := (Z.log2 (Z.abs (Qnum x)) - Z.log2 (Zpos (Qden x)) - 53)%Z).
  set (e := if Qle_bool (pow2 (e1 + 53)) (Qabs x) then (e1 + 1)%Z else e1).
  destruct (Z.max_spec e (-1074)) as [[_ ->]|[He ->]]; [now right|left].
  rewrite <- pow2_add. subst e.
  destruct (Qle_bool (pow2 (e1 + 53)) (Qabs x)) eqn:E.
  - apply Qle_bool_iff in E. now replace (52 + (e1 + 1))%Z with (e1 + 53)%Z by lia.
  - pose proof (log2_bracket x Hx) as H.
    now replace (52 + e1)%Z
      with (Z.log2 (Z.abs (Qnum x)) - Z.log2 (Zpos (Qden x)) - 1)%Z
      by (subst e1; lia).
Qed.

Lemma fl_near (x : Q) :
  pow2 (-1022) <= Qabs x -> Qabs (fl x - x) <= Qabs x * pow2 (-53).
Proof.
  intros Hn.
  assert (Hx : ~ x == 0).
  { intros E. rewrite E in Hn. revert Hn. apply Qlt_not_le. apply pow2_pos. }
  apply Qle_trans with (1 := fl_err x).
  assert (Hb : pow2 52 * pow2 (binade x) <= Qabs x).
  { destruct (binade_bracket x Hx) as [H|E0]; [exact H|rewrite E0].
    rewrite <- pow2_add. exact Hn. }
  assert (E : pow2 (binade x) * (1 # 2)
              == (pow2 52 * pow2 (binade x)) * pow2 (-53)).
  { assert (E2 : pow2 52 * pow2 (-53) == 1 # 2) by reflexivity.
    rewrite <- E2. ring. }
  rewrite E. apply Qmult_le_compat_r; [exact Hb|]. apply Qlt_le_weak, pow2_pos.
Qed.

Lemma fl_nonneg (x : Q) : 0 <= x -> 0 <= fl x.
Proof.
  intros Hx. rewrite fl_eq.
  pose proof (pow2_pos (binade x)) as Hp.
  apply Qmult_le_0_compat; [|lra].
  change 0 with (inject_Z 0). rewrite <- Zle_Qle.
  apply round_half_even_above. cbn.
  apply Qlt_le_trans with 0; [reflexivity|].
  apply Qle_shift_div_l; [exact Hp|]. lra.
Qed.

Lemma fl_nonpos (x : Q) : x <= 0 -> fl x <= 0.
Proof.
  intros Hx. rewrite fl_eq.
  pose proof (pow2_pos (binade x)) as Hp.
  assert (H : (round_half_even (x / pow2 (binade x)) <= 0)%Z).
  { apply round_half_even_below. cbn.
    apply Qle_lt_trans with 0; [|reflexivity].
    apply Qle_shift_div_r; [exact Hp|]. lra. }
  rewrite Zle_Qle in H. 
  setoid_replace 0 with (0 * pow2 (binade x)) by ring.
  apply Qmult_le_compat_r; [exact H|lra].
Qed.

Lemma pow2_le (a b : Z) : (a <= b)%Z -> pow2 a <= pow2 b.
Proof. intros H. apply Qpower_le_compat_l; [exact H|discriminate]. Qed.

Lemma fl_le_repr (x : Q) (B k : Z) :
  (0 < B < 2 ^ 53)%Z -> (-1074 <= k)%Z ->
  x <= inject_Z B * pow2 k -> fl x <= inject_Z B * pow2 k.
Proof.
  intros [HB0 HB] Hk Hx.
  pose proof (pow2_pos k) as Hpk.
  assert (HBq : 0 < inject_Z B).
  { change 0 with (inject_Z 0). now rewrite <- Zlt_Qlt. }
  destruct (Qlt_le_dec 0 x) as [Hpos|Hneg].
  2:{ apply Qle_trans with 0; [now apply fl_nonpos|].
      apply Qmult_le_0_compat; lra. }
  assert (Hx0 : ~ x == 0) by lra.
  pose proof (pow2_pos (binade x)) as Hp.
  destruct (Z_le_gt_dec (binade x) k) as [Hle|Hgt].
  - rewrite fl_eq.
    assert (Ek : pow2 k == inject_Z (2 ^ (k - binade x)) * pow2 (binade x)).
    { rewrite pow2_Z by lia. rewrite <- pow2_add. now replace (k - binade x + binade x)%Z with k by lia. }
    assert (Hm : (round_half_even (x / pow2 (binade x))
                  <= B * 2 ^ (k - binade x))%Z).
    { apply round_half_even_below. rewrite inject_Z_mult.
      apply Qle_lt_trans with (inject_Z B * inject_Z (2 ^ (k - binade x))); [|lra].
      apply Qle_shift_div_r; [exact Hp|].
      rewrite <- Qmult_assoc, <- Ek. exact Hx. }
    rewrite Zle_Qle, inject_Z_mult in Hm.
    rewrite Ek, Qmult_assoc.
    apply Qmult_le_compat_r; [exact Hm|lra].
  - exfalso.
    destruct (binade_bracket x Hx0) as [Hb|E]; [|lia].
    rewrite Qabs_pos in Hb by lra.
    assert (H1 : pow2 (k + 1) <= pow2 (binade x)) by (apply pow2_le; lia).
    rewrite pow2_add in H1. change (pow2 1) with 2 in H1.
    assert (H2 : inject_Z B < pow2 53).
    { rewrite <- pow2_Z by lia. now rewrite <- Zlt_Qlt. }
    change (pow2 53) with (pow2 52 * 2) in H2.
    assert (H3 : inject_Z B * pow2 k < pow2 52 * 2 * pow2 k).
    { apply Qmult_lt_r; assumption. }
    assert (H4 : pow2 52 * (pow2 k * 2) <= pow2 52 * pow2 (binade x)).
    { apply Qmult_le_l; [apply pow2_pos|exact H1]. }
    lra.
Qed.

(** [round(y, 1)] is the double of a tenth that is nearest to [y]. *)
Lemma round1_tenth (y : Q) :
  exists d : Z,
    round1 y = fl (inject_Z d / 10) /\
    Qabs (inject_Z d / 10 - y) <= 1 # 20.
Proof.
  exists (round_half_even (y * 10)). split; [reflexivity|].
  destruct (round_half_even_near (y * 10)) as [Hlo Hhi].
  apply Qabs_Qle_condition. split.
  - apply Qle_minus_iff. 
    setoid_replace (inject_Z (round_half_even (y * 10)) / 10 - y + - - (1 # 20))
      with ((inject_Z (round_half_even (y * 10)) - (y * 10 - (1 # 2))) / 10) by field.
    apply Qle_shift_div_l; [reflexivity|]. lra.
  - apply Qle_minus_iff.
    setoid_replace ((1 # 20) + - (inject_Z (round_half_even (y * 10)) / 10 - y))
      with (((y * 10 + (1 # 2)) - inject_Z (round_half_even (y * 10))) / 10) by field.
    apply Qle_shift_div_l; [reflexivity|]. lra.
Qed.

Lemma fl_zero (x : Q) : x == 0 -> fl x == 0.
Proof.
  intros E. apply Qle_antisym.
  - apply fl_nonpos. lra.
  - apply fl_nonneg. lra.
Qed.

(** For a positive [x] in the normal range, [fl x] is within a relative
    error of [2^-53]. *)
Lemma fl_within (x : Q) :
  pow2 (-1022) <= x ->
  x * (1 - pow2 (-53)) <= fl x /\ fl x <= x * (1 + pow2 (-53)).
Proof.
  intros Hx.
  assert (H0 : 0 < x).
  { apply Qlt_le_trans with (2 := Hx). apply pow2_pos. }
  pose proof (fl_near x) as H. rewrite (Qabs_pos x) in H by lra.
  specialize (H Hx). apply Qabs_Qle_condition in H. split; lra.
Qed.

Lemma Qdiv_le_compat (a a' b b' : Q) :
  0 <= a -> a <= a' -> 0 < b' -> b' <= b -> a / b <= a' / b'.
Proof.
  intros Ha Haa Hb' Hb.
  apply Qle_trans with (a' / b).
  - apply Qmult_le_compat_r; [exact Haa|].
    apply Qlt_le_weak, Qinv_lt_0_compat. lra.
  - apply Qle_shift_div_l; [exact Hb'|].
    assert (Hr : 0 <= a' / b).
    { apply Qle_shift_div_l; lra. }
    assert (E : a' == a' / b * b) by (field; lra).
    rewrite E at 2. apply Qmult_le_compat_nonneg; split; lra.
Qed.

Lemma fl_int_within (n : Z) :
  (1 <= n)%Z ->
  inject_Z n * (1 - pow2 (-53)) <= fl (inject_Z n) /\
  fl (inject_Z n) <= inject_Z n * (1 + pow2 (-53)).
Proof.
  intros Hn. apply fl_within.
  apply Qle_trans with 1; [discriminate|].
  change 1 with (inject_Z 1). now rewrite <- Zle_Qle.
Qed.

Lemma float_percent_near (c t : Z) :
  (0 <= c)%Z -> (0 < t)%Z -> fl (inject_Z t) < pow2 1024 ->
  Qabs (float_percent c t - 100 * inject_Z c / inject_Z t)
  <= 100 * inject_Z c / inject_Z t * pow2 (-50).
Proof.
  intros Hc Ht Hfin. unfold float_percent.
  assert (Htq : 1 <= inject_Z t).
  { change 1 with (inject_Z 1). rewrite <- Zle_Qle. lia. }
  destruct (fl_int_within t ltac:(lia)) as [HTlo HThi].
  set (T := fl (inject_Z t)) in *.
  set (tq := inject_Z t) in *.
  destruct (Z.eq_dec c 0) as [->|Hc0].
  { assert (E0 : fl (fl (100 * fl (inject_Z 0)) / T) == 0).
    { apply fl_zero. unfold Qdiv.
      assert (E1 : fl (100 * fl (inject_Z 0)) == 0) by reflexivity.
      rewrite E1. ring. }
    assert (Eq0 : 100 * inject_Z 0 / tq == 0).
    { change (inject_Z 0) with 0. unfold Qdiv. ring. }
    rewrite E0, Eq0. apply Qle_bool_iff. reflexivity. }
  assert (Hcq : 1 <= inject_Z c).
  { change 1 with (inject_Z 1). rewrite <- Zle_Qle. lia. }
  destruct (fl_int_within c ltac:(lia)) as [HClo HChi].
  set (C := fl (inject_Z c)) in *.
  set (cq := inject_Z c) in *.
  set (u := pow2 (-53)) in *.
  assert (Hu : u == 1 # 9007199254740992) by reflexivity.
  assert (HC1 : 99 # 100 <= C) by nra.
  destruct (fl_within (100 * C)) as [HMlo HMhi].
  { apply Qle_trans with 1; [discriminate|lra]. }
  fold u in HMlo, HMhi.
  set (M := fl (100 * C)) in *.
  assert (HT0 : 0 < T) by nra.
  assert (HM1 : 98 <= M) by nra.
  destruct (fl_within (M / T)) as [HYlo HYhi].
  { apply Qle_shift_div_l; [exact HT0|].
    apply Qle_trans with (pow2 (-1022) * pow2 1024).
    - apply Qmult_le_l; [apply pow2_pos|lra].
    - rewrite <- pow2_add. change (pow2 (-1022 + 1024)) with 4. lra. }
  fold u in HYlo, HYhi.
  set (y := fl (M / T)) in *.
  set (q := 100 * cq / tq).
  assert (Hq : 0 <= q).
  { apply Qle_shift_div_l; lra. }
  assert (HRhi : M / T <= q * ((1 + u) * (1 + u) / (1 - u))).
  { setoid_replace (q * ((1 + u) * (1 + u) / (1 - u)))
      with ((100 * cq * ((1 + u) * (1 + u))) / (tq * (1 - u)))
      by (unfold q; field; lra).
    apply Qdiv_le_compat; nra. }
  assert (HRlo : q * ((1 - u) * (1 - u) / (1 + u)) <= M / T).
  { setoid_replace (q * ((1 - u) * (1 - u) / (1 + u)))
      with ((100 * cq * ((1 - u) * (1 - u))) / (tq * (1 + u)))
      by (unfold q; field; lra).
    apply Qdiv_le_compat; nra. }
  assert (HR0 : 0 <= M / T).
  { apply Qle_shift_div_l; lra. }
  assert (Kup : (1 + u) * (1 + u) / (1 - u) * (1 + u) <= 1 + pow2 (-50)).
  { rewrite Hu. apply Qle_bool_iff. vm_compute. reflexivity. }
  assert (Klo : 1 - pow2 (-50) <= (1 - u) * (1 - u) / (1 + u) * (1 - u)).
  { rewrite Hu. apply Qle_bool_iff. vm_compute. reflexivity. }
  set (kup := (1 + u) * (1 + u) / (1 - u)) in *.
  set (klo := (1 - u) * (1 - u) / (1 + u)) in *.
  set (R := M / T) in *.
  set (v := pow2 (-50)) in *.
  assert (Hkup : 0 <= kup).
  { unfold kup. rewrite Hu. apply Qle_bool_iff. vm_compute. reflexivity. }
  assert (Hklo : 0 <= klo).
  { unfold klo. rewrite Hu. apply Qle_bool_iff. vm_compute. reflexivity. }
  assert (Hu1 : 0 <= 1 - u) by (rewrite Hu; discriminate).
  assert (Hu2 : 0 <= 1 + u) by (rewrite Hu; discriminate).
  assert (H1 : y <= q * (kup * (1 + u))).
  { apply Qle_trans with (1 := HYhi). rewrite Qmult_assoc.
    apply Qmult_le_compat_r; assumption. }
  assert (H2 : q * (kup * (1 + u)) <= q * (1 + v)).
  { apply Qmult_le_compat_nonneg; split; try lra.
    apply Qmult_le_0_compat; assumption. }
  assert (H3 : q * (klo * (1 - u)) <= y).
  { apply Qle_trans with (2 := HYlo). rewrite Qmult_assoc.
    apply Qmult_le_compat_r; assumption. }
  assert (H4 : q * (1 - v) <= q * (klo * (1 - u))).
  { assert (Hv : 0 <= 1 - v) by (apply Qle_bool_iff; reflexivity).
    apply Qmult_le_compat_nonneg; split; lra. }
  apply Qabs_Qle_condition. split; lra.
Qed.

Lemma Qabs_div_pos (x c : Q) : 0 < c -> Qabs (x / c) == Qabs x / c.
Proof.
  intros Hc. unfold Qdiv. rewrite Qabs_Qmult.
  rewrite (Qabs_pos (/ c)); [reflexivity|].
  apply Qlt_le_weak, Qinv_lt_0_compat, Hc.
Qed.

Lemma rel_err_div (s S y u c : Q) :
  0 < c -> 0 <= u -> u <= 1 ->
  Qabs (S - s) <= Qabs s * u ->
  Qabs (y - S / c) <= Qabs (S / c) * u ->
  Qabs (y - s / c) <= Qabs (s / c) * (4 * u).
Proof.
  intros Hc Hu0 Hu1 HS HY.
  rewrite Qabs_div_pos in HY by exact Hc.
  rewrite Qabs_div_pos by exact Hc.
  pose proof (Qabs_triangle (S - s) s) as Htri.
  assert (E3 : S - s + s == S) by ring. rewrite E3 in Htri.
  assert (E4 : y - s / c == (y - S / c) + (S - s) / c) by (field; lra).
  rewrite E4.
  apply Qle_trans with (1 := Qabs_triangle _ _).
  rewrite (Qabs_div_pos (S - s) c) by exact Hc.
  pose proof (Qabs_nonneg s) as Hs0.
  set (a := Qabs s) in *. set (b := Qabs S) in *.
  set (d := Qabs (S - s)) in *. set (e := Qabs (y - S / c)) in *.
  assert (Hic : 0 <= / c) by (apply Qlt_le_weak, Qinv_lt_0_compat, Hc).
  assert (Ha : 0 <= a / c) by (apply Qmult_le_0_compat; assumption).
  assert (Hbc : b / c <= a / c * (1 + u)).
  { setoid_replace (a / c * (1 + u)) with (a * (1 + u) / c) by (field; lra).
    apply Qmult_le_compat_r; [lra|exact Hic]. }
  assert (Hdc : d / c <= a / c * u).
  { setoid_replace (a / c * u) with (a * u / c) by (field; lra).
    apply Qmult_le_compat_r; [exact HS|exact Hic]. }
  assert (He : e <= a / c * (1 + u) * u).
  { apply Qle_trans with (1 := HY). apply Qmult_le_compat_r; assumption. }
  assert (Huu : a / c * (u * u) <= a / c * u).
  { apply Qmult_le_compat_nonneg; split; try lra.
    - apply Qmult_le_0_compat; assumption.
    - setoid_replace u with (1 * u) at 3 by ring.
      apply Qmult_le_compat_r; assumption. }
  assert (Hau : 0 <= a / c * u) by (apply Qmult_le_0_compat; assumption).
  lra.
Qed.

Lemma float_days_near (delta_us : Z) :
  Qabs (float_days delta_us - inject_Z delta_us / 1000000 / 86400)
  <= Qabs (inject_Z delta_us / 1000000 / 86400) * pow2 (-51).
Proof.
  unfold float_days. change (inject_Z (24 * 3600)) with 86400.
  destruct (Z.eq_dec delta_us 0) as [->|Hd].
  { apply Qle_bool_iff. vm_compute. reflexivity. }
  set (s := inject_Z delta_us / 1000000).
  assert (Hs : 1 # 1000000 <= Qabs s).
  { unfold s. rewrite Qabs_div_pos by reflexivity.
    apply Qle_shift_div_l; [reflexivity|].
    apply Qle_trans with (inject_Z 1); [apply Qle_bool_iff; reflexivity|].
    change (Qabs (inject_Z delta_us)) with (inject_Z (Z.abs delta_us)).
    rewrite <- Zle_Qle. lia. }
  assert (Hn : pow2 (-1022) <= Qabs s).
  { apply Qle_trans with (2 := Hs). apply Qle_bool_iff. vm_compute. reflexivity. }
  pose proof (fl_near s Hn) as HS.
  assert (Hu : pow2 (-53) <= 1 # 2) by (apply Qle_bool_iff; vm_compute; reflexivity).
  assert (Hu0 : 0 <= pow2 (-53)) by (apply Qlt_le_weak, pow2_pos).
  assert (Ev : pow2 (-51) == 4 * pow2 (-53)) by (vm_compute; reflexivity).
  rewrite Ev.
  assert (Hu1 : pow2 (-53) <= 1) by (apply Qle_bool_iff; vm_compute; reflexivity).
  apply rel_err_div with (S := fl s); [reflexivity|exact Hu0|exact Hu1|exact HS|].
  apply fl_near. rewrite Qabs_div_pos by reflexivity.
  apply Qle_shift_div_l; [reflexivity|].
  apply Qle_trans with (1 # 2000000); [apply Qle_bool_iff; vm_compute; reflexivity|].
  pose proof (Qabs_triangle_reverse s (s - fl s)) as Hrev.
  assert (E1 : s - (s - fl s) == fl s) by ring. rewrite E1 in Hrev.
  assert (E2 : Qabs (s - fl s) == Qabs (fl s - s)).
  { rewrite <- (Qabs_opp (s - fl s)). apply Qabs_wd. ring. }
  rewrite E2 in Hrev.
  assert (Hau : Qabs s * pow2 (-53) <= Qabs s * (1 # 2)).
  { apply Qmult_le_l; [lra|exact Hu]. }
  lra.
Qed.

End Doubles.

(** ** Field extraction *)

Section Getters.

Variable rt : Runtime.
Variable issue : json.
Variable fields : list (string * json).
Hypothesis Hfields : has_fields issue fields.

Lemma get_assignee_name_eq :
  get_assignee_name issue =
  match field_of fields "assignee" with
  | JNull => Ok (JStr "Unassigned")
  | JObj kv =>
      if truthy (field_of kv "displayName") then Ok (field_of kv "displayName")
      else Ok (py_or (field_of kv "emailAddress") (JStr "Unknown"))
  | _ => Raise AttributeError
  end.
Proof.
  unfold get_assignee_name. rewrite Hfields. cbn [bind].
  rewrite py_get_obj. cbn [bind].
  destruct (field_of fields "assignee") as [| | | | |kv]; try reflexivity.
  rewrite !py_get_obj. cbn [bind].
  destruct (truthy (field_of kv "displayName")); reflexivity.
Qed.

Lemma get_story_points_eq :
  get_story_points rt issue =
  match field_of fields (STORY_POINTS_FIELD rt) with
  | JNum q => if overflows q then Raise OverflowError else Ok (fl q)
  | JBool b => Ok (if b then 1 else 0)%Q
  | JStr s => Ok match float_of_str rt s with Some q => q | None => 0%Q end
  | _ => Ok 0%Q
  end.
Proof.
  unfold get_story_points. rewrite Hfields. cbn [bind].
  rewrite py_get_obj. cbn [bind].
  destruct (field_of fields (STORY_POINTS_FIELD rt)) as [| |q|s| |];
    try reflexivity.
  - unfold py_float, try_except. destruct (overflows q); reflexivity.
  - unfold py_float, try_except. destruct (float_of_str rt s); reflexivity.
Qed.

Lemma get_issue_type_eq :
  null_or_dict (field_of fields "issuetype") = true ->
  get_issue_type issue =
  Ok match lookup "name" (match field_of fields "issuetype" with
                          | JObj kv => kv
                          | _ => []
                          end) with
     | Some v => v
     | None => JStr "Unknown"
     end.
Proof.
  intros H. unfold get_issue_type. rewrite Hfields. cbn [bind].
  rewrite py_get_obj. cbn [bind].
  rewrite (py_or_null_or_dict _ H). unfold py_get_default.
  destruct (lookup "name" _); reflexivity.
Qed.

Lemma get_status_category_total :
  schema_typed fields = true -> exists s, get_status_category issue = Ok s.
Proof.
  unfold schema_typed. rewrite !andb_true_iff.
  intros [[[[_ Hs] Hc] Hk] _].
  unfold get_status_category. rewrite Hfields. cbn [bind].
  rewrite py_get_obj. cbn [bind].
  rewrite (py_or_null_or_dict _ Hs).
  rewrite py_get_obj. cbn [bind].
  assert (E : field_of match field_of fields "status" with
                       | JObj kv => kv
                       | _ => []
                       end "statusCategory"
              = entry_of (field_of fields "status") "statusCategory").
  { destruct (field_of fields "status"); reflexivity. }
  rewrite E. rewrite (py_or_null_or_dict _ Hc).
  destruct (entry_of (field_of fields "status") "statusCategory")
    as [| | | | |kv]; try discriminate.
  - eexists; reflexivity.
  - unfold py_get_default.
    destruct (lookup "key" kv) as [[| | |s| |]|]; try discriminate;
      cbn [bind]; eexists; reflexivity.
Qed.

(** The body of [get_cycle_time_days] catches every exception that it can
    raise once [issue["fields"]] is a dictionary. *)
Lemma get_cycle_time_days_eq :
  get_cycle_time_days rt issue =
  Ok (let created := field_of fields "created" in
      let resolved := field_of fields "resolutiondate" in
      if negb (truthy created) || negb (truthy resolved) then 0%Q
      else
        match timestamp_of rt created, timestamp_of rt resolved with
        | Some created_dt, Some resolved_dt =>
            match datetime_sub resolved_dt created_dt with
            | Ok delta => round1 (float_days delta)
            | Raise _ => 0%Q
            end
        | _, _ => 0%Q
        end).
Proof.
  unfold get_cycle_time_days.
  repeat (first [rewrite Hfields | rewrite py_get_obj]; cbn [bind]).
  destruct (negb (truthy (field_of fields "created"))
            || negb (truthy (field_of fields "resolutiondate"))) eqn:E;
    cbn zeta; rewrite ?E; [reflexivity|].
  destruct (field_of fields "created") as [| | |c| |];
    [reflexivity|reflexivity|reflexivity| |reflexivity|reflexivity].
  cbn [py_replace_Z bind timestamp_of]. unfold py_fromisoformat.
  destruct (fromisoformat rt (replace_char "Z" "+00:00" c)) as [dc|];
    [|reflexivity].
  cbn [bind].
  destruct (field_of fields "resolutiondate") as [| | |r| |];
    [reflexivity|reflexivity|reflexivity| |reflexivity|reflexivity].
  cbn [py_replace_Z bind timestamp_of].
  destruct (fromisoformat rt (replace_char "Z" "+00:00" r)) as [dr|];
    [|reflexivity].
  cbn [bind].
  unfold datetime_sub, py_div, float_days, total_seconds.
  change (Qeq_bool (inject_Z (24 * 3600)) 0) with false.
  destruct (utcoffset_us dr), (utcoffset_us dc); reflexivity.
Qed.

End Getters.

Lemma datetime_sub_instant (created resolved : datetime) (delta : Z) :
  datetime_sub resolved created = Ok delta ->
  delta = instant_us resolved - instant_us created.
Proof.
  unfold datetime_sub, instant_us.
  destruct (utcoffset_us resolved), (utcoffset_us created);
    intros H; inversion H; reflexivity.
Qed.

Lemma elapsed_days_eq (created resolved : datetime) :
  (elapsed_days created resolved
   == inject_Z (instant_us resolved - instant_us created) / 1000000 / 86400)%Q.
Proof.
  unfold elapsed_days.
  change (inject_Z (86400 * 1000000)) with (1000000 * 86400)%Q.
  field.
Qed.

Lemma datetime_sub_aware (a b : datetime) :
  match datetime_sub a b with
  | Ok _ => Bool.eqb (is_aware b) (is_aware a) = true
  | Raise _ => Bool.eqb (is_aware b) (is_aware a) = false
  end.
Proof.
  unfold datetime_sub, is_aware.
  destruct (utcoffset_us a), (utcoffset_us b); reflexivity.
Qed.

Lemma rounded_days_round1 (created resolved : datetime) :
  rounded_days created resolved
    (round1 (float_days (instant_us resolved - instant_us created))).
Proof.
  unfold rounded_days. cbv zeta. split; [reflexivity|].
  split; [apply round1_tenth|].
  rewrite (elapsed_days_eq created resolved). apply float_days_near.
Qed.

(** C4, as amended.  For an issue whose [fields] is a dictionary,
    [get_cycle_time_days] returns without raising.  When [created] and
    [resolutiondate] both carry a timestamp and both are timezone-aware or
    both naive, it returns the time from creation to resolution in days,
    rounded to one decimal: the value is [round(x, 1)] for the double [x]
    that [delta.total_seconds() / (24 * 3600)] yields, it is the double of
    a number with one decimal that is nearest to [x], and [x] is the exact
    number of days up to a relative error of [2^-51].  When exactly one of
    the two is timezone-aware, or one of the two fields is missing or
    carries no timestamp, it returns 0.0. *)
Theorem get_cycle_time_days_spec (rt : Runtime) (issue : json)
    (fields : list (string * json)) :
  has_fields issue fields ->
  fromisoformat rt "" = None ->
  exists days,
    get_cycle_time_days rt issue = Ok days /\
    match timestamp_of rt (field_of fields "created"),
          timestamp_of rt (field_of fields "resolutiondate") with
    | Some created, Some resolved =>
        if Bool.eqb (is_aware created) (is_aware resolved)
        then rounded_days created resolved days
        else days = 0%Q
    | _, _ => days = 0%Q
    end.
Proof.
  intros Hf Hempty. rewrite (get_cycle_time_days_eq rt issue fields Hf).
  eexists. split; [reflexivity|]. cbn zeta.
  assert (Hfalsy : forall v, truthy v = false -> timestamp_of rt v = None).
  { intros [| | |s| |] Hv; try reflexivity. simpl in Hv.
    apply negb_false_iff, String.eqb_eq in Hv. subst s. exact Hempty. }
  destruct (truthy (field_of fields "created")) eqn:Tc; cbn [negb orb].
  - destruct (truthy (field_of fields "resolutiondate")) eqn:Tr; cbn [negb orb].
    + destruct (timestamp_of rt (field_of fields "created")) as [c|];
        [|reflexivity].
      destruct (timestamp_of rt (field_of fields "resolutiondate")) as [r|];
        [|reflexivity].
      pose proof (datetime_sub_aware r c) as Ha.
      pose proof (datetime_sub_instant c r) as He.
      destruct (datetime_sub r c) as [delta|e]; rewrite Ha.
      * rewrite (He delta eq_refl). apply rounded_days_round1.
      * reflexivity.
    + rewrite (Hfalsy _ Tr).
      destruct (timestamp_of rt (field_of fields "created")); reflexivity.
  - rewrite (Hfalsy _ Tc). reflexivity.
Qed.

Lemma get_cycle_time_days_spec_witness :
  exists days created resolved,
    get_cycle_time_days sample_runtime cycle_issue = Ok days /\
    timestamp_of sample_runtime (JStr "2024-01-01T09:00:00.000Z")
    = Some created /\
    timestamp_of sample_runtime (JStr "2024-01-03T21:00:00.000+00:00")
    = Some resolved /\
    rounded_days created resolved days /\
    days = (5 # 2)%Q.
Proof.
  destruct (get_cycle_time_days_spec sample_runtime cycle_issue
              [("created", JStr "2024-01-01T09:00:00.000Z");
               ("resolutiondate", JStr "2024-01-03T21:00:00.000+00:00")]
              eq_refl eq_refl) as [days [Hdays Hspec]].
  exists days. eexists. eexists.
  split; [exact Hdays|].
  split; [vm_compute; reflexivity|]. split; [vm_compute; reflexivity|].
  split; [exact Hspec|].
  assert (E : Ok days = Ok (5 # 2)%Q).
  { rewrite <- Hdays. vm_compute. reflexivity. }
  now inversion E.
Defined.

(** A cycle time of 72 minutes is 0.05 days: the double nearest to 0.05 is
    above it, and the value rounds to 0.1. *)
Example get_cycle_time_days_72_minutes :
  get_cycle_time_days sample_runtime brief_issue = Ok (fl (1 # 10)) /\
  fl (1 # 10) = (3602879701896397 # 36028797018963968)%Q.
Proof. split; vm_compute; reflexivity. Qed.

(** C4 as stated fails: both fields carry a timestamp, a day apart, and
    the cycle time is 0.0 because only one of them has a UTC offset. *)
Lemma get_cycle_time_days_mixed_awareness :
  exists created resolved,
    timestamp_of sample_runtime (JStr "2024-01-01T00:00:00") = Some created /\
    timestamp_of sample_runtime (JStr "2024-01-02T00:00:00Z") = Some resolved /\
    (elapsed_days created resolved == 1)%Q /\
    get_cycle_time_days sample_runtime mixed_issue = Ok 0%Q /\
    ~ (0 == round1 (elapsed_days created resolved))%Q.
Proof.
  exists (mkDatetime 1704067200000000 None),
         (mkDatetime 1704153600000000 (Some 0)).
  split; [vm_compute; reflexivity|]. split; [vm_compute; reflexivity|].
  split; [vm_compute; reflexivity|]. split; [vm_compute; reflexivity|].
  intros H. vm_compute in H. discriminate H.
Qed.

Lemma truthy_str_nonempty (v : json) :
  null_or_str v = true -> truthy v = true -> exists s, v = JStr s /\ s <> "".
Proof.
  destruct v as [| | |s| |]; simpl; try discriminate.
  intros _ H. exists s. split; [reflexivity|].
  intros ->. discriminate.
Qed.

(** C9, as amended.  For every issue whose [fields] is a dictionary:
    [get_cycle_time_days] returns without raising; [get_story_points]
    returns without raising unless the story-points value is a number
    beyond the range of a double, for which it raises [OverflowError]; and
    [get_story_points] returns 0.0 for a missing or null value, a list, a
    dictionary or a string that [float] rejects.  When moreover assignee,
    status, status category and issue type are each absent, null or a
    dictionary and the key of the status category is absent or a string,
    [get_assignee_name], [get_status_category] and [get_issue_type] return
    without raising; and when the display name and the e-mail address of
    the assignee are absent, null or strings, [get_assignee_name] returns a
    non-empty string. *)
Theorem field_extraction_total (rt : Runtime) (issue : json)
    (fields : list (string * json)) :
  has_fields issue fields ->
  (in_float_range (field_of fields (STORY_POINTS_FIELD rt)) = true ->
   exists sp, get_story_points rt issue = Ok sp /\
     (not_a_number rt (field_of fields (STORY_POINTS_FIELD rt)) = true ->
      sp = 0%Q)) /\
  (in_float_range (field_of fields (STORY_POINTS_FIELD rt)) = false ->
   get_story_points rt issue = Raise OverflowError) /\
  (exists days, get_cycle_time_days rt issue = Ok days) /\
  (schema_typed fields = true ->
     (exists name, get_assignee_name issue = Ok name /\
        (names_typed fields = true -> exists s, name = JStr s /\ s <> "")) /\
     (exists status_cat, get_status_category issue = Ok status_cat) /\
     (exists issue_type, get_issue_type issue = Ok issue_type)).
Proof.
  intros Hf. split; [|split; [|split]].
  - rewrite (get_story_points_eq rt issue fields Hf).
    unfold in_float_range, not_a_number.
    destruct (field_of fields (STORY_POINTS_FIELD rt)) as [| |q|s| |];
      intros Hr; try (eexists; split; [reflexivity|]; intros H;
                      reflexivity || discriminate H).
    + apply negb_true_iff in Hr. rewrite Hr. eexists.
      split; [reflexivity | discriminate].
    + eexists. split; [reflexivity|].
      destruct (float_of_str rt s); [discriminate | reflexivity].
  - rewrite (get_story_points_eq rt issue fields Hf).
    unfold in_float_range.
    destruct (field_of fields (STORY_POINTS_FIELD rt)) as [| |q|s| |];
      try discriminate.
    intros Hr. apply negb_false_iff in Hr. now rewrite Hr.
  - rewrite (get_cycle_time_days_eq rt issue fields Hf). eexists. reflexivity.
  - intros Hs. split; [|split].
    + rewrite (get_assignee_name_eq issue fields Hf).
      unfold names_typed.
      pose proof Hs as Hs'. unfold schema_typed in Hs'.
      rewrite !andb_true_iff in Hs'. destruct Hs' as [[[[Ha _] _] _] _].
      destruct (field_of fields "assignee") as [| | | | |kv];
        try discriminate; cbn [entry_of].
      * eexists. split; [reflexivity|]. intros _. eexists.
        split; [reflexivity | discriminate].
      * destruct (truthy (field_of kv "displayName")) eqn:Td.
        -- eexists. split; [reflexivity|]. rewrite andb_true_iff.
           intros [Hd _]. now apply truthy_str_nonempty.
        -- eexists. split; [reflexivity|]. rewrite andb_true_iff.
           intros [_ He]. unfold py_or.
           destruct (truthy (field_of kv "emailAddress")) eqn:Te.
           ++ now apply truthy_str_nonempty.
           ++ eexists. split; [reflexivity | discriminate].
    + exact (get_status_category_total issue fields Hf Hs).
    + rewrite (get_issue_type_eq issue fields Hf); [eexists; reflexivity|].
      unfold schema_typed in Hs. rewrite !andb_true_iff in Hs. tauto.
Qed.

Lemma field_extraction_total_witness :
  get_story_points sample_runtime (issue_with_fields plain_fields) = Ok 0%Q /\
  (exists days,
     get_cycle_time_days sample_runtime (issue_with_fields plain_fields)
     = Ok days) /\
  (exists s, get_assignee_name (issue_with_fields plain_fields) = Ok (JStr s)
             /\ s <> "") /\
  (exists status_cat,
     get_status_category (issue_with_fields plain_fields) = Ok status_cat) /\
  (exists issue_type,
     get_issue_type (issue_with_fields plain_fields) = Ok issue_type).
Proof.
  destruct (field_extraction_total sample_runtime
              (issue_with_fields plain_fields) plain_fields eq_refl)
    as [Hpoints [_ [Hdays Hshape]]].
  destruct (Hpoints eq_refl) as [sp [Hsp Hzero]].
  destruct (Hshape eq_refl) as [[name [Hname Hstr]] [Hstatus Htype]].
  destruct (Hstr eq_refl) as [s [Hs Hne]].
  split; [|split; [|split; [|split]]].
  - rewrite Hsp. f_equal. apply Hzero. reflexivity.
  - exact Hdays.
  - exists s. split; [now rewrite Hname, Hs | exact Hne].
  - exact Hstatus.
  - exact Htype.
Defined.

(** C9 as stated fails: the entry ['fields'] is a dictionary, and
    [get_status_category] raises on a null status-category key,
    [get_assignee_name] returns a number for a numeric display name, and
    [get_story_points] raises on story points that are an integer beyond
    the range of a double. *)
Lemma field_extraction_not_total :
  let null_key :=
    JObj [("fields",
           JObj [("status", JObj [("statusCategory", JObj [("key", JNull)])])])] in
  let numeric_name :=
    JObj [("fields", JObj [("assignee", JObj [("displayName", JNum 7)])])] in
  (exists fields, has_fields null_key fields) /\
  get_status_category null_key = Raise AttributeError /\
  (exists fields, has_fields numeric_name fields) /\
  get_assignee_name numeric_name = Ok (JNum 7) /\
  (exists fields, has_fields huge_points_issue fields) /\
  get_story_points sample_runtime huge_points_issue = Raise OverflowError.
Proof.
  cbv zeta. split; [eexists; reflexivity|]. split; [reflexivity|].
  split; [eexists; reflexivity|]. split; [reflexivity|].
  split; [eexists; reflexivity|]. vm_compute. reflexivity.
Qed.

(** ** [compute_metrics] as a fold over readings *)

Lemma compute_metrics_step_eq (rt : Runtime) (metrics : metrics_map)
    (issue : json) :
  compute_metrics_step rt metrics issue =
  (r <- read_issue rt issue ;; Ok (add_reading metrics r)).
Proof.
  unfold compute_metrics_step, read_issue.
  destruct (get_assignee_name issue) as [a|]; [|reflexivity]. cbn [bind].
  destruct (get_status_category issue) as [s|]; [|reflexivity]. cbn [bind].
  destruct (get_issue_type issue) as [t|]; [|reflexivity]. cbn [bind].
  destruct (get_story_points rt issue) as [sp|]; [|reflexivity]. cbn [bind].
  destruct (get_cycle_time_days rt issue) as [ct|]; [|reflexivity]. cbn [bind].
  destruct (negb (hashable a)); [reflexivity|].
  destruct t; reflexivity.
Qed.

Lemma foldM_step_readings (rt : Runtime) (issues : list json) :
  forall (m0 m : metrics_map),
    foldM (compute_metrics_step rt) issues m0 = Ok m <->
    exists rs, mapM (read_issue rt) issues = Ok rs
               /\ m = fold_left add_reading rs m0.
Proof.
  induction issues as [|issue issues IH]; intros m0 m; simpl.
  - split.
    + intros H. inversion H. exists []. split; reflexivity.
    + intros [rs [H ->]]. inversion H. reflexivity.
  - rewrite compute_metrics_step_eq.
    destruct (read_issue rt issue) as [r|e]; cbn [bind].
    + rewrite IH. split.
      * intros [rs [H ->]]. exists (r :: rs). rewrite H. split; reflexivity.
      * intros [rs [H ->]].
        destruct (mapM (read_issue rt) issues) as [rs'|]; [|discriminate].
        inversion H; subst. exists rs'. split; reflexivity.
    + split; [discriminate|]. intros [rs [H _]]. discriminate.
Qed.

Lemma compute_metrics_readings (rt : Runtime) (issues : list json)
    (m : metrics_map) :
  compute_metrics rt issues = Ok m <->
  exists rs, mapM (read_issue rt) issues = Ok rs
             /\ m = fold_left add_reading rs [].
Proof. apply foldM_step_readings. Qed.

Lemma read_issue_Ok (rt : Runtime) (issue : json) (a : json) (s t : string)
    (sp ct : Q) :
  read_issue rt issue = Ok (a, s, t, sp, ct) ->
  get_assignee_name issue = Ok a /\ get_status_category issue = Ok s /\
  get_issue_type issue = Ok (JStr t) /\ get_story_points rt issue = Ok sp /\
  get_cycle_time_days rt issue = Ok ct /\ hashable a = true.
Proof.
  unfold read_issue.
  destruct (get_assignee_name issue) as [a'|]; [|discriminate]. cbn [bind].
  destruct (get_status_category issue) as [s'|]; [|discriminate]. cbn [bind].
  destruct (get_issue_type issue) as [t'|]; [|discriminate]. cbn [bind].
  destruct (get_story_points rt issue) as [sp'|]; [|discriminate]. cbn [bind].
  destruct (get_cycle_time_days rt issue) as [ct'|]; [|discriminate].
  cbn [bind].
  destruct (hashable a') eqn:Hh; cbn [negb]; [|discriminate].
  destruct t'; try discriminate.
  intros H. inversion H; subst. repeat split; reflexivity || assumption.
Qed.

Lemma mapM_Ok_Forall2 {A B} (f : A -> result B) (l : list A) (l' : list B) :
  mapM f l = Ok l' <-> Forall2 (fun x y => f x = Ok y) l l'.
Proof.
  revert l'. induction l as [|x l IH]; intros l'; simpl.
  - split.
    + intros H. inversion H. constructor.
    + intros H. inversion H. reflexivity.
  - split.
    + destruct (f x) as [y|] eqn:E; [|discriminate]. cbn [bind].
      destruct (mapM f l) as [ys|]; [|discriminate]. cbn [bind].
      intros H. inversion H; subst. constructor; [exact E|].
      now apply IH.
    + intros H. inversion H as [|? y ? ys Hx Hl]; subst.
      rewrite Hx. cbn [bind]. apply IH in Hl. rewrite Hl. reflexivity.
Qed.

(** ** Sums over the buckets *)

Lemma Qsum_app (l1 l2 : list Q) : (Qsum (l1 ++ l2) == Qsum l1 + Qsum l2)%Q.
Proof.
  induction l1 as [|x l1 IH]; simpl.
  - ring.
  - rewrite IH. ring.
Qed.

Lemma Zsum_app (l1 l2 : list Z) : Zsum (l1 ++ l2) = Zsum l1 + Zsum l2.
Proof. induction l1 as [|x l1 IH]; simpl; lia. Qed.

Lemma len_app {A} (l1 l2 : list A) : len (l1 ++ l2) = len l1 + len l2.
Proof. unfold len. rewrite length_app. lia. Qed.

Lemma every_key_respects : key_respects every_key.
Proof. intros k k' _. reflexivity. Qed.

Lemma py_eqb_str_r (k : json) (s : string) :
  py_eqb k (JStr s) = true -> k = JStr s.
Proof.
  destruct k as [|b|q|t|l|kv]; simpl; try discriminate;
    try (destruct b; discriminate).
  intros H. apply String.eqb_eq in H. now subst.
Qed.

Lemma py_eqb_str_l (k : json) (s : string) :
  py_eqb (JStr s) k = true -> k = JStr s.
Proof.
  destruct k as [|b|q|t|l|kv]; simpl; try discriminate.
  intros H. apply String.eqb_eq in H. now subst.
Qed.

Lemma assigned_respects : key_respects assigned.
Proof.
  intros k k' H. unfold assigned, UNASSIGNED. f_equal.
  destruct (py_eqb k' (JStr "Unassigned")) eqn:E1.
  - apply py_eqb_str_r in E1. subst k'. apply py_eqb_str_l in H. subst k.
    reflexivity.
  - destruct (py_eqb k (JStr "Unassigned")) eqn:E2; [|reflexivity].
    apply py_eqb_str_r in E2. subst k. apply py_eqb_str_r in H. subst k'.
    simpl in E1. discriminate.
Qed.

Section SumsOverBuckets.

Variable p : json -> bool.
Hypothesis Hp : key_respects p.
Variable k : json.
Variable g : bucket -> bucket.

Lemma Zsum_where_dd_update (f : bucket -> Z) (delta : Z) (m : metrics_map) :
  (forall b, f (g b) = f b + delta) -> f new_bucket = 0 ->
  Zsum_where p f (dd_update k g m)
  = Zsum_where p f m + (if p k then delta else 0).
Proof.
  intros Hg H0. unfold Zsum_where.
  induction m as [|[k' b] m IH]; simpl.
  - destruct (p k); simpl; rewrite ?Hg, ?H0; lia.
  - destruct (py_eqb k' k) eqn:E; simpl.
    + rewrite (Hp _ _ E). destruct (p k); simpl; rewrite ?Hg; lia.
    + destruct (p k'); simpl; rewrite IH; lia.
Qed.

Lemma Qsum_where_dd_update (f : bucket -> Q) (delta : Q) (m : metrics_map) :
  (forall b, f (g b) == f b + delta)%Q -> (f new_bucket == 0)%Q ->
  (Qsum_where p f (dd_update k g m)
   == Qsum_where p f m + (if p k then delta else 0))%Q.
Proof.
  intros Hg H0. unfold Qsum_where.
  induction m as [|[k' b] m IH]; simpl.
  - destruct (p k); simpl; rewrite ?Hg, ?H0; ring.
  - destruct (py_eqb k' k) eqn:E; simpl.
    + rewrite (Hp _ _ E). destruct (p k); simpl; rewrite ?Hg; ring.
    + destruct (p k'); simpl; rewrite IH; ring.
Qed.

Lemma filter_dd_update (m : metrics_map) :
  filter (fun e => p (fst e)) (dd_update k g m)
  = if p k then dd_update k g (filter (fun e => p (fst e)) m)
    else filter (fun e => p (fst e)) m.
Proof.
  induction m as [|[k' b] m IH]; simpl.
  - destruct (p k); reflexivity.
  - destruct (py_eqb k' k) eqn:E; simpl.
    + rewrite (Hp _ _ E). destruct (p k); simpl; [|reflexivity].
      rewrite E. reflexivity.
    + rewrite IH. destruct (p k'), (p k); simpl; rewrite ?E; reflexivity.
Qed.

End SumsOverBuckets.

Section SumsOverReadings.

Variable p : json -> bool.
Hypothesis Hp : key_respects p.

Lemma Zsum_where_fold (f : bucket -> Z) (delta : reading -> Z) :
  (forall a s t sp ct b,
      f (record_issue s t sp ct b) = f b + delta (a, s, t, sp, ct)) ->
  f new_bucket = 0 ->
  forall rs m0,
    Zsum_where p f (fold_left add_reading rs m0)
    = Zsum_where p f m0
      + Zsum (map (fun r => if p (reading_assignee r) then delta r else 0) rs).
Proof.
  intros Hd H0. induction rs as [|r rs IH]; intros m0; simpl.
  - lia.
  - rewrite IH. destruct r as [[[[a s] t] sp] ct]. simpl.
    rewrite (Zsum_where_dd_update p Hp a _ f (delta (a, s, t, sp, ct)));
      [lia | intros b; apply Hd | exact H0].
Qed.

Lemma Qsum_where_fold (f : bucket -> Q) (delta : reading -> Q) :
  (forall a s t sp ct b,
      f (record_issue s t sp ct b) == f b + delta (a, s, t, sp, ct))%Q ->
  (f new_bucket == 0)%Q ->
  forall rs m0,
    (Qsum_where p f (fold_left add_reading rs m0)
     == Qsum_where p f m0
        + Qsum (map (fun r => if p (reading_assignee r) then delta r else 0) rs))%Q.
Proof.
  intros Hd H0. induction rs as [|r rs IH]; intros m0; simpl.
  - ring.
  - rewrite IH. destruct r as [[[[a s] t] sp] ct]. simpl.
    rewrite (Qsum_where_dd_update p Hp a _ f (delta (a, s, t, sp, ct)));
      [ring | intros b; apply Hd | exact H0].
Qed.

Lemma filter_fold_readings (rs : list reading) :
  forall m0,
    filter (fun e => p (fst e)) (fold_left add_reading rs m0)
    = fold_left add_reading (filter (fun r => p (reading_assignee r)) rs)
                (filter (fun e => p (fst e)) m0).
Proof.
  induction rs as [|r rs IH]; intros m0; simpl; [reflexivity|].
  rewrite IH. destruct r as [[[[a s] t] sp] ct]. simpl.
  rewrite (filter_dd_update p Hp). destruct (p a); reflexivity.
Qed.

End SumsOverReadings.

(** ** Keys of the metrics dictionary *)

Lemma py_eqb_refl (k : json) : hashable k = true -> py_eqb k k = true.
Proof.
  destruct k as [|b|q|s|l|kv]; simpl; try discriminate; intros _.
  - reflexivity.
  - destruct b; reflexivity.
  - apply Qeq_bool_iff. reflexivity.
  - apply String.eqb_refl.
Qed.

Lemma dd_update_keys (P : json -> Prop) (k : json) (g : bucket -> bucket)
    (m : metrics_map) :
  Forall (fun e => P (fst e)) m -> P k ->
  Forall (fun e => P (fst e)) (dd_update k g m).
Proof.
  intros Hm Hk. induction Hm as [|[k' b] m Hb Hm IH]; simpl.
  - constructor; [exact Hk | constructor].
  - destruct (py_eqb k' k); constructor; assumption.
Qed.

Lemma dd_update_keys_distinct (k : json) (g : bucket -> bucket)
    (m : metrics_map) :
  keys_distinct m -> keys_distinct (dd_update k g m).
Proof.
  unfold keys_distinct. intros Hm.
  induction Hm as [|[k' b] m Hb Hm IH]; simpl.
  - constructor; constructor.
  - destruct (py_eqb k' k) eqn:E.
    + constructor; assumption.
    + constructor; [|exact IH].
      apply (dd_update_keys (fun x => py_eqb k' x = false)); assumption.
Qed.

Lemma dd_update_key_kept (k : json) (g : bucket -> bucket) (m : metrics_map)
    (k' : json) (b : bucket) :
  In (k', b) m -> exists b', In (k', b') (dd_update k g m).
Proof.
  induction m as [|[k0 b0] m IH]; simpl; [tauto|].
  intros [H|H].
  - inversion H; subst. destruct (py_eqb k' k); eexists; left; reflexivity.
  - destruct (IH H) as [b' Hb']. destruct (py_eqb k0 k).
    + exists b. right. exact H.
    + exists b'. right. exact Hb'.
Qed.

Lemma dd_update_has_key (k : json) (g : bucket -> bucket) (m : metrics_map) :
  hashable k = true ->
  exists k' b, In (k', b) (dd_update k g m) /\ py_eqb k' k = true.
Proof.
  intros Hk. induction m as [|[k0 b0] m IH]; simpl.
  - exists k, (g new_bucket). split; [now left | now apply py_eqb_refl].
  - destruct (py_eqb k0 k) eqn:E.
    + exists k0, (g b0). split; [now left | exact E].
    + destruct IH as [k' [b [Hin He]]]. exists k', b. split; [now right | exact He].
Qed.

Lemma fold_readings_key_kept (rs : list reading) :
  forall m0 k b, In (k, b) m0 ->
                 exists b', In (k, b') (fold_left add_reading rs m0).
Proof.
  induction rs as [|r rs IH]; intros m0 k b H; simpl.
  - eauto.
  - destruct r as [[[[a s] t] sp] ct]. simpl.
    destruct (dd_update_key_kept a (record_issue s t sp ct) m0 k b H)
      as [b' Hb'].
    eapply IH. exact Hb'.
Qed.

Lemma fold_readings_keys_distinct (rs : list reading) :
  forall m0, keys_distinct m0 -> keys_distinct (fold_left add_reading rs m0).
Proof.
  induction rs as [|r rs IH]; intros m0 H; simpl; [exact H|].
  apply IH. destruct r as [[[[a s] t] sp] ct]. simpl.
  now apply dd_update_keys_distinct.
Qed.

Lemma fold_readings_has_key (rs : list reading) :
  forall m0 r,
    In r rs -> hashable (reading_assignee r) = true ->
    exists k b, In (k, b) (fold_left add_reading rs m0)
                /\ py_eqb k (reading_assignee r) = true.
Proof.
  induction rs as [|r0 rs IH]; intros m0 r Hin Hh; simpl; [destruct Hin|].
  destruct Hin as [->|Hin].
  - destruct r as [[[[a s] t] sp] ct]. simpl in *.
    destruct (dd_update_has_key a (record_issue s t sp ct) m0 Hh)
      as [k [b [Hkb He]]].
    destruct (fold_readings_key_kept rs _ k b Hkb) as [b' Hb'].
    exists k, b'. split; assumption.
  - now apply IH.
Qed.

Lemma filter_every_key (m : metrics_map) :
  filter (fun e => every_key (fst e)) m = m.
Proof.
  induction m as [|e m IH]; simpl; [reflexivity | now rewrite IH].
Qed.

Lemma Forall2_In_l {A B} (R : A -> B -> Prop) (l : list A) (l' : list B)
    (x : A) :
  Forall2 R l l' -> In x l -> exists y, In y l' /\ R x y.
Proof.
  induction 1 as [|a b l l' Hab Hl IH]; simpl; [tauto|].
  intros [->|Hin].
  - exists b. split; [now left | exact Hab].
  - destruct (IH Hin) as [y [Hy Hxy]]. exists y. split; [now right | exact Hxy].
Qed.

Lemma Forall2_In_r {A B} (R : A -> B -> Prop) (l : list A) (l' : list B)
    (y : B) :
  Forall2 R l l' -> In y l' -> exists x, In x l /\ R x y.
Proof.
  induction 1 as [|a b l l' Hab Hl IH]; simpl; [tauto|].
  intros [->|Hin].
  - exists a. split; [now left | exact Hab].
  - destruct (IH Hin) as [x [Hx Hxy]]. exists x. split; [now right | exact Hxy].
Qed.

Lemma Zsum_ones {A} (l : list A) : Zsum (map (fun _ => 1) l) = len l.
Proof.
  unfold len, Zsum. induction l as [|x l IH]; [reflexivity|].
  cbn [map fold_right List.length]. rewrite IH, Nat2Z.inj_succ. lia.
Qed.

Lemma Forall2_length_len {A B} (R : A -> B -> Prop) (l : list A)
    (l' : list B) :
  Forall2 R l l' -> len l = len l'.
Proof. intros H. unfold len. now rewrite (Forall2_length H). Qed.

(** Python's [==] on keys is an equivalence. *)
Lemma py_eqb_sym (a b : json) : py_eqb a b = py_eqb b a.
Proof.
  assert (Hq : forall x y, Qeq_bool x y = Qeq_bool y x).
  { intros x y. destruct (Qeq_bool x y) eqn:E1, (Qeq_bool y x) eqn:E2;
      try reflexivity.
    - apply Qeq_bool_iff in E1. symmetry in E1. apply Qeq_bool_iff in E1.
      congruence.
    - apply Qeq_bool_iff in E2. symmetry in E2. apply Qeq_bool_iff in E2.
      congruence. }
  destruct a, b; cbn [py_eqb as_number]; try reflexivity;
    try apply Hq; apply String.eqb_sym.
Qed.

Lemma py_eqb_trans (a b c : json) :
  py_eqb a b = true -> py_eqb b c = true -> py_eqb a c = true.
Proof.
  assert (Hq : forall x y z,
             Qeq_bool x y = true -> Qeq_bool y z = true -> Qeq_bool x z = true).
  { intros x y z H1 H2. apply Qeq_bool_iff in H1, H2. apply Qeq_bool_iff.
    now rewrite H1. }
  destruct a, b; cbn [py_eqb as_number]; try discriminate;
    destruct c; cbn [py_eqb as_number]; try discriminate;
    try (apply Hq); try reflexivity.
  intros H1 H2. apply String.eqb_eq in H1, H2. subst. apply String.eqb_refl.
Qed.

Lemma py_eqb_key_respects (k : json) : key_respects (py_eqb k).
Proof.
  intros k1 k' H.
  destruct (py_eqb k k') eqn:E1, (py_eqb k k1) eqn:E2; try reflexivity.
  - rewrite (py_eqb_trans _ _ _ E1 H) in E2. discriminate.
  - rewrite py_eqb_sym in H. rewrite (py_eqb_trans _ _ _ E2 H) in E1.
    discriminate.
Qed.

(** Among pairwise different keys at most one equals a given value. *)
Lemma keys_distinct_unique (metrics : metrics_map) (e1 e2 : json * bucket)
    (name : json) :
  keys_distinct metrics -> In e1 metrics -> In e2 metrics ->
  py_eqb (fst e1) name = true -> py_eqb (fst e2) name = true -> e1 = e2.
Proof.
  intros Hd H1 H2 E1 E2.
  assert (E : py_eqb (fst e1) (fst e2) = true).
  { apply py_eqb_trans with name; [exact E1|]. now rewrite py_eqb_sym. }
  clear E1 E2 name. unfold keys_distinct in Hd.
  induction Hd as [|e l Hall Hd IH]; [destruct H1|].
  rewrite Forall_forall in Hall.
  destruct H1 as [<-|H1], H2 as [<-|H2].
  - reflexivity.
  - rewrite (Hall _ H2) in E. discriminate.
  - rewrite (py_eqb_sym (fst e1) (fst e)), (Hall _ H1) in E. discriminate.
  - now apply IH.
Qed.

Lemma filter_none {A} (f : A -> bool) (l : list A) :
  (forall x, In x l -> f x = false) -> filter f l = [].
Proof.
  induction l as [|x l IH]; intros H; [reflexivity|].
  cbn [filter]. rewrite (H x (or_introl eq_refl)). apply IH.
  intros y Hy. apply H. now right.
Qed.

Lemma filter_own_key (metrics : metrics_map) (k : json) (m : bucket) :
  keys_distinct metrics -> In (k, m) metrics -> py_eqb k k = true ->
  filter (fun e => py_eqb k (fst e)) metrics = [(k, m)].
Proof.
  intros Hd Hin Hk. unfold keys_distinct in Hd.
  induction Hd as [|e l Hall Hd IH]; [destruct Hin|].
  rewrite Forall_forall in Hall. cbn [filter].
  destruct Hin as [->|Hin].
  - cbn [fst]. rewrite Hk. f_equal. apply filter_none.
    intros x Hx. exact (Hall x Hx).
  - pose proof (Hall _ Hin) as Hf. cbn [fst] in Hf.
    rewrite (py_eqb_sym k (fst e)), Hf. now apply IH.
Qed.

Lemma fold_readings_hashable_keys (rs : list reading) :
  Forall (fun r => hashable (reading_assignee r) = true) rs ->
  forall m0, Forall (fun e => hashable (fst e) = true) m0 ->
             Forall (fun e => hashable (fst e) = true)
                    (fold_left add_reading rs m0).
Proof.
  induction 1 as [|r rs Hr Hrs IH]; intros m0 Hm0; [exact Hm0|].
  cbn [fold_left]. apply IH. destruct r as [[[[a s] t] sp] ct].
  cbn [add_reading reading_assignee] in *.
  now apply (dd_update_keys (fun k => hashable k = true)).
Qed.

Lemma readings_hashable (rt : Runtime) (issues : list json)
    (rs : list reading) :
  Forall2 (fun issue r => read_issue rt issue = Ok r) issues rs ->
  Forall (fun r => hashable (reading_assignee r) = true) rs.
Proof.
  induction 1 as [|issue r issues rs Hr _ IH]; constructor; [|exact IH].
  destruct r as [[[[a s] t] sp] ct]. apply read_issue_Ok in Hr.
  cbn [reading_assignee]. tauto.
Qed.

(** The readings of the issues of one assignee. *)
Lemma readings_assigned_to (rt : Runtime) (k : json) (issues : list json)
    (rs : list reading) :
  Forall2 (fun issue r => read_issue rt issue = Ok r) issues rs ->
  Forall2 (fun issue r => read_issue rt issue = Ok r)
          (filter (assigned_to k) issues)
          (filter (fun r => py_eqb k (reading_assignee r)) rs).
Proof.
  induction 1 as [|issue r issues rs Hr _ IH]; [constructor|].
  cbn [filter].
  assert (E : assigned_to k issue = py_eqb k (reading_assignee r)).
  { destruct r as [[[[a s] t] sp] ct]. apply read_issue_Ok in Hr.
    destruct Hr as [Ha _]. unfold assigned_to. now rewrite Ha. }
  rewrite E. destruct (py_eqb k (reading_assignee r));
    [constructor; assumption | exact IH].
Qed.

Lemma Zsum_indicator {A} (f : A -> bool) (l : list A) :
  Zsum (map (fun x => if f x then 1 else 0) l) = len (filter f l).
Proof.
  unfold len. induction l as [|x l IH]; [reflexivity|].
  cbn [map Zsum fold_right filter]. unfold Zsum in IH. rewrite IH.
  destruct (f x); cbn [List.length]; lia.
Qed.

Lemma Qsum_indicator {A} (f : A -> bool) (g : A -> Q) (l : list A) :
  (Qsum (map (fun x => if f x then g x else 0) l)
   == Qsum (map g (filter f l)))%Q.
Proof.
  induction l as [|x l IH]; [reflexivity|].
  cbn [map Qsum fold_right filter]. unfold Qsum in IH.
  destruct (f x); cbn [map fold_right]; rewrite IH; [reflexivity | ring].
Qed.

Lemma readings_points (rt : Runtime) (issues : list json)
    (rs : list reading) :
  Forall2 (fun issue r => read_issue rt issue = Ok r) issues rs ->
  mapM (get_story_points rt) issues
  = Ok (map (fun r : reading => let '(_, _, _, sp, _) := r in sp) rs).
Proof.
  intros H. apply mapM_Ok_Forall2.
  induction H as [|issue r issues rs Hr _ IH]; cbn [map]; constructor;
    [|exact IH].
  destruct r as [[[[a s] t] sp] ct]. apply read_issue_Ok in Hr. tauto.
Qed.

(** C3.  [compute_metrics] partitions the issues by assignee name: the
    keys of its result are pairwise different; the name of every issue
    equals exactly one of them; the bucket of every key counts in
    [total_issues] the issues whose name equals the key, and holds in
    [total_story_points] the total of their story points; so the
    [total_issues] of the buckets add up to the number of issues, and
    their [total_story_points] add up to the story points of all
    issues. *)
Theorem compute_metrics_partition (rt : Runtime) (issues : list json)
    (metrics : metrics_map) :
  compute_metrics rt issues = Ok metrics ->
  keys_distinct metrics /\
  (forall issue, In issue issues ->
     exists name k m,
       get_assignee_name issue = Ok name /\
       In (k, m) metrics /\ py_eqb k name = true /\
       forall k' m', In (k', m') metrics -> py_eqb k' name = true ->
                     (k', m') = (k, m)) /\
  (forall k m, In (k, m) metrics ->
     total_issues m = len (filter (assigned_to k) issues) /\
     exists points,
       mapM (get_story_points rt) (filter (assigned_to k) issues)
       = Ok points /\
       (total_story_points m == Qsum points)%Q) /\
  Zsum (map (fun e => total_issues (snd e)) metrics) = len issues /\
  exists points,
    mapM (get_story_points rt) issues = Ok points /\
    (Qsum (map (fun e => total_story_points (snd e)) metrics)
     == Qsum points)%Q.
Proof.
  intros H. apply compute_metrics_readings in H. destruct H as [rs [Hrs ->]].
  apply mapM_Ok_Forall2 in Hrs.
  assert (Hd : keys_distinct (fold_left add_reading rs []))
    by (apply fold_readings_keys_distinct; constructor).
  split; [exact Hd|]. split; [|split; [|split]].
  - intros issue Hin.
    destruct (Forall2_In_l _ _ _ _ Hrs Hin) as [r [Hr Hread]].
    destruct r as [[[[a s] t] sp] ct].
    apply read_issue_Ok in Hread.
    destruct Hread as [Ha [_ [_ [_ [_ Hh]]]]].
    destruct (fold_readings_has_key rs [] (a, s, t, sp, ct) Hr Hh)
      as [k [b [Hkb He]]].
    exists a, k, b. split; [exact Ha|]. split; [exact Hkb|].
    split; [exact He|].
    intros k' m' Hin' He'.
    exact (keys_distinct_unique _ (k', m') (k, b) a Hd Hin' Hkb He' He).
  - intros k m Hin.
    assert (Hk : py_eqb k k = true).
    { apply py_eqb_refl.
      pose proof (fold_readings_hashable_keys rs (readings_hashable _ _ _ Hrs)
                    [] (Forall_nil _)) as Hh.
      rewrite Forall_forall in Hh. exact (Hh _ Hin). }
    pose proof (filter_own_key _ k m Hd Hin Hk) as Hown.
    pose proof (readings_assigned_to rt k issues rs Hrs) as Hfil.
    split.
    + pose proof (Zsum_where_fold (py_eqb k) (py_eqb_key_respects k)
                    total_issues (fun _ => 1)
                    (fun _ _ _ _ _ _ => eq_refl) eq_refl rs []) as E.
      unfold Zsum_where in E. rewrite Hown in E.
      cbn [map snd filter Zsum fold_right] in E.
      rewrite Z.add_0_r, Z.add_0_l in E. rewrite E.
      change (fold_right Z.add 0
                (map (fun r : reading =>
                        if py_eqb k (reading_assignee r) then 1 else 0) rs))
        with (Zsum (map (fun r : reading =>
                           if py_eqb k (reading_assignee r) then 1 else 0) rs)).
      rewrite (Zsum_indicator (fun r => py_eqb k (reading_assignee r)) rs).
      symmetry. eapply Forall2_length_len. exact Hfil.
    + eexists. split; [exact (readings_points rt _ _ Hfil)|].
      pose proof (Qsum_where_fold (py_eqb k) (py_eqb_key_respects k)
                    total_story_points
                    (fun r : reading => let '(_, _, _, sp, _) := r in sp)
                    (fun _ _ _ _ _ _ => Qeq_refl _) (Qeq_refl _) rs []) as E.
      unfold Qsum_where in E. rewrite Hown in E.
      cbn [map snd filter Qsum fold_right] in E.
      rewrite Qplus_0_r, Qplus_0_l in E. rewrite E.
      apply (Qsum_indicator (fun r => py_eqb k (reading_assignee r))).
  - pose proof (Zsum_where_fold every_key every_key_respects
                  total_issues (fun _ => 1)
                  (fun _ _ _ _ _ _ => eq_refl) eq_refl rs []) as E.
    unfold Zsum_where in E. rewrite !filter_every_key in E.
    rewrite E. cbn [every_key map Zsum fold_right]. rewrite Z.add_0_l.
    change (fold_right Z.add 0 (map (fun _ : reading => 1) rs))
      with (Zsum (map (fun _ : reading => 1) rs)).
    rewrite Zsum_ones.
    symmetry. eapply Forall2_length_len. exact Hrs.
  - exists (map (fun r : reading => let '(_, _, _, sp, _) := r in sp) rs).
    split; [exact (readings_points rt _ _ Hrs)|].
    pose proof (Qsum_where_fold every_key every_key_respects
                  total_story_points
                  (fun r : reading => let '(_, _, _, sp, _) := r in sp)
                  (fun _ _ _ _ _ _ => Qeq_refl _) (Qeq_refl _) rs []) as E.
    unfold Qsum_where in E. rewrite !filter_every_key in E.
    rewrite E. cbn [every_key map Qsum fold_right]. rewrite Qplus_0_l.
    reflexivity.
Qed.

Lemma compute_metrics_partition_witness :
  total_issues ada_bucket
  = len (filter (assigned_to (JStr "Ada")) sprint_issues) /\
  (exists points,
     mapM (get_story_points sample_runtime)
          (filter (assigned_to (JStr "Ada")) sprint_issues) = Ok points /\
     (total_story_points ada_bucket == Qsum points)%Q) /\
  Zsum (map (fun e => total_issues (snd e)) sprint_metrics) = len sprint_issues
  /\ exists points,
       mapM (get_story_points sample_runtime) sprint_issues = Ok points /\
       (Qsum (map (fun e => total_story_points (snd e)) sprint_metrics)
        == Qsum points)%Q.
Proof.
  destruct (compute_metrics_partition sample_runtime sprint_issues
              sprint_metrics eq_refl) as [_ [_ [Hown Hsum]]].
  destruct (Hown (JStr "Ada") ada_bucket (or_introl eq_refl))
    as [Hcount Hpoints].
  split; [exact Hcount|]. split; [exact Hpoints | exact Hsum].
Defined.

(** ** Invariants of the buckets *)

Lemma in_dd_update (k : json) (g : bucket -> bucket) (m : metrics_map)
    (k' : json) (b : bucket) :
  In (k', b) (dd_update k g m) ->
  In (k', b) m \/ exists b0, b = g b0 /\ (In (k', b0) m \/ b0 = new_bucket).
Proof.
  induction m as [|[k0 b0] m IH]; simpl.
  - intros [H|[]]. inversion H; subst. right. exists new_bucket. tauto.
  - destruct (py_eqb k0 k); simpl.
    + intros [H|H].
      * inversion H; subst. right. exists b0. split; [reflexivity|].
        left. now left.
      * left. now right.
    + intros [H|H].
      * left. now left.
      * destruct (IH H) as [Hin|[b1 [Hb [Hin|Hn]]]].
        -- left. now right.
        -- right. exists b1. split; [exact Hb|]. left. now right.
        -- right. exists b1. tauto.
Qed.

Lemma is_done_iff (s : string) : is_done s = true <-> s = "done".
Proof.
  unfold is_done. simpl. rewrite orb_false_r. apply String.eqb_eq.
Qed.

Lemma Qpos_b_lt (x : Q) : Qpos_b x = true -> (0 < x)%Q.
Proof.
  unfold Qpos_b. intros H. apply negb_true_iff in H.
  apply Qnot_le_lt. intros Hle. apply Qle_bool_iff in Hle. congruence.
Qed.

Lemma new_bucket_invariant (rt : Runtime) (issues : list json) :
  bucket_invariant rt issues new_bucket.
Proof.
  unfold bucket_invariant. simpl.
  split; [lia|]. split; [lia|]. split; [reflexivity|]. intros c [].
Qed.

Lemma record_issue_invariant (rt : Runtime) (issues : list json)
    (issue : json) (a : json) (s t : string) (sp ct : Q) (m : bucket) :
  In issue issues -> read_issue rt issue = Ok (a, s, t, sp, ct) ->
  bucket_invariant rt issues m ->
  bucket_invariant rt issues (record_issue s t sp ct m).
Proof.
  intros Hin Hread [Hc [Hb [Hl Hcs]]].
  apply read_issue_Ok in Hread. destruct Hread as [_ [Hs [_ [_ [Hct _]]]]].
  unfold bucket_invariant, record_issue. cbn [total_issues completed_issues
    bug_count story_count story_points_list cycle_times].
  split; [|split; [|split]].
  - destruct (is_done s); lia.
  - destruct (lower t =? "bug")%string; [lia|].
    destruct (lower t =? "story")%string; lia.
  - rewrite len_app. change (len [sp]) with 1. lia.
  - intros c Hcin.
    destruct (is_done s) eqn:Ed; cbn [andb] in Hcin; [|now apply Hcs].
    destruct (Qpos_b ct) eqn:Ep; [|now apply Hcs].
    apply in_app_or in Hcin. destruct Hcin as [Hcin|[<-|[]]];
      [now apply Hcs|].
    split; [now apply Qpos_b_lt|].
    exists issue. apply is_done_iff in Ed. subst s. tauto.
Qed.

Lemma fold_readings_invariant (rt : Runtime) (issues : list json) :
  forall (some : list json) (rs : list reading),
    Forall2 (fun issue r => read_issue rt issue = Ok r) some rs ->
    (forall issue, In issue some -> In issue issues) ->
    forall m0,
      Forall (fun e => bucket_invariant rt issues (snd e)) m0 ->
      Forall (fun e => bucket_invariant rt issues (snd e))
             (fold_left add_reading rs m0).
Proof.
  induction 1 as [|issue r some rs Hr Hrs IH]; intros Hsub m0 Hm0; simpl.
  - exact Hm0.
  - apply IH; [intros x Hx; apply Hsub; now right|].
    destruct r as [[[[a s] t] sp] ct]. simpl.
    apply Forall_forall. intros [k b] Hkb. simpl.
    rewrite Forall_forall in Hm0.
    assert (Hrec : forall b0, bucket_invariant rt issues b0 ->
                   bucket_invariant rt issues (record_issue s t sp ct b0)).
    { intros b0. apply (record_issue_invariant rt issues issue a);
        [apply Hsub; now left | exact Hr]. }
    destruct (in_dd_update _ _ _ _ _ Hkb) as [Hin|[b0 [-> [Hin| ->]]]].
    + apply (Hm0 _ Hin).
    + apply Hrec. apply (Hm0 _ Hin).
    + apply Hrec. apply new_bucket_invariant.
Qed.

(** C10.  In every bucket of the result of [compute_metrics],
    [completed_issues <= total_issues],
    [bug_count + story_count <= total_issues], [story_points_list] has
    [total_issues] entries, and every entry of [cycle_times] is strictly
    positive and is the cycle time of an issue of the input whose status
    category is "done". *)
Theorem compute_metrics_bucket_invariants (rt : Runtime) (issues : list json)
    (metrics : metrics_map) :
  compute_metrics rt issues = Ok metrics ->
  forall assignee m, In (assignee, m) metrics ->
    completed_issues m <= total_issues m /\
    bug_count m + story_count m <= total_issues m /\
    len (story_points_list m) = total_issues m /\
    forall c, In c (cycle_times m) ->
      (0 < c)%Q /\
      exists issue, In issue issues /\
                    get_status_category issue = Ok "done" /\
                    get_cycle_time_days rt issue = Ok c.
Proof.
  intros H assignee m Hin.
  apply compute_metrics_readings in H. destruct H as [rs [Hrs ->]].
  apply mapM_Ok_Forall2 in Hrs.
  pose proof (fold_readings_invariant rt issues issues rs Hrs
                (fun _ Hx => Hx) [] (Forall_nil _)) as Hinv.
  rewrite Forall_forall in Hinv. exact (Hinv _ Hin).
Qed.

Lemma compute_metrics_bucket_invariants_witness :
  exists assignee m c,
    In (assignee, m) sprint_metrics /\ In c (cycle_times m) /\
    completed_issues m <= total_issues m /\
    bug_count m + story_count m <= total_issues m /\
    len (story_points_list m) = total_issues m /\
    (0 < c)%Q /\
    exists issue, In issue sprint_issues /\
                  get_status_category issue = Ok "done" /\
                  get_cycle_time_days sample_runtime issue = Ok c.
Proof.
  do 3 eexists.
  assert (Hin : In (JStr "Ada", snd (hd (JNull, new_bucket) sprint_metrics))
                   sprint_metrics) by (left; reflexivity).
  assert (Hc : In (5 # 2)%Q
                  (cycle_times (snd (hd (JNull, new_bucket) sprint_metrics))))
    by (left; reflexivity).
  destruct (compute_metrics_bucket_invariants sample_runtime sprint_issues
              sprint_metrics eq_refl _ _ Hin) as [H1 [H2 [H3 H4]]].
  destruct (H4 _ Hc) as [H5 H6].
  split; [exact Hin|]. split; [exact Hc|].
  repeat (split; [assumption|]). exact H6.
Defined.

(** ** Sprint totals *)

Lemma sprint_totals_team (m : metrics_map) :
  forall t0, fold_left sprint_totals_step m t0
             = fold_left sprint_totals_step (team_entries m) t0.
Proof.
  induction m as [|[k b] m IH]; intros t0; [reflexivity|].
  assert (Hstep : py_eqb k UNASSIGNED = true ->
                  sprint_totals_step t0 (k, b) = t0).
  { intros E. unfold sprint_totals_step. now rewrite E. }
  assert (Hteam : team_entries ((k, b) :: m)
                  = if py_eqb k UNASSIGNED then team_entries m
                    else (k, b) :: team_entries m).
  { unfold team_entries. cbn [filter]. unfold assigned_entry at 1, assigned.
    cbn [fst]. destruct (py_eqb k UNASSIGNED); reflexivity. }
  rewrite Hteam. cbn [fold_left]. destruct (py_eqb k UNASSIGNED) eqn:E.
  - rewrite (Hstep eq_refl). apply IH.
  - cbn [fold_left]. apply IH.
Qed.

Lemma sprint_totals_step_assigned (t : totals) (k : json) (b : bucket) :
  assigned_entry (k, b) = true ->
  sprint_totals_step t (k, b)
  = mkTotals
      (sprint_total_issues t + total_issues b)
      (sprint_completed_issues t + completed_issues b)
      (sprint_total_story_points t + total_story_points b)%Q
      (sprint_completed_story_points t + completed_story_points b)%Q
      (total_bugs t + bug_count b)
      (total_stories t + story_count b)
      (all_cycle_times t ++ cycle_times b)
      (all_story_points t ++ story_points_list b)
      (if Qpos_b (total_story_points b)
       then assignee_story_points t ++ [total_story_points b]
       else assignee_story_points t).
Proof.
  unfold assigned_entry, assigned. cbn [fst]. intros H.
  apply negb_true_iff in H. unfold sprint_totals_step. now rewrite H.
Qed.

Lemma fold_sprint_total_issues (m : metrics_map) :
  Forall (fun e => assigned_entry e = true) m ->
  forall t0, (sprint_total_issues (fold_left sprint_totals_step m t0)
              = sprint_total_issues t0 + Zsum (map (fun e => total_issues (snd e)) m)).
Proof.
  induction 1 as [|[k b] l Hk Hl IH]; intros t0; [simpl; lia|].
  cbn [fold_left]. rewrite IH, (sprint_totals_step_assigned t0 k b Hk).
  simpl.
  lia.
Qed.

Lemma fold_sprint_completed_issues (m : metrics_map) :
  Forall (fun e => assigned_entry e = true) m ->
  forall t0, (sprint_completed_issues (fold_left sprint_totals_step m t0)
              = sprint_completed_issues t0 + Zsum (map (fun e => completed_issues (snd e)) m)).
Proof.
  induction 1 as [|[k b] l Hk Hl IH]; intros t0; [simpl; lia|].
  cbn [fold_left]. rewrite IH, (sprint_totals_step_assigned t0 k b Hk).
  simpl.
  lia.
Qed.

Lemma fold_total_bugs (m : metrics_map) :
  Forall (fun e => assigned_entry e = true) m ->
  forall t0, (total_bugs (fold_left sprint_totals_step m t0)
              = total_bugs t0 + Zsum (map (fun e => bug_count (snd e)) m)).
Proof.
  induction 1 as [|[k b] l Hk Hl IH]; intros t0; [simpl; lia|].
  cbn [fold_left]. rewrite IH, (sprint_totals_step_assigned t0 k b Hk).
  simpl.
  lia.
Qed.

Lemma fold_total_stories (m : metrics_map) :
  Forall (fun e => assigned_entry e = true) m ->
  forall t0, (total_stories (fold_left sprint_totals_step m t0)
              = total_stories t0 + Zsum (map (fun e => story_count (snd e)) m)).
Proof.
  induction 1 as [|[k b] l Hk Hl IH]; intros t0; [simpl; lia|].
  cbn [fold_left]. rewrite IH, (sprint_totals_step_assigned t0 k b Hk).
  simpl.
  lia.
Qed.

Lemma fold_sprint_total_story_points (m : metrics_map) :
  Forall (fun e => assigned_entry e = true) m ->
  forall t0, (sprint_total_story_points (fold_left sprint_totals_step m t0)
              == sprint_total_story_points t0 + Qsum (map (fun e => total_story_points (snd e)) m))%Q.
Proof.
  induction 1 as [|[k b] l Hk Hl IH]; intros t0; [simpl; ring|].
  cbn [fold_left]. rewrite IH, (sprint_totals_step_assigned t0 k b Hk).
  simpl.
  ring.
Qed.

Lemma fold_sprint_completed_story_points (m : metrics_map) :
  Forall (fun e => assigned_entry e = true) m ->
  forall t0, (sprint_completed_story_points (fold_left sprint_totals_step m t0)
              == sprint_completed_story_points t0 + Qsum (map (fun e => completed_story_points (snd e)) m))%Q.
Proof.
  induction 1 as [|[k b] l Hk Hl IH]; intros t0; [simpl; ring|].
  cbn [fold_left]. rewrite IH, (sprint_totals_step_assigned t0 k b Hk).
  simpl.
  ring.
Qed.

Lemma fold_all_cycle_times (m : metrics_map) :
  Forall (fun e => assigned_entry e = true) m ->
  forall t0, (all_cycle_times (fold_left sprint_totals_step m t0)
              = all_cycle_times t0 ++ List.concat (map (fun e => cycle_times (snd e)) m))%list.
Proof.
  induction 1 as [|[k b] l Hk Hl IH]; intros t0; [simpl; now rewrite app_nil_r|].
  cbn [fold_left]. rewrite IH, (sprint_totals_step_assigned t0 k b Hk).
  simpl.
  now rewrite <- app_assoc.
Qed.

Lemma fold_all_story_points (m : metrics_map) :
  Forall (fun e => assigned_entry e = true) m ->
  forall t0, (all_story_points (fold_left sprint_totals_step m t0)
              = all_story_points t0 ++ List.concat (map (fun e => story_points_list (snd e)) m))%list.
Proof.
  induction 1 as [|[k b] l Hk Hl IH]; intros t0; [simpl; now rewrite app_nil_r|].
  cbn [fold_left]. rewrite IH, (sprint_totals_step_assigned t0 k b Hk).
  simpl.
  now rewrite <- app_assoc.
Qed.

Lemma fold_assignee_story_points (m : metrics_map) :
  Forall (fun e => assigned_entry e = true) m ->
  forall t0, (assignee_story_points (fold_left sprint_totals_step m t0)
              = assignee_story_points t0 ++ filter Qpos_b (map (fun e => total_story_points (snd e)) m))%list.
Proof.
  induction 1 as [|[k b] l Hk Hl IH]; intros t0; [simpl; now rewrite app_nil_r|].
  cbn [fold_left]. rewrite IH, (sprint_totals_step_assigned t0 k b Hk).
  simpl.
  destruct (Qpos_b (total_story_points b)); [now rewrite <- app_assoc | reflexivity].
Qed.

Lemma team_entries_assigned (m : metrics_map) :
  Forall (fun e => assigned_entry e = true) (team_entries m).
Proof.
  apply Forall_forall. intros e He. apply filter_In in He. tauto.
Qed.

Lemma filter_issues_readings (rt : Runtime) (issues : list json)
    (rs : list reading) :
  Forall2 (fun issue r => read_issue rt issue = Ok r) issues rs ->
  Forall2 (fun issue r => read_issue rt issue = Ok r)
          (filter has_assignee issues)
          (filter (fun r => assigned (reading_assignee r)) rs).
Proof.
  induction 1 as [|issue r issues rs Hr Hrs IH]; simpl; [constructor|].
  destruct r as [[[[a s] t] sp] ct].
  pose proof (read_issue_Ok _ _ _ _ _ _ _ Hr) as [Ha _].
  unfold has_assignee at 1. rewrite Ha. simpl.
  destruct (assigned a); [constructor|]; assumption.
Qed.

Lemma team_entries_idem (m : metrics_map) :
  team_entries (team_entries m) = team_entries m.
Proof.
  unfold team_entries. induction m as [|e m IH]; simpl; [reflexivity|].
  destruct (assigned_entry e) eqn:E; simpl; rewrite ?E, IH; reflexivity.
Qed.

(** C8.  For every metrics map, each figure of [compute_sprint_totals] is
    the sum (or the concatenation) of the corresponding bucket field over
    the entries whose key is not "Unassigned"; the summary rows of the
    report depend on those entries only; and when the map is the result
    of [compute_metrics], the totals are those of the sprint without its
    issues that have no assignee. *)
Theorem sprint_totals_ignore_unassigned (metrics : metrics_map) :
  let team := team_entries metrics in
  let t := compute_sprint_totals metrics in
  sprint_total_issues t = Zsum (map (fun e => total_issues (snd e)) team) /\
  sprint_completed_issues t
    = Zsum (map (fun e => completed_issues (snd e)) team) /\
  (sprint_total_story_points t
   == Qsum (map (fun e => total_story_points (snd e)) team))%Q /\
  (sprint_completed_story_points t
   == Qsum (map (fun e => completed_story_points (snd e)) team))%Q /\
  total_bugs t = Zsum (map (fun e => bug_count (snd e)) team) /\
  total_stories t = Zsum (map (fun e => story_count (snd e)) team) /\
  all_cycle_times t = List.concat (map (fun e => cycle_times (snd e)) team) /\
  all_story_points t = List.concat (map (fun e => story_points_list (snd e)) team) /\
  assignee_story_points t
    = filter Qpos_b (map (fun e => total_story_points (snd e)) team) /\
  t = compute_sprint_totals team /\
  summary_rows t = summary_rows (compute_sprint_totals team) /\
  forall rt issues,
    compute_metrics rt issues = Ok metrics ->
    compute_metrics rt (filter has_assignee issues) = Ok team.
Proof.
  cbv zeta. unfold compute_sprint_totals.
  pose proof (team_entries_assigned metrics) as Ht.
  rewrite (sprint_totals_team metrics).
  split; [now rewrite (fold_sprint_total_issues _ Ht)|].
  split; [now rewrite (fold_sprint_completed_issues _ Ht)|].
  split; [rewrite (fold_sprint_total_story_points _ Ht); simpl; ring|].
  split; [rewrite (fold_sprint_completed_story_points _ Ht); simpl; ring|].
  split; [now rewrite (fold_total_bugs _ Ht)|].
  split; [now rewrite (fold_total_stories _ Ht)|].
  split; [now rewrite (fold_all_cycle_times _ Ht)|].
  split; [now rewrite (fold_all_story_points _ Ht)|].
  split; [now rewrite (fold_assignee_story_points _ Ht)|].
  split; [now rewrite (sprint_totals_team (team_entries metrics)),
                      team_entries_idem|].
  split; [now rewrite (sprint_totals_team (team_entries metrics)),
                      team_entries_idem|].
  - intros rt issues H.
    apply compute_metrics_readings in H. destruct H as [rs [Hrs Hm]].
    apply compute_metrics_readings.
    exists (filter (fun r => assigned (reading_assignee r)) rs). split.
    + apply mapM_Ok_Forall2. apply filter_issues_readings.
      now apply mapM_Ok_Forall2.
    + rewrite Hm. unfold team_entries, assigned_entry.
      now rewrite (filter_fold_readings assigned assigned_respects rs []).
Qed.

(** ** Arithmetic of the report *)

Lemma Qpos_b_nonzero (x : Q) : Qpos_b x = true -> Qeq_bool x 0 = false.
Proof.
  intros H. apply Qpos_b_lt in H. apply not_true_is_false. intros E.
  apply Qeq_bool_iff in E. rewrite E in H. now apply Qlt_irrefl in H.
Qed.

Lemma py_div_Ok (a b : Q) :
  Qeq_bool b 0 = false -> py_div a b = Ok (fl (a / b)).
Proof. intros H. unfold py_div. now rewrite H. Qed.

Lemma float_of_int_Ok (n : Z) (f : Q) :
  float_of_int n = Ok f ->
  f = fl (inject_Z n) /\ (Qabs f < pow2 1024)%Q.
Proof.
  unfold float_of_int, overflows.
  destruct (Qle_bool (pow2 1024) (Qabs (fl (inject_Z n)))) eqn:E;
    [discriminate|].
  intros H. inversion H; subst f. split; [reflexivity|].
  apply Qnot_le_lt. intros Hle. apply Qle_bool_iff in Hle. congruence.
Qed.


Lemma fl_int_nonzero (n : Z) : 0 < n -> Qeq_bool (fl (inject_Z n)) 0 = false.
Proof.
  intros Hn. destruct (fl_int_within n ltac:(lia)) as [Hlo _].
  assert (Hq : (1 <= inject_Z n)%Q).
  { change 1%Q with (inject_Z 1). rewrite <- Zle_Qle. lia. }
  assert (Hu : (1 # 2 <= 1 - pow2 (-53))%Q).
  { apply Qle_bool_iff. vm_compute. reflexivity. }
  assert (Hpos : (0 < fl (inject_Z n))%Q).
  { apply Qlt_le_trans with (2 := Hlo).
    apply Qmult_lt_0_compat; [|apply Qlt_le_trans with (2 := Hu); reflexivity].
    apply Qlt_le_trans with (2 := Hq). reflexivity. }
  apply not_true_is_false. intros E. apply Qeq_bool_iff in E.
  rewrite E in Hpos. now apply Qlt_irrefl in Hpos.
Qed.

Lemma percent_of_eq (part whole : Q) :
  percent_of part whole
  = Ok (if Qpos_b whole then round1 (float_percent_of part whole) else 0%Q).
Proof.
  unfold percent_of. destruct (Qpos_b whole) eqn:E; [|reflexivity].
  rewrite (py_div_Ok _ _ (Qpos_b_nonzero _ E)). reflexivity.
Qed.

Lemma percent_of_int_Ok (c t : Z) (p : Q) :
  percent_of_int c t = Ok p ->
  p = (if 0 <? t then round1 (float_percent c t) else 0%Q) /\
  (0 < t -> (fl (inject_Z t) < pow2 1024)%Q).
Proof.
  unfold percent_of_int. destruct (Z.ltb_spec 0 t) as [Ht|Ht].
  - intros H.
    apply bind_Ok in H. destruct H as [fc [Hc H]].
    apply bind_Ok in H. destruct H as [ft [Hft H]].
    apply float_of_int_Ok in Hc. destruct Hc as [-> _].
    apply float_of_int_Ok in Hft. destruct Hft as [-> Hfin].
    rewrite (py_div_Ok _ _ (fl_int_nonzero t Ht)) in H. cbn [bind] in H.
    inversion H; subst p. split; [reflexivity|]. intros _.
    apply Qle_lt_trans with (2 := Hfin). apply Qle_Qabs.
  - intros H. inversion H. split; [reflexivity | lia].
Qed.






Lemma assignee_row_inv (all_issue_types : list string) (a : string)
    (m : bucket) (r : row) :
  assignee_row all_issue_types a m = Ok r ->
  exists p_issues cells,
    percent_of_int (completed_issues m) (total_issues m) = Ok p_issues /\
    r = ("Assignee", CStr a)
        :: ("Total Issues", CInt (total_issues m))
        :: ("Completed Issues", CInt (completed_issues m))
        :: ("Completion % (Issues)", CFloat p_issues)
        :: ("Total Story Points", CFloat (total_story_points m))
        :: ("Completed Story Points", CFloat (completed_story_points m))
        :: ("Completion % (Story Points)",
            CFloat (if Qpos_b (total_story_points m)
                    then round1 (float_percent_of (completed_story_points m)
                                                  (total_story_points m))
                    else 0%Q))
        :: cells.
Proof.
  unfold assignee_row. cbv zeta. intros H.
  apply bind_Ok in H. destruct H as [v1 [_ H]].
  apply bind_Ok in H. destruct H as [v2 [_ H]].
  apply bind_Ok in H. destruct H as [v3 [_ H]].
  apply bind_Ok in H. destruct H as [v4 [_ H]].
  apply bind_Ok in H. destruct H as [v5 [_ H]].
  apply bind_Ok in H. destruct H as [p_issues [Hp H]].
  rewrite percent_of_eq in H. cbn [bind] in H.
  inversion H; subst r; clear H.
  exists p_issues. eexists. split; [exact Hp | reflexivity].
Qed.





Lemma summary_rows_inv (t : totals) (rows : list row) :
  summary_rows t = Ok rows ->
  find (fun r => match lookup "Assignee" r with
                 | Some (CStr s) => (s =? "Team Velocity (Completed SP)")%string
                 | _ => false
                 end) rows
  = Some [("Assignee", CStr "Team Velocity (Completed SP)");
          ("Total Issues", CFloat (sprint_completed_story_points t))].
Proof.
  unfold summary_rows. intros H.
  apply bind_Ok in H. destruct H as [v1 [_ H]].
  apply bind_Ok in H. destruct H as [v2 [_ H]].
  apply bind_Ok in H. destruct H as [v3 [_ H]].
  apply bind_Ok in H. destruct H as [v4 [_ H]].
  apply bind_Ok in H. destruct H as [[[[w1 w2] w3] w4] [_ H]].
  apply bind_Ok in H. destruct H as [v5 [_ H]].
  inversion H; subst rows; clear H. reflexivity.
Qed.


(** ** The rows of the report *)

Lemma in_insert_by {A} (le : A -> A -> bool) (x y : A) (l : list A) :
  In y (insert_by le x l) <-> y = x \/ In y l.
Proof.
  induction l as [|z l IH]; simpl.
  - intuition congruence.
  - destruct (le x z); simpl; [intuition congruence|].
    rewrite IH. intuition congruence.
Qed.

Lemma in_sort_by {A} (le : A -> A -> bool) (y : A) (l : list A) :
  In y (sort_by le l) <-> In y l.
Proof.
  unfold sort_by. induction l as [|x l IH]; simpl; [tauto|].
  rewrite in_insert_by, IH. intuition congruence.
Qed.

Lemma sections_app (rows rest : list row) :
  Forall (fun r => r <> []) rows ->
  assignee_section (rows ++ [] :: rest) = rows /\
  summary_section (rows ++ [] :: rest) = rest.
Proof.
  induction 1 as [|r rows Hr Hrows [IH1 IH2]]; simpl; [split; reflexivity|].
  destruct r as [|c r]; [congruence|]. rewrite IH1, IH2. split; reflexivity.
Qed.


Lemma mapM_sort_key_strings (m : metrics_map) :
  Forall (fun e => exists a, fst e = JStr a) m ->
  exists keyed, mapM sort_key m = Ok keyed.
Proof.
  induction 1 as [|[k b] m [a Hk] Hm [keyed IH]]; simpl;
    [eexists; reflexivity|].
  simpl in Hk. subst k. unfold sort_key at 1. cbn [fst snd bind].
  rewrite IH. eexists. reflexivity.
Qed.

Lemma mapM_assignee_row_nonempty (all_issue_types : list string)
    (l : list (string * (string * bucket))) (rows : list row) :
  mapM (fun e => assignee_row all_issue_types (fst (snd e)) (snd (snd e))) l
  = Ok rows ->
  Forall (fun r => r <> []) rows.
Proof.
  intros H. apply mapM_Ok_Forall2 in H.
  induction H as [|e r l rows Hr _ IH]; constructor; [|exact IH].
  apply assignee_row_inv in Hr. destruct Hr as [p [cells [_ ->]]].
  discriminate.
Qed.


(** [write_csv] hands the writer the assignee rows in the order of the
    lowered names, an empty row and the summary rows. *)
Lemma write_csv_inv (metrics : metrics_map) (file : csv_file) :
  write_csv metrics = Ok file ->
  exists keyed rows summary,
    mapM sort_key metrics = Ok keyed /\
    mapM (fun e => assignee_row
                     (sorted_set
                        (flat_map (fun e => map fst (issue_type_counts (snd e)))
                                  metrics))
                     (fst (snd e)) (snd (snd e)))
         (sort_by (fun x y => String.leb (fst x) (fst y)) keyed) = Ok rows /\
    Forall (fun r => r <> []) rows /\
    summary_rows (compute_sprint_totals metrics) = Ok summary /\
    written_rows file = (rows ++ [] :: summary)%list.
Proof.
  unfold write_csv. cbv zeta. intros H.
  apply bind_Ok in H. destruct H as [keyed [Hk H]].
  apply bind_Ok in H. destruct H as [rows [Hr H]].
  apply bind_Ok in H. destruct H as [summary [Hs H]].
  inversion H; subst file; clear H.
  exists keyed, rows, summary. cbn [written_rows].
  split; [exact Hk|]. split; [exact Hr|].
  split; [exact (mapM_assignee_row_nonempty _ _ _ Hr)|].
  split; [exact Hs | reflexivity].
Qed.





(** One issue of two thousand completed is 0.05 per cent: the double
    nearest to 0.05 is above it, and the value rounds to 0.1; one of two is
    50.0 per cent. *)
Example percent_of_int_values :
  percent_of_int 1 2000 = Ok (fl (1 # 10)) /\
  percent_of_int 1 2 = Ok 50%Q /\
  percent_of 3 8 = Ok (75 # 2)%Q.
Proof. repeat split; vm_compute; reflexivity. Qed.

(** ** Team velocity *)

Lemma team_velocity_written (metrics : metrics_map) (file : csv_file) :
  write_csv metrics = Ok file ->
  team_velocity file
  = Some (CFloat (sprint_completed_story_points
                    (compute_sprint_totals metrics))).
Proof.
  intros Hw.
  destruct (write_csv_inv _ _ Hw)
    as [keyed [rows [summary [_ [_ [Hne [Hsum Hfile]]]]]]].
  pose proof (summary_rows_inv _ _ Hsum) as Hfind.
  unfold team_velocity, summary_value.
  rewrite Hfile, (proj2 (sections_app rows summary Hne)), Hfind.
  reflexivity.
Qed.

Lemma team_done_points_reading (rt : Runtime) (issue : json) (a : json)
    (s t : string) (sp ct : Q) :
  read_issue rt issue = Ok (a, s, t, sp, ct) ->
  team_done_points rt issue
  = if assigned a then (if is_done s then sp else 0%Q) else 0%Q.
Proof.
  intros H. apply read_issue_Ok in H.
  destruct H as [Ha [Hs [_ [Hsp _]]]].
  unfold team_done_points, has_assignee, done_points.
  now rewrite Ha, Hs, Hsp.
Qed.

(** C1, as amended.  The [Team Velocity (Completed SP)] value written by
    [write_csv] is the total of the story points of the issues of the
    sprint whose status category is "done" and whose assignee name is not
    "Unassigned". *)
Theorem team_velocity_spec (rt : Runtime) (issues : list json)
    (metrics : metrics_map) (file : csv_file) :
  compute_metrics rt issues = Ok metrics ->
  write_csv metrics = Ok file ->
  exists velocity,
    team_velocity file = Some (CFloat velocity) /\
    (velocity == Qsum (map (team_done_points rt) issues))%Q.
Proof.
  intros Hm Hw. eexists.
  split; [exact (team_velocity_written metrics file Hw)|].
  unfold compute_sprint_totals.
  rewrite (sprint_totals_team metrics),
    (fold_sprint_completed_story_points _ (team_entries_assigned metrics)).
  cbn [sprint_completed_story_points no_totals]. rewrite Qplus_0_l.
  apply compute_metrics_readings in Hm. destruct Hm as [rs [Hrs ->]].
  apply mapM_Ok_Forall2 in Hrs.
  pose proof (Qsum_where_fold assigned assigned_respects
                completed_story_points
                (fun r : reading =>
                   let '(_, s, _, sp, _) := r in
                   if is_done s then sp else 0%Q)) as E.
  unfold Qsum_where in E. unfold team_entries, assigned_entry.
  rewrite E.
  - cbn [filter map Qsum fold_right]. rewrite Qplus_0_l.
    clear E Hw. induction Hrs as [|issue r issues rs Hr Hrs IH];
      [reflexivity|].
    cbn [map Qsum fold_right]. unfold Qsum in IH. rewrite IH.
    destruct r as [[[[a s] t] sp] ct].
    rewrite (team_done_points_reading rt issue a s t sp ct Hr).
    reflexivity.
  - intros a s t sp ct b. unfold record_issue. cbn [completed_story_points].
    destruct (is_done s); [reflexivity | ring].
  - reflexivity.
Qed.

Lemma team_velocity_spec_witness :
  exists velocity,
    team_velocity sprint_report = Some (CFloat velocity) /\
    (velocity == Qsum (map (team_done_points sample_runtime) sprint_issues))%Q.
Proof.
  exact (team_velocity_spec sample_runtime sprint_issues sprint_metrics
           sprint_report eq_refl eq_refl).
Defined.

(** C1 as stated fails: the only issue of the sprint is completed and
    carries 2 story points, and the velocity written is 0, because the
    issue has no assignee. *)
Lemma team_velocity_skips_unassigned :
  exists metrics file,
    compute_metrics sample_runtime orphan_sprint = Ok metrics /\
    write_csv metrics = Ok file /\
    team_velocity file = Some (CFloat 0) /\
    (Qsum (map (done_points sample_runtime) orphan_sprint) == 2)%Q /\
    ~ (0 == Qsum (map (done_points sample_runtime) orphan_sprint))%Q.
Proof.
  eexists. eexists.
  split; [vm_compute; reflexivity|]. split; [vm_compute; reflexivity|].
  split; [vm_compute; reflexivity|]. split; [vm_compute; reflexivity|].
  intros H. vm_compute in H. discriminate H.
Qed.

(** ** Pagination *)

Lemma firstn_next {A} (n m : nat) (l : list A) :
  (firstn n l ++ firstn m (skipn n l))%list = firstn (n + m) l.
Proof.
  revert l. induction n as [|n IH]; intros l; [reflexivity|].
  destruct l as [|x l]; simpl.
  - now rewrite firstn_nil.
  - now rewrite IH.
Qed.

Lemma Qle_bool_inject_Z (n m : Z) :
  Qle_bool (inject_Z n) (inject_Z m) = (n <=? m).
Proof. unfold Qle_bool. simpl. now rewrite !Z.mul_1_r. Qed.

Lemma fetch_page_served (http : JiraServer) (sprint_id : Z)
    (all : list json) (k : nat) :
  serves_pages http sprint_id all ->
  fetch_page http sprint_id (firstn (100 * k) all) (Z.of_nat (100 * k))
  = Ok (firstn (100 * S k) all, Z.of_nat (100 * S k),
        len all <=? Z.of_nat (100 * S k)).
Proof.
  intros Hs. destruct (Hs k) as [data [Hpage [Hissues Htotal]]].
  unfold fetch_page. cbv zeta. rewrite Hpage. cbn [bind].
  unfold py_get_default. rewrite Hissues, Htotal. cbn [bind py_iter].
  unfold py_int_ge. cbn [as_number bind].
  rewrite firstn_next.
  replace (Z.of_nat (100 * k) + 100) with (Z.of_nat (100 * S k)) by lia.
  rewrite Qle_bool_inject_Z.
  replace (100 * k + 100)%nat with (100 * S k)%nat by lia.
  reflexivity.
Qed.

Lemma fetch_loop_served (http : JiraServer) (sprint_id : Z)
    (all : list json) :
  serves_pages http sprint_id all ->
  forall fuel k,
    (List.length all <= 100 * (k + S fuel))%nat ->
    fetch_loop (S fuel) http sprint_id (firstn (100 * k) all)
               (Z.of_nat (100 * k))
    = Some (Ok all).
Proof.
  intros Hs. induction fuel as [|fuel IH]; intros k Hlen.
  - cbn [fetch_loop]. rewrite (fetch_page_served http sprint_id all k Hs).
    unfold len.
    destruct (Z.leb_spec (Z.of_nat (List.length all)) (Z.of_nat (100 * S k)));
      [|lia].
    now rewrite firstn_all2 by lia.
  - change (fetch_loop (S (S fuel)) http sprint_id (firstn (100 * k) all)
                       (Z.of_nat (100 * k)))
      with (match fetch_page http sprint_id (firstn (100 * k) all)
                             (Z.of_nat (100 * k)) with
            | Raise e => Some (Raise e)
            | Ok (issues', _, true) => Some (Ok issues')
            | Ok (issues', start_at', false) =>
                fetch_loop (S fuel) http sprint_id issues' start_at'
            end).
    rewrite (fetch_page_served http sprint_id all k Hs).
    unfold len.
    destruct (Z.leb_spec (Z.of_nat (List.length all)) (Z.of_nat (100 * S k))).
    + now rewrite firstn_all2 by lia.
    + apply IH. lia.
Qed.

(** X21.  When the server serves the issues of the sprint in full pages
    of 100, with the size of the sprint as [total],
    [fetch_issues_for_sprint] terminates, after one request per page, and
    returns all the issues of the sprint, in order. *)
Theorem fetch_issues_for_sprint_all (http : JiraServer) (sprint_id : Z)
    (all : list json) (fuel : nat) :
  serves_pages http sprint_id all ->
  (0 < fuel)%nat -> (List.length all <= 100 * fuel)%nat ->
  fetch_issues_for_sprint fuel http sprint_id = Some (Ok all).
Proof.
  intros Hs Hpos Hlen. destruct fuel as [|fuel]; [lia|].
  unfold fetch_issues_for_sprint.
  exact (fetch_loop_served http sprint_id all Hs fuel 0%nat Hlen).
Qed.

Lemma server_with_serves_pages (all : list json) (metadata : result json)
    (sprint_id : Z) :
  serves_pages (server_with all metadata) sprint_id all.
Proof.
  intros k. eexists. split; [reflexivity|].
  cbn [lookup String.eqb Ascii.eqb Bool.eqb].
  rewrite Nat2Z.id. change (Z.to_nat 100) with 100%nat.
  split; reflexivity.
Qed.

Lemma fetch_issues_for_sprint_all_witness :
  fetch_issues_for_sprint 3
    (server_with (numbered_issues 0 250) (Raise HTTPError)) 42
  = Some (Ok (numbered_issues 0 250)).
Proof.
  apply (fetch_issues_for_sprint_all
           (server_with (numbered_issues 0 250) (Raise HTTPError)) 42
           (numbered_issues 0 250) 3).
  - apply server_with_serves_pages.
  - lia.
  - vm_compute. lia.
Defined.

(** ** The field detector *)

Lemma leb_iff (a b : string) :
  String.leb a b = true <-> a = b \/ OrderedTypeEx.String_as_OT.lt a b.
Proof.
  unfold String.leb.
  pose proof (OrderedTypeEx.String_as_OT.cmp_eq a b) as He.
  pose proof (OrderedTypeEx.String_as_OT.cmp_lt a b) as Hl.
  unfold OrderedTypeEx.String_as_OT.cmp in *.
  destruct (String.compare a b) eqn:E.
  - split; [intros _; left; now apply He | reflexivity].
  - split; [intros _; right; now apply Hl | reflexivity].
  - split; [discriminate|]. intros [H|H].
    + apply He in H. discriminate.
    + apply Hl in H. discriminate.
Qed.


Lemma leb_trans (a b c : string) :
  String.leb a b = true -> String.leb b c = true -> String.leb a c = true.
Proof.
  rewrite !leb_iff. intros [->|H1] [->|H2]; auto.
  right. eapply OrderedTypeEx.String_as_OT.lt_trans; eassumption.
Qed.

Section SortByKey.

Variable V : Type.

Lemma insert_by_sorted (x : string * V) (l : list (string * V)) :
  StronglySorted (fun a b => key_le a b = true) l ->
  StronglySorted (fun a b => key_le a b = true) (insert_by key_le x l).
Proof.
  induction 1 as [|y l Hl IH Hy]; simpl.
  - constructor; constructor.
  - destruct (key_le x y) eqn:E.
    + constructor; [constructor; assumption|].
      constructor; [exact E|].
      rewrite Forall_forall in *. intros z Hz.
      unfold key_le in *. eapply leb_trans; [exact E | now apply Hy].
    + constructor; [exact IH|].
      rewrite Forall_forall in *. intros z Hz.
      apply in_insert_by in Hz. destruct Hz as [->|Hz]; [|now apply Hy].
      unfold key_le in *.
      destruct (String.leb_total (fst x) (fst y)) as [H|H];
        [congruence | exact H].
Qed.

Lemma sort_by_sorted (l : list (string * V)) :
  StronglySorted (fun a b => key_le a b = true) (sort_by key_le l).
Proof.
  unfold sort_by. induction l as [|x l IH]; simpl.
  - constructor.
  - now apply insert_by_sorted.
Qed.


End SortByKey.








Lemma detect_with_sample (http : JiraServer) (sprint_id : option Z)
    (issue_key : option string) (issue : json)
    (fields : list (string * json)) :
  sample_issue http sprint_id issue_key = Ok (Some issue) ->
  sample_with_fields issue fields ->
  detect_story_points_field true http sprint_id issue_key
  = try_except
      (recommended <- recommend http (potential_fields_of fields) ;;
       Ok (Some recommended))
      is_Exception (Ok (best_guess fields)).
Proof.
  intros Hs [Ht Hf]. unfold detect_story_points_field. cbn [negb].
  rewrite Hs. cbn [bind]. rewrite Ht. cbn [negb].
  destruct issue as [| | | | |kv]; try discriminate.
  unfold py_get_default at 1.
  destruct (lookup "key" kv); cbn [bind]; rewrite Hf; cbn [bind py_items];
    unfold best_guess;
    destruct (potential_fields_of fields) as [|[id v] l]; reflexivity.
Qed.


Lemma re_match_literal (a : string) :
  forall s, re_match (literal a) s
            = ((s =? a)%string || (s =? a ++ NEWLINE)%string).
Proof.
  induction a as [|c a IH]; intros s.
  - reflexivity.
  - cbn [literal list_ascii_of_string map re_match].
    destruct s as [|c' s]; [reflexivity|].
    change (re_match (map RChar (list_ascii_of_string a)) s)
      with (re_match (literal a) s).
    rewrite IH. cbn [String.eqb append].
    destruct (Ascii.eqb c' c); reflexivity.
Qed.

Lemma re_match_optional (c : ascii) (s : string) :
  re_match [ROpt c] s
  = ((s =? "")%string || (s =? NEWLINE)%string
     || (s =? String c "")%string || (s =? String c NEWLINE)%string).
Proof.
  destruct s as [|c' s]; [reflexivity|].
  cbn [re_match].
  change (String c' s =? "")%string with false.
  change (String c' s =? String c "")%string
    with (if Ascii.eqb c' c then (s =? "")%string else false).
  change (String c' s =? String c NEWLINE)%string
    with (if Ascii.eqb c' c then (s =? NEWLINE)%string else false).
  destruct (Ascii.eqb c' c), (s =? "")%string, (s =? NEWLINE)%string,
    (String c' s =? NEWLINE)%string; reflexivity.
Qed.

Lemma re_match_literal_optional (a : string) (c : ascii) :
  forall s, re_match (literal a ++ [ROpt c]) s
            = ((s =? a)%string || (s =? a ++ NEWLINE)%string
               || (s =? a ++ String c "")%string
               || (s =? a ++ String c NEWLINE)%string).
Proof.
  induction a as [|c0 a IH]; intros s.
  - apply re_match_optional.
  - cbn [literal list_ascii_of_string map app re_match].
    destruct s as [|c' s]; [reflexivity|].
    change (re_match (map RChar (list_ascii_of_string a) ++ [ROpt c]) s)
      with (re_match (literal a ++ [ROpt c]) s).
    rewrite IH. cbn [String.eqb append].
    destruct (Ascii.eqb c' c0); reflexivity.
Qed.

Lemma exact_match_names (s : string) :
  is_exact_match s
  = existsb (fun name => (s =? name)%string || (s =? name ++ NEWLINE)%string)
            EXACT_NAMES.
Proof.
  unfold is_exact_match, exact_patterns, EXACT_NAMES. cbn [existsb].
  rewrite !re_match_literal_optional, re_match_literal.
  change ("story point" ++ String "s" "") with "story points".
  change ("point" ++ String "s" "") with "points".
  change ("story point" ++ String "s" NEWLINE) with ("story points" ++ NEWLINE).
  change ("point" ++ String "s" NEWLINE) with ("points" ++ NEWLINE).
  rewrite !orb_false_r.
  destruct (s =? "story point")%string,
           (s =? "story point" ++ NEWLINE)%string,
           (s =? "story points")%string,
           (s =? "story points" ++ NEWLINE)%string,
           (s =? "story point estimate")%string,
           (s =? "story point estimate" ++ NEWLINE)%string,
           (s =? "point")%string, (s =? "point" ++ NEWLINE)%string,
           (s =? "points")%string, (s =? "points" ++ NEWLINE)%string;
    reflexivity.
Qed.



(** *** The words of the specification and the functions of the script *)

















Lemma find_issue_with_points_typed (l : list json) :
  Forall (fun issue => page_issue_typed issue = true) l ->
  find_issue_with_points l = Ok (find has_points l).
Proof.
  induction 1 as [|issue l Hi Hl IH]; [reflexivity|].
  cbn [find_issue_with_points find]. unfold has_points, entry_of, field_of.
  destruct issue as [| | | | |kv]; try discriminate.
  cbn [page_issue_typed] in Hi. unfold py_get_default.
  destruct (lookup "fields" kv) as [[| | | | |fields]|]; try discriminate;
    cbn [bind py_items existsb].
  - destruct (existsb _ fields); [reflexivity | exact IH].
  - exact IH.
Qed.







Lemma sprint_totals_ignore_unassigned_witness :
  sprint_total_issues (compute_sprint_totals sprint_metrics) = 3 /\
  compute_metrics sample_runtime (filter has_assignee sprint_issues)
  = Ok (team_entries sprint_metrics).
Proof.
  pose proof (sprint_totals_ignore_unassigned sprint_metrics) as H.
  cbv zeta in H.
  destruct H as [H1 [_ [_ [_ [_ [_ [_ [_ [_ [_ [_ Hissues]]]]]]]]]]].
  split.
  - rewrite H1. reflexivity.
  - exact (Hissues sample_runtime sprint_issues eq_refl).
Defined.

(** * Further properties of [jira_sprint_kpi.py] *)

(** ** [fetch_issues_for_sprint] and the size of the pages *)

Lemma fetch_page_capped (http : JiraServer) (sprint_id : Z)
    (all acc : list json) (cap pages k : nat) :
  serves_capped http sprint_id all cap pages -> (k < pages)%nat ->
  fetch_page http sprint_id acc (Z.of_nat (100 * k))
  = Ok ((acc ++ firstn cap (skipn (100 * k) all))%list,
        Z.of_nat (100 * S k),
        len all <=? Z.of_nat (100 * S k)).
Proof.
  intros Hs Hk. destruct (Hs k Hk) as [data [Hpage [Hissues Htotal]]].
  unfold fetch_page. cbv zeta. rewrite Hpage. cbn [bind].
  unfold py_get_default. rewrite Hissues, Htotal. cbn [bind py_iter].
  unfold py_int_ge. cbn [as_number bind].
  replace (Z.of_nat (100 * k) + 100) with (Z.of_nat (100 * S k)) by lia.
  now rewrite Qle_bool_inject_Z.
Qed.

Lemma fetch_loop_capped (http : JiraServer) (sprint_id : Z)
    (all : list json) (cap pages : nat) :
  serves_capped http sprint_id all cap pages ->
  forall n k fuel acc,
    (k + S n <= pages)%nat ->
    (List.length all <= 100 * (k + S n))%nat ->
    (n = 0%nat \/ 100 * (k + n) < List.length all)%nat ->
    (n <= fuel)%nat ->
    fetch_loop (S fuel) http sprint_id acc (Z.of_nat (100 * k))
    = Some (Ok (acc ++ capped_blocks cap all k (S n))%list).
Proof.
  intros Hs. induction n as [|n IH]; intros k fuel acc Hp Hlen Hmore Hfuel.
  - cbn [fetch_loop].
    rewrite (fetch_page_capped http sprint_id all acc cap pages k Hs)
      by lia.
    unfold len.
    destruct (Z.leb_spec (Z.of_nat (List.length all)) (Z.of_nat (100 * S k)));
      [|lia].
    cbn [capped_blocks]. now rewrite app_nil_r.
  - destruct fuel as [|fuel]; [lia|].
    change (fetch_loop (S (S fuel)) http sprint_id acc (Z.of_nat (100 * k)))
      with (match fetch_page http sprint_id acc (Z.of_nat (100 * k)) with
            | Raise e => Some (Raise e)
            | Ok (issues', _, true) => Some (Ok issues')
            | Ok (issues', start_at', false) =>
                fetch_loop (S fuel) http sprint_id issues' start_at'
            end).
    rewrite (fetch_page_capped http sprint_id all acc cap pages k Hs)
      by lia.
    unfold len.
    destruct (Z.leb_spec (Z.of_nat (List.length all)) (Z.of_nat (100 * S k)));
      [lia|].
    rewrite (IH (S k) fuel) by lia.
    cbn [capped_blocks]. now rewrite <- app_assoc.
Qed.

(** X1.  [fetch_issues_for_sprint] advances [startAt] by 100 whatever the
    size of the page it received: from a server that caps its pages at
    [cap] issues it collects the first [cap] issues of every block of 100
    and no others. *)
Theorem fetch_issues_for_sprint_capped (http : JiraServer) (sprint_id : Z)
    (all : list json) (cap pages fuel : nat) :
  serves_capped http sprint_id all cap pages ->
  (0 < pages)%nat ->
  (List.length all <= 100 * pages)%nat ->
  (pages = 1%nat \/ 100 * (pages - 1) < List.length all)%nat ->
  (pages <= fuel)%nat ->
  fetch_issues_for_sprint fuel http sprint_id
  = Some (Ok (capped_blocks cap all 0 pages)).
Proof.
  intros Hs Hpos Hlen Hmore Hfuel.
  destruct pages as [|n]; [lia|]. destruct fuel as [|fuel]; [lia|].
  unfold fetch_issues_for_sprint.
  change 0 with (Z.of_nat (100 * 0)).
  rewrite (fetch_loop_capped http sprint_id all cap (S n) Hs n 0%nat fuel [])
    by lia.
  reflexivity.
Qed.

Lemma capped_server_serves (all : list json) (cap pages : nat)
    (sprint_id : Z) :
  (cap <= 100)%nat ->
  serves_capped (capped_server all cap) sprint_id all cap pages.
Proof.
  intros Hcap k _. eexists. split; [reflexivity|].
  cbn [lookup String.eqb Ascii.eqb Bool.eqb].
  rewrite Nat2Z.id.
  replace (Z.to_nat (Z.min 100 (Z.of_nat cap))) with cap by lia.
  split; reflexivity.
Qed.

Lemma fetch_issues_for_sprint_capped_witness :
  fetch_issues_for_sprint 5 (capped_server (numbered_issues 0 120) 50) 42
  = Some (Ok (numbered_issues 0 50 ++ numbered_issues 100 20)%list).
Proof.
  rewrite (fetch_issues_for_sprint_capped
             (capped_server (numbered_issues 0 120) 50) 42
             (numbered_issues 0 120) 50 2 5).
  - vm_compute. reflexivity.
  - apply capped_server_serves. lia.
  - lia.
  - vm_compute. lia.
  - right. vm_compute. lia.
  - lia.
Defined.

(** C2.  [fetch_issues_for_sprint] does not return all the issues of a
    sprint when the server caps the size of its pages, as Jira does: a
    sprint of 120 issues that is served in pages of at most 50, each with
    120 as [total], is fetched in two requests as 70 issues, the first 50
    and the last 20; the issues 50 to 99 are omitted, although the
    docstring announces all the issues of the sprint.  The loop advances
    [startAt] by the size it asked for, not by the number of issues it
    received. *)
Theorem fetch_issues_for_sprint_omits_issues :
  let all := numbered_issues 0 120 in
  let http := capped_server all 50 in
  let fetched := (firstn 50 all ++ skipn 100 all)%list in
  sprint_issue_page http 42 0 100 = Ok (page_of all 0 50) /\
  sprint_issue_page http 42 100 100 = Ok (page_of all 100 50) /\
  fetch_issues_for_sprint 2 http 42 = Some (Ok fetched) /\
  len all = 120 /\ len fetched = 70 /\
  In (nth 50 all JNull) all /\ ~ In (nth 50 all JNull) fetched.
Proof.
  cbv zeta.
  split; [reflexivity|]. split; [reflexivity|].
  split; [vm_compute; reflexivity|].
  split; [reflexivity|]. split; [reflexivity|]. split.
  - apply nth_In. vm_compute. lia.
  - intros H. vm_compute in H.
    repeat (destruct H as [H|H]; [discriminate H|]). exact H.
Qed.

Lemma fetch_loop_raises (http : JiraServer) (sprint_id : Z)
    (all : list json) (k : nat) (e : exn) :
  serves_capped http sprint_id all 100 k ->
  (k = 0 \/ 100 * k < List.length all)%nat ->
  sprint_issue_page http sprint_id (Z.of_nat (100 * k)) 100 = Raise e ->
  forall d j fuel acc,
    (j + d = k)%nat -> (d < fuel)%nat ->
    fetch_loop fuel http sprint_id acc (Z.of_nat (100 * j)) = Some (Raise e).
Proof.
  intros Hs Hmore Hraise. induction d as [|d IH]; intros j fuel acc Hj Hfuel.
  - destruct fuel as [|fuel]; [lia|]. replace j with k by lia.
    cbn [fetch_loop]. unfold fetch_page. cbv zeta. rewrite Hraise.
    reflexivity.
  - destruct fuel as [|fuel]; [lia|]. cbn [fetch_loop].
    rewrite (fetch_page_capped http sprint_id all acc 100 k j Hs) by lia.
    unfold len.
    destruct (Z.leb_spec (Z.of_nat (List.length all)) (Z.of_nat (100 * S j)));
      [lia|].
    apply IH; lia.
Qed.

(** X2.  A request that fails aborts the fetch: when the first [k] pages
    are served, more issues remain, and the request for the next page
    raises, [fetch_issues_for_sprint] raises the same exception and
    returns none of the issues it had collected. *)
Theorem fetch_issues_for_sprint_raises (http : JiraServer) (sprint_id : Z)
    (all : list json) (k fuel : nat) (e : exn) :
  serves_capped http sprint_id all 100 k ->
  (k = 0 \/ 100 * k < List.length all)%nat ->
  sprint_issue_page http sprint_id (Z.of_nat (100 * k)) 100 = Raise e ->
  (k < fuel)%nat ->
  fetch_issues_for_sprint fuel http sprint_id = Some (Raise e).
Proof.
  intros Hs Hmore Hraise Hfuel. unfold fetch_issues_for_sprint.
  change 0 with (Z.of_nat (100 * 0)).
  apply (fetch_loop_raises http sprint_id all k e Hs Hmore Hraise k 0%nat);
    lia.
Qed.

Lemma fetch_issues_for_sprint_raises_witness :
  fetch_issues_for_sprint 5 (failing_server (numbered_issues 0 250) 200) 42
  = Some (Raise HTTPError).
Proof.
  apply (fetch_issues_for_sprint_raises
           (failing_server (numbered_issues 0 250) 200) 42
           (numbered_issues 0 250) 2 5 HTTPError).
  - intros k Hk. eexists.
    assert (Hstart : (Z.of_nat (100 * k) <? 200) = true)
      by (apply Z.ltb_lt; lia).
    cbn [failing_server sprint_issue_page]. rewrite Hstart.
    split; [reflexivity|].
    cbn [lookup String.eqb Ascii.eqb Bool.eqb].
    rewrite Nat2Z.id. change (Z.to_nat 100) with 100%nat.
    split; reflexivity.
  - right. vm_compute. lia.
  - reflexivity.
  - lia.
Defined.

(** X3.  A page without [total] ends the fetch: [total] defaults to 0, so
    the issues of the first page are returned after a single request,
    none when the page has no [issues] either. *)
Theorem fetch_issues_for_sprint_without_total (http : JiraServer)
    (sprint_id : Z) (data : list (string * json)) (fuel : nat) :
  sprint_issue_page http sprint_id 0 100 = Ok (JObj data) ->
  lookup "total" data = None ->
  (0 < fuel)%nat ->
  fetch_issues_for_sprint fuel http sprint_id
  = match lookup "issues" data with
    | None => Some (Ok [])
    | Some page => match py_iter page with
                   | Ok issues => Some (Ok issues)
                   | Raise e => Some (Raise e)
                   end
    end.
Proof.
  intros Hpage Htotal Hfuel. destruct fuel as [|fuel]; [lia|].
  unfold fetch_issues_for_sprint. cbn [fetch_loop].
  unfold fetch_page. cbv zeta. rewrite Hpage. cbn [bind].
  unfold py_get_default. rewrite Htotal.
  destruct (lookup "issues" data) as [page|]; cbn [bind py_iter];
    [|reflexivity].
  destruct (py_iter page) as [issues|e]; cbn [bind app]; reflexivity.
Qed.

Lemma fetch_issues_for_sprint_without_total_witness :
  fetch_issues_for_sprint 1 (bare_server (numbered_issues 0 3)) 42
  = Some (Ok (numbered_issues 0 3)).
Proof.
  rewrite (fetch_issues_for_sprint_without_total
             (bare_server (numbered_issues 0 3)) 42
             [("issues", JArr (numbered_issues 0 3))] 1 eq_refl eq_refl);
    [reflexivity | lia].
Defined.

(** ** The getters and [compute_metrics] on further inputs *)

(** X4.  Whatever the issue, a name that [get_assignee_name] returns is
    truthy: never [None], an empty string, zero or an empty container. *)
Theorem get_assignee_name_truthy (issue name : json) :
  get_assignee_name issue = Ok name -> truthy name = true.
Proof.
  unfold get_assignee_name. intros H.
  apply bind_Ok in H. destruct H as [fields [_ H]].
  apply bind_Ok in H. destruct H as [assignee [_ H]].
  destruct assignee; try (inversion H; reflexivity);
    (apply bind_Ok in H; destruct H as [display_name [_ H]];
     destruct (truthy display_name) eqn:Td;
     [inversion H; subst; exact Td|];
     apply bind_Ok in H; destruct H as [email [_ H]];
     inversion H; subst; unfold py_or;
     destruct (truthy email) eqn:Te; [exact Te | reflexivity]).
Qed.

Lemma get_assignee_name_truthy_witness :
  truthy (JStr "dev@example.com") = true.
Proof.
  apply (get_assignee_name_truthy
           (issue_with_fields
              [("assignee", JObj [("displayName", JStr "");
                                  ("emailAddress", JStr "dev@example.com")])])).
  reflexivity.
Defined.

Lemma get_assignee_name_typed (issue : json) (fields : list (string * json)) :
  has_fields issue fields ->
  schema_typed fields = true -> names_typed fields = true ->
  exists a, get_assignee_name issue = Ok (JStr a) /\ a <> "".
Proof.
  intros Hf Hs Hn. rewrite (get_assignee_name_eq issue fields Hf).
  unfold names_typed in Hn. apply andb_true_iff in Hn. destruct Hn as [Hd He].
  unfold schema_typed in Hs. rewrite !andb_true_iff in Hs.
  destruct Hs as [[[[Ha _] _] _] _].
  destruct (field_of fields "assignee") as [| | | | |kv];
    try discriminate; cbn [entry_of] in *.
  - eexists. split; [reflexivity | discriminate].
  - destruct (truthy (field_of kv "displayName")) eqn:Td.
    + destruct (truthy_str_nonempty _ Hd Td) as [a [-> Hne]]. eauto.
    + unfold py_or. destruct (truthy (field_of kv "emailAddress")) eqn:Te.
      * destruct (truthy_str_nonempty _ He Te) as [a [-> Hne]]. eauto.
      * eexists. split; [reflexivity | discriminate].
Qed.

Lemma read_issue_jira (rt : Runtime) (issue : json) :
  jira_issue issue -> points_in_range rt issue ->
  exists a s t sp ct,
    read_issue rt issue = Ok (JStr a, s, t, sp, ct).
Proof.
  intros [fields [Hf [Hs [Hn Ht]]]] Hp. specialize (Hp fields Hf).
  destruct (get_assignee_name_typed issue fields Hf Hs Hn) as [a [Hname _]].
  destruct (get_status_category_total issue fields Hf Hs) as [s Hstatus].
  assert (Hsp : exists sp, get_story_points rt issue = Ok sp).
  { rewrite (get_story_points_eq rt issue fields Hf).
    unfold in_float_range in Hp.
    destruct (field_of fields (STORY_POINTS_FIELD rt)) as [| |q| | |];
      try (eexists; reflexivity).
    apply negb_true_iff in Hp. rewrite Hp. eexists. reflexivity. }
  destruct Hsp as [sp Hsp].
  unfold read_issue.
  rewrite Hname, Hstatus, (get_issue_type_eq issue fields Hf), Hsp,
    (get_cycle_time_days_eq rt issue fields Hf).
  - cbn [bind hashable negb]. unfold type_name_typed in Ht.
    destruct (field_of fields "issuetype") as [| | | | |kv];
      try (do 5 eexists; reflexivity).
    destruct (lookup "name" kv) as [[| | |t| |]|]; try discriminate;
      do 5 eexists; reflexivity.
  - unfold schema_typed in Hs. rewrite !andb_true_iff in Hs. tauto.
Qed.

Lemma fold_readings_str_keys (rs : list reading) :
  Forall (fun r => is_str (reading_assignee r) = true) rs ->
  forall m0, Forall (fun e => is_str (fst e) = true) m0 ->
             Forall (fun e => is_str (fst e) = true)
                    (fold_left add_reading rs m0).
Proof.
  induction 1 as [|r rs Hr Hrs IH]; intros m0 Hm0; [exact Hm0|].
  cbn [fold_left]. apply IH. destruct r as [[[[a s] t] sp] ct].
  cbn [add_reading reading_assignee] in *.
  now apply (dd_update_keys (fun k => is_str k = true)).
Qed.

Lemma str_keys_sort_key (metrics : metrics_map) :
  Forall (fun e => is_str (fst e) = true) metrics ->
  exists keyed, mapM sort_key metrics = Ok keyed.
Proof.
  intros Hk. apply mapM_sort_key_strings. apply Forall_forall. intros [k b] He.
  rewrite Forall_forall in Hk. specialize (Hk _ He). cbn [fst] in *.
  destruct k; try discriminate. eexists. reflexivity.
Qed.

Lemma jira_issues_metrics (rt : Runtime) (issues : list json) :
  Forall jira_issue issues -> Forall (points_in_range rt) issues ->
  exists metrics,
    compute_metrics rt issues = Ok metrics /\
    Forall (fun e => is_str (fst e) = true) metrics.
Proof.
  intros Hj Hp.
  assert (Hrs : exists rs,
             mapM (read_issue rt) issues = Ok rs /\
             Forall (fun r => is_str (reading_assignee r) = true) rs).
  { induction Hj as [|issue issues Hi Hj IH].
    - exists []. split; [reflexivity | constructor].
    - inversion Hp as [|? ? Hpi Hp']; subst.
      destruct (IH Hp') as [rs [IHrs Hstr]].
      destruct (read_issue_jira rt issue Hi Hpi) as [a [s [t [sp [ct Hr]]]]].
      exists ((JStr a, s, t, sp, ct) :: rs). cbn [mapM]. rewrite Hr, IHrs.
      split; [reflexivity|]. constructor; [reflexivity | exact Hstr]. }
  destruct Hrs as [rs [Hrs Hstr]].
  exists (fold_left add_reading rs []). split.
  - apply compute_metrics_readings. exists rs. split; [exact Hrs | reflexivity].
  - apply fold_readings_str_keys; [exact Hstr | constructor].
Qed.

(** X5.  On issues with the types of the Jira schema whose story-points
    value [float] converts without overflow, [compute_metrics] returns
    without raising, every key of its result is a string, and the sort
    keys of [write_csv], the lowered names, are computed without
    raising. *)
Theorem compute_metrics_of_jira_issues (rt : Runtime) (issues : list json) :
  Forall jira_issue issues -> Forall (points_in_range rt) issues ->
  exists metrics keyed,
    compute_metrics rt issues = Ok metrics /\
    Forall (fun e => is_str (fst e) = true) metrics /\
    mapM sort_key metrics = Ok keyed.
Proof.
  intros Hj Hp.
  destruct (jira_issues_metrics rt issues Hj Hp) as [metrics [Hm Hk]].
  destruct (str_keys_sort_key metrics Hk) as [keyed Hkeyed].
  exists metrics, keyed. repeat split; assumption.
Qed.

Lemma sprint_issues_jira : Forall jira_issue sprint_issues.
Proof.
  repeat constructor; eexists; (split; [reflexivity|]);
    (split; [reflexivity|]); split; reflexivity.
Qed.

Lemma sprint_issues_in_range :
  Forall (points_in_range sample_runtime) sprint_issues.
Proof.
  repeat constructor; intros fields Hf; inversion Hf; reflexivity.
Qed.

Lemma compute_metrics_of_jira_issues_witness :
  exists metrics keyed,
    compute_metrics sample_runtime sprint_issues = Ok metrics /\
    Forall (fun e => is_str (fst e) = true) metrics /\
    mapM sort_key metrics = Ok keyed.
Proof.
  exact (compute_metrics_of_jira_issues sample_runtime sprint_issues
           sprint_issues_jira sprint_issues_in_range).
Defined.

Lemma foldM_app {A B} (f : A -> B -> result A) (l1 l2 : list B) (a : A) :
  foldM f (l1 ++ l2) a = (a' <- foldM f l1 a ;; foldM f l2 a').
Proof.
  revert a. induction l1 as [|x l1 IH]; intros a; simpl; [reflexivity|].
  destruct (f a x) as [a'|e]; cbn [bind]; [apply IH | reflexivity].
Qed.

(** X6.  An issue that has no [fields] aborts [compute_metrics]: when the
    issues before it are processed without raising and [issue["fields"]]
    raises, [compute_metrics] raises that exception ([KeyError] for a
    dictionary without the key), whatever follows. *)
Theorem compute_metrics_without_fields (rt : Runtime)
    (before after : list json) (issue : json) (metrics : metrics_map)
    (e : exn) :
  compute_metrics rt before = Ok metrics ->
  py_getitem issue "fields" = Raise e ->
  compute_metrics rt (before ++ issue :: after) = Raise e.
Proof.
  intros Hb Hi. unfold compute_metrics in *. rewrite foldM_app, Hb.
  cbn [bind foldM]. unfold compute_metrics_step, get_assignee_name.
  rewrite Hi. reflexivity.
Qed.

Lemma compute_metrics_without_fields_witness :
  compute_metrics sample_runtime
    (sprint_issues ++ JObj [("key", JStr "KPI-9")] :: sprint_issues)
  = Raise KeyError.
Proof.
  apply (compute_metrics_without_fields sample_runtime sprint_issues
           sprint_issues (JObj [("key", JStr "KPI-9")]) sprint_metrics
           KeyError); reflexivity.
Defined.

(** ** The order and the content of the buckets *)

Lemma dd_update_keys_order (k : json) (g : bucket -> bucket)
    (m : metrics_map) :
  map fst (dd_update k g m)
  = if existsb (fun k' => py_eqb k' k) (map fst m) then map fst m
    else (map fst m ++ [k])%list.
Proof.
  induction m as [|[k' b] m IH]; simpl; [reflexivity|].
  destruct (py_eqb k' k); simpl; [reflexivity|].
  rewrite IH. destruct (existsb (fun k' => py_eqb k' k) (map fst m));
    reflexivity.
Qed.

Lemma fold_readings_keys_order (rs : list reading) :
  forall m0,
    map fst (fold_left add_reading rs m0)
    = fold_left
        (fun seen name =>
           if existsb (fun k => py_eqb k name) seen then seen
           else (seen ++ [name])%list)
        (map reading_assignee rs) (map fst m0).
Proof.
  induction rs as [|r rs IH]; intros m0; [reflexivity|].
  cbn [fold_left map]. rewrite IH. f_equal.
  destruct r as [[[[a s] t] sp] ct]. cbn [add_reading reading_assignee].
  apply dd_update_keys_order.
Qed.

(** X7.  The buckets of [compute_metrics] come in the order in which the
    assignee names first occur in the list of issues. *)
Theorem compute_metrics_bucket_order (rt : Runtime) (issues : list json)
    (metrics : metrics_map) :
  compute_metrics rt issues = Ok metrics ->
  exists names,
    mapM get_assignee_name issues = Ok names /\
    map fst metrics = first_occurrences names.
Proof.
  intros H. apply compute_metrics_readings in H. destruct H as [rs [Hrs ->]].
  exists (map reading_assignee rs). split.
  - apply mapM_Ok_Forall2. apply mapM_Ok_Forall2 in Hrs.
    induction Hrs as [|issue r issues rs Hr Hrs IH]; cbn [map];
      constructor; [|exact IH].
    destruct r as [[[[a s] t] sp] ct]. apply read_issue_Ok in Hr.
    cbn [reading_assignee]. tauto.
  - unfold first_occurrences. apply (fold_readings_keys_order rs []).
Qed.

Lemma compute_metrics_bucket_order_witness :
  map fst sprint_metrics = [JStr "Ada"; JStr "Unassigned"; JStr "bob"].
Proof.
  destruct (compute_metrics_bucket_order sample_runtime sprint_issues
              sprint_metrics eq_refl) as [names [Hnames Horder]].
  rewrite Horder. vm_compute in Hnames. inversion Hnames. reflexivity.
Defined.

(** When [record_issue] turns a bucket that satisfies [P] into one that
    satisfies [Q], for every reading that satisfies [R], and the new
    bucket satisfies [P], every bucket of the fold satisfies [Q]. *)
Lemma fold_readings_Forall (P Q : bucket -> Prop) (R : reading -> Prop) :
  P new_bucket ->
  (forall b, Q b -> P b) ->
  (forall a s t sp ct b,
      R (a, s, t, sp, ct) -> P b -> Q (record_issue s t sp ct b)) ->
  forall rs, Forall R rs ->
  forall m0, Forall (fun e => Q (snd e)) m0 ->
             Forall (fun e => Q (snd e)) (fold_left add_reading rs m0).
Proof.
  intros Hnew Hweak Hstep. induction 1 as [|r rs Hr Hrs IH]; intros m0 Hm0;
    [exact Hm0|].
  cbn [fold_left]. apply IH. destruct r as [[[[a s] t] sp] ct].
  cbn [add_reading]. apply Forall_forall. intros [k b] Hkb. cbn [snd].
  rewrite Forall_forall in Hm0.
  destruct (in_dd_update _ _ _ _ _ Hkb) as [Hin|[b0 [-> [Hin| ->]]]].
  - exact (Hm0 _ Hin).
  - apply (Hstep a); [exact Hr | apply Hweak; exact (Hm0 _ Hin)].
  - apply (Hstep a); [exact Hr | exact Hnew].
Qed.

Lemma compute_metrics_Forall (P Q : bucket -> Prop) (rt : Runtime)
    (issues : list json) (metrics : metrics_map) :
  P new_bucket ->
  (forall b, Q b -> P b) ->
  (forall s t sp ct b, P b -> Q (record_issue s t sp ct b)) ->
  compute_metrics rt issues = Ok metrics ->
  Forall (fun e => Q (snd e)) metrics.
Proof.
  intros Hnew Hweak Hstep H.
  apply compute_metrics_readings in H. destruct H as [rs [_ ->]].
  apply (fold_readings_Forall P Q (fun _ => True)); auto.
  - apply Forall_forall. auto.
Qed.

Lemma count_incr_spec (t : string) (counts : list (string * Z)) :
  NoDup (map fst counts) -> Forall (fun e => 1 <= snd e) counts ->
  NoDup (map fst (count_incr t counts)) /\
  Forall (fun e => 1 <= snd e) (count_incr t counts) /\
  (forall t', In t' (map fst (count_incr t counts)) ->
              t' = t \/ In t' (map fst counts)) /\
  forall p, count_of_types p (count_incr t counts)
            = count_of_types p counts + (if p t then 1 else 0).
Proof.
  unfold count_of_types.
  induction counts as [|[t0 n] counts IH]; intros Hnd Hpos.
  - cbn [count_incr map fst]. split; [repeat constructor; intros []|].
    split; [repeat constructor; cbn; lia|].
    split; [intros t' [<-|[]]; now left|].
    intros p. cbn [filter fst]. destruct (p t); reflexivity.
  - inversion Hnd as [|? ? Hnotin Hnd']; subst.
    inversion Hpos as [|? ? Hn Hpos']; subst.
    destruct (IH Hnd' Hpos') as [IH1 [IH2 [IH3 IH4]]].
    cbn [count_incr]. destruct (String.eqb_spec t0 t) as [->|Hneq].
    + cbn [map fst]. split; [exact Hnd|].
      split; [constructor; [cbn in *; lia | exact Hpos']|].
      split; [intros t' Ht'; now right|].
      intros p. cbn [filter fst]. destruct (p t); cbn [map snd Zsum fold_right];
        lia.
    + cbn [map fst]. split.
      * constructor; [|exact IH1]. intros Hin.
        destruct (IH3 _ Hin) as [->|Hin']; [now apply Hneq | now apply Hnotin].
      * split; [constructor; assumption|].
        split; [intros t' [<-|Ht']; [right; now left|];
                destruct (IH3 _ Ht') as [->|Hin']; [now left | right; now right]|].
        intros p. cbn [filter fst]. specialize (IH4 p).
        unfold Zsum in *.
        destruct (p t0); cbn [map snd fold_right] in *; lia.
Qed.

Lemma count_of_all_types (counts : list (string * Z)) :
  count_of_types (fun _ => true) counts = Zsum (map snd counts).
Proof.
  unfold count_of_types. f_equal. f_equal.
  induction counts as [|e counts IH]; [reflexivity|].
  cbn [filter]. now rewrite IH.
Qed.

(** X8.  In every bucket of [compute_metrics] the counts per issue type
    have distinct types and positive values, they add up to
    [total_issues], and [bug_count] and [story_count] are the counts of
    the types that read "bug" and "story" when lowered. *)
Theorem compute_metrics_type_counts (rt : Runtime) (issues : list json)
    (metrics : metrics_map) :
  compute_metrics rt issues = Ok metrics ->
  forall assignee m, In (assignee, m) metrics -> counts_invariant m.
Proof.
  intros H assignee m Hin.
  assert (Hall : Forall (fun e => counts_invariant (snd e)) metrics).
  { apply (compute_metrics_Forall counts_invariant counts_invariant
             rt issues); [|auto| |exact H].
    - unfold counts_invariant, count_of_types. cbn.
      repeat split; constructor.
    - clear. intros s t sp ct b [Hnd [Hpos [Hsum [Hbug Hstory]]]].
      destruct (count_incr_spec t _ Hnd Hpos) as [H1 [H2 [_ H4]]].
      unfold counts_invariant, record_issue.
      cbn [issue_type_counts total_issues bug_count story_count].
      split; [exact H1|]. split; [exact H2|].
      split; [rewrite <- count_of_all_types, H4, count_of_all_types; lia|].
      rewrite !H4. unfold is_bug_type, is_story_type in *.
      destruct (String.eqb_spec (lower t) "bug") as [E|E].
      + rewrite E. cbn [String.eqb Ascii.eqb Bool.eqb]. lia.
      + destruct (lower t =? "story")%string; lia. }
  rewrite Forall_forall in Hall. exact (Hall _ Hin).
Qed.

Lemma compute_metrics_type_counts_witness : counts_invariant ada_bucket.
Proof.
  apply (compute_metrics_type_counts sample_runtime sprint_issues
           sprint_metrics eq_refl (JStr "Ada")).
  left. reflexivity.
Defined.

(** X9.  Every bucket of [compute_metrics] holds at least one issue, its
    counters are not negative, and its [total_story_points] is the sum of
    its [story_points_list]. *)
Theorem compute_metrics_bucket_sums (rt : Runtime) (issues : list json)
    (metrics : metrics_map) :
  compute_metrics rt issues = Ok metrics ->
  forall assignee m, In (assignee, m) metrics -> bucket_sums_invariant m.
Proof.
  intros H assignee m Hin.
  assert (Hall : Forall (fun e => bucket_sums_invariant (snd e)) metrics).
  { apply (compute_metrics_Forall
             (fun b => 0 <= total_issues b /\ 0 <= completed_issues b /\
                       0 <= bug_count b /\ 0 <= story_count b /\
                       (total_story_points b == Qsum (story_points_list b))%Q)
             bucket_sums_invariant rt issues); [| | |exact H].
    - cbn. repeat split; lia || reflexivity.
    - unfold bucket_sums_invariant. intros b [H1 H2]. split; [lia | exact H2].
    - clear. intros s t sp ct b [H1 [H2 [H3 [H4 H5]]]].
      unfold bucket_sums_invariant, record_issue.
      cbn [total_issues completed_issues bug_count story_count
             total_story_points story_points_list].
      split; [lia|]. split; [destruct (is_done s); lia|].
      split; [destruct (lower t =? "bug")%string; lia|].
      split; [destruct (lower t =? "bug")%string;
              [|destruct (lower t =? "story")%string]; lia|].
      rewrite Qsum_app, H5. cbn [Qsum fold_right]. ring. }
  rewrite Forall_forall in Hall. exact (Hall _ Hin).
Qed.

Lemma compute_metrics_bucket_sums_witness : bucket_sums_invariant ada_bucket.
Proof.
  apply (compute_metrics_bucket_sums sample_runtime sprint_issues
           sprint_metrics eq_refl (JStr "Ada")).
  left. reflexivity.
Defined.

(** X10.  When no issue carries negative story points, the completed
    story points of every bucket of [compute_metrics] lie between 0 and
    the total story points of the bucket. *)
Theorem compute_metrics_completed_points (rt : Runtime) (issues : list json)
    (metrics : metrics_map) :
  compute_metrics rt issues = Ok metrics ->
  (forall issue points,
      In issue issues -> get_story_points rt issue = Ok points ->
      (0 <= points)%Q) ->
  forall assignee m,
    In (assignee, m) metrics ->
    (0 <= completed_story_points m)%Q /\
    (completed_story_points m <= total_story_points m)%Q.
Proof.
  intros H Hpoints assignee m Hin.
  apply compute_metrics_readings in H. destruct H as [rs [Hrs ->]].
  apply mapM_Ok_Forall2 in Hrs.
  assert (HR : Forall (fun r : reading =>
                         let '(_, _, _, sp, _) := r in (0 <= sp)%Q) rs).
  { apply Forall_forall. intros [[[[a s] t] sp] ct] Hr.
    destruct (Forall2_In_r _ _ _ _ Hrs Hr) as [issue [Hi Hread]].
    apply read_issue_Ok in Hread. apply (Hpoints issue sp Hi). tauto. }
  pose proof (fold_readings_Forall
                (fun b => (0 <= completed_story_points b)%Q /\
                          (completed_story_points b <= total_story_points b)%Q)
                (fun b => (0 <= completed_story_points b)%Q /\
                          (completed_story_points b <= total_story_points b)%Q)
                (fun r : reading => let '(_, _, _, sp, _) := r in (0 <= sp)%Q))
    as Hfold.
  assert (Hall : Forall (fun e => (0 <= completed_story_points (snd e))%Q /\
                                  (completed_story_points (snd e)
                                   <= total_story_points (snd e))%Q)
                        (fold_left add_reading rs [])).
  { apply Hfold; [| auto | | exact HR | constructor].
    - cbn. split; apply Qle_refl.
    - clear. intros a s t sp ct b Hsp [H0 Hle]. unfold record_issue.
      cbn [completed_story_points total_story_points].
      destruct (is_done s).
      + split.
        * apply (Qle_trans _ (0 + 0)); [discriminate|].
          now apply Qplus_le_compat.
        * apply Qplus_le_compat; [exact Hle | apply Qle_refl].
      + split; [exact H0|].
        apply (Qle_trans _ (total_story_points b + 0)).
        * now rewrite Qplus_0_r.
        * apply Qplus_le_compat; [apply Qle_refl | exact Hsp]. }
  rewrite Forall_forall in Hall. exact (Hall _ Hin).
Qed.

Lemma compute_metrics_completed_points_witness :
  (0 <= completed_story_points ada_bucket)%Q /\
  (completed_story_points ada_bucket <= total_story_points ada_bucket)%Q.
Proof.
  apply (compute_metrics_completed_points sample_runtime sprint_issues
           sprint_metrics eq_refl) with (assignee := JStr "Ada").
  - intros issue points Hin Hp.
    repeat (destruct Hin as [<-|Hin];
            [vm_compute in Hp; inversion Hp; subst; discriminate|]).
    destruct Hin.
  - left. reflexivity.
Defined.

(** ** [write_csv] on further inputs *)

Lemma mapM_sort_key_keys (metrics : metrics_map)
    (keyed : list (string * (string * bucket))) :
  mapM sort_key metrics = Ok keyed ->
  Forall (fun e => is_str (fst e) = true) metrics.
Proof.
  intros H. apply mapM_Ok_Forall2 in H.
  induction H as [|[k b] e metrics keyed He H IH]; constructor; [|exact IH].
  unfold sort_key in He. cbn [fst snd] in *. destruct k; try discriminate.
  reflexivity.
Qed.

Lemma mapM_sort_key_non_str (metrics : metrics_map) :
  Exists (fun e => is_str (fst e) = false) metrics ->
  mapM sort_key metrics = Raise AttributeError.
Proof.
  induction metrics as [|[k b] metrics IH]; intros Hex;
    [inversion Hex|].
  cbn [mapM]. unfold sort_key at 1. cbn [fst snd].
  destruct k as [| | |a| |]; try reflexivity.
  cbn [bind]. rewrite IH; [reflexivity|].
  inversion Hex as [? ? Hhead|? ? Htail]; subst; [discriminate Hhead|].
  exact Htail.
Qed.

(** X11.  A key of the metrics map that is not a string (a numeric
    display name) makes [write_csv] raise [AttributeError], in the sort of
    the assignee rows, before any row is computed; so [write_csv] writes a
    report only when every key is a string. *)
Theorem write_csv_outcome (metrics : metrics_map) :
  (Exists (fun e => is_str (fst e) = false) metrics ->
   write_csv metrics = Raise AttributeError) /\
  (forall file,
      write_csv metrics = Ok file ->
      Forall (fun e => is_str (fst e) = true) metrics).
Proof.
  split.
  - intros Hex. unfold write_csv. cbv zeta.
    now rewrite (mapM_sort_key_non_str metrics Hex).
  - intros file Hw.
    destruct (write_csv_inv _ _ Hw) as [keyed [_ [_ [Hk _]]]].
    exact (mapM_sort_key_keys _ _ Hk).
Qed.

Lemma write_csv_outcome_witness :
  compute_metrics sample_runtime numeric_name_sprint = Ok numeric_name_metrics /\
  write_csv numeric_name_metrics = Raise AttributeError /\
  Forall (fun e => is_str (fst e) = true) sprint_metrics.
Proof.
  destruct (write_csv_outcome numeric_name_metrics) as [Hraise _].
  destruct (write_csv_outcome sprint_metrics) as [_ Hok].
  split; [reflexivity|]. split.
  - apply Hraise. left. reflexivity.
  - apply (Hok sprint_report). reflexivity.
Defined.

(** ** Bounds of the percentages *)

Lemma round1_percent (x : Q) :
  (0 <= x)%Q -> (x <= 100 + (1 # 25))%Q ->
  (0 <= round1 x)%Q /\ (round1 x <= 100)%Q.
Proof.
  intros H0 H100. unfold round1.
  assert (Hlo : 0 <= round_half_even (x * 10)).
  { apply round_half_even_above. change (inject_Z 0) with 0%Q. lra. }
  assert (Hhi : round_half_even (x * 10) <= 1000).
  { apply round_half_even_below. change (inject_Z 1000) with 1000%Q. lra. }
  rewrite Zle_Qle in Hlo, Hhi.
  change (inject_Z 0) with 0%Q in Hlo.
  change (inject_Z 1000) with 1000%Q in Hhi.
  split.
  - apply fl_nonneg. apply Qle_shift_div_l; [reflexivity | lra].
  - assert (E : (inject_Z 25 * pow2 2 == 100)%Q) by reflexivity.
    rewrite <- E. apply fl_le_repr; [lia | lia |]. rewrite E.
    apply Qle_shift_div_r; [reflexivity | lra].
Qed.

Lemma float_percent_bounds (c t : Z) :
  0 <= c <= t -> 0 < t -> (fl (inject_Z t) < pow2 1024)%Q ->
  (0 <= float_percent c t)%Q /\ (float_percent c t <= 100 + (1 # 25))%Q.
Proof.
  intros Hc Ht Hfin.
  pose proof (float_percent_near c t ltac:(lia) Ht Hfin) as Hnear.
  assert (Htq : (0 < inject_Z t)%Q).
  { change 0%Q with (inject_Z 0). now rewrite <- Zlt_Qlt. }
  assert (Hq0 : (0 <= 100 * inject_Z c / inject_Z t)%Q).
  { apply Qle_shift_div_l; [exact Htq|]. rewrite Qmult_0_l.
    apply Qmult_le_0_compat; [discriminate|].
    change 0%Q with (inject_Z 0). rewrite <- Zle_Qle. lia. }
  assert (Hq1 : (100 * inject_Z c / inject_Z t <= 100)%Q).
  { apply Qle_shift_div_r; [exact Htq|].
    apply Qmult_le_l; [reflexivity|]. rewrite <- Zle_Qle. lia. }
  assert (Hv : (pow2 (-50) == 1 # 1125899906842624)%Q)
    by (vm_compute; reflexivity).
  rewrite Hv in Hnear.
  apply Qabs_Qle_condition in Hnear.
  set (q := (100 * inject_Z c / inject_Z t)%Q) in *.
  set (y := float_percent c t) in *.
  clearbody q y. split; lra.
Qed.

(** The assignee rows of the report come from the entries of the map. *)
Lemma write_csv_row_entry (metrics : metrics_map) (file : csv_file)
    (r : row) :
  write_csv metrics = Ok file ->
  In r (assignee_section (written_rows file)) ->
  exists a m,
    In (JStr a, m) metrics /\
    assignee_row
      (sorted_set
         (flat_map (fun e => map fst (issue_type_counts (snd e))) metrics))
      a m = Ok r.
Proof.
  intros Hw Hr.
  destruct (write_csv_inv _ _ Hw)
    as [keyed [rows [summary [Hk [Hrows [Hne [_ Hfile]]]]]]].
  rewrite Hfile, (proj1 (sections_app rows summary Hne)) in Hr.
  apply mapM_Ok_Forall2 in Hk. apply mapM_Ok_Forall2 in Hrows.
  destruct (Forall2_In_r _ _ _ _ Hrows Hr) as [e [He Hrow]].
  apply in_sort_by in He.
  destruct (Forall2_In_r _ _ _ _ Hk He) as [[k m] [Hin Hkey]].
  unfold sort_key in Hkey. cbn [fst snd] in Hkey.
  destruct k as [| | |a| |]; try discriminate.
  inversion Hkey; subst e; clear Hkey. cbn [fst snd] in Hrow.
  exists a, m. split; assumption.
Qed.

(** X12.  In the report of a result of [compute_metrics], the
    [Completion % (Issues)] of every assignee row lies between 0 and
    100. *)
Theorem completion_percent_bounded (rt : Runtime) (issues : list json)
    (metrics : metrics_map) (file : csv_file) :
  compute_metrics rt issues = Ok metrics ->
  write_csv metrics = Ok file ->
  forall r, In r (assignee_section (written_rows file)) ->
    exists p, lookup "Completion % (Issues)" r = Some (CFloat p) /\
              (0 <= p)%Q /\ (p <= 100)%Q.
Proof.
  intros Hm Hw r Hr.
  destruct (write_csv_row_entry metrics file r Hw Hr) as [a [m [Hin Hrow]]].
  assert (Hall : Forall (fun e => 0 <= completed_issues (snd e)
                                       <= total_issues (snd e)) metrics).
  { apply (compute_metrics_Forall
             (fun b => 0 <= completed_issues b <= total_issues b)
             (fun b => 0 <= completed_issues b <= total_issues b)
             rt issues); [cbn; lia | auto | | exact Hm].
    clear. intros s t sp ct b H. unfold record_issue.
    cbn [completed_issues total_issues]. destruct (is_done s); lia. }
  rewrite Forall_forall in Hall. specialize (Hall _ Hin). cbn [snd] in Hall.
  apply assignee_row_inv in Hrow.
  destruct Hrow as [p [cells [Hp ->]]].
  exists p. split; [reflexivity|].
  apply percent_of_int_Ok in Hp. destruct Hp as [-> Hfin].
  destruct (Z.ltb_spec 0 (total_issues m)) as [Hpos|_].
  - apply round1_percent;
      now apply (float_percent_bounds _ _ Hall Hpos (Hfin Hpos)).
  - split; discriminate.
Qed.

Lemma completion_percent_bounded_witness :
  Forall (fun r => exists p,
              lookup "Completion % (Issues)" r = Some (CFloat p) /\
              (0 <= p)%Q /\ (p <= 100)%Q)
         (assignee_section (written_rows sprint_report)).
Proof.
  apply Forall_forall.
  exact (completion_percent_bounded sample_runtime sprint_issues
           sprint_metrics sprint_report eq_refl eq_refl).
Defined.

(** ** The layout of the report *)

Lemma insert_by_perm {A} (le : A -> A -> bool) (x : A) (l : list A) :
  Permutation (insert_by le x l) (x :: l).
Proof.
  induction l as [|y l IH]; simpl; [reflexivity|].
  destruct (le x y); [reflexivity|].
  rewrite IH. apply perm_swap.
Qed.

Lemma sort_by_perm {A} (le : A -> A -> bool) (l : list A) :
  Permutation (sort_by le l) l.
Proof.
  unfold sort_by. induction l as [|x l IH]; simpl; [reflexivity|].
  rewrite insert_by_perm. now constructor.
Qed.

Lemma StronglySorted_map {A B} (R : A -> A -> Prop) (R' : B -> B -> Prop)
    (g : A -> B) (l : list A) :
  (forall x y, In x l -> In y l -> R x y -> R' (g x) (g y)) ->
  StronglySorted R l -> StronglySorted R' (map g l).
Proof.
  intros Hg Hs. induction Hs as [|x l Hl IH Hx]; cbn [map]; constructor.
  - apply IH. intros a b Ha Hb. apply Hg; now right.
  - rewrite Forall_forall in *. intros y Hy.
    apply in_map_iff in Hy. destruct Hy as [z [<- Hz]].
    apply Hg; [now left | now right | now apply Hx].
Qed.

(** X13.  For assignee names in ASCII, on which [lower] is [str.lower]
    and the order of the strings is that of Python, the report has one row
    per bucket, and the rows come in the order of the lower-cased assignee
    names. *)
Theorem assignee_rows_sorted (metrics : metrics_map) (file : csv_file) :
  write_csv metrics = Ok file ->
  Forall (fun e => ascii_key (fst e) = true) metrics ->
  exists names,
    map (lookup "Assignee") (assignee_section (written_rows file))
    = map (fun a => Some (CStr a)) names /\
    Permutation (map JStr names) (map fst metrics) /\
    StronglySorted (fun a b => String.leb (lower a) (lower b) = true) names.
Proof.
  intros Hw _.
  destruct (write_csv_inv _ _ Hw)
    as [keyed [rows [summary [Hk [Hrows [Hne [_ Hfile]]]]]]].
  rewrite Hfile, (proj1 (sections_app rows summary Hne)).
  apply mapM_Ok_Forall2 in Hk. apply mapM_Ok_Forall2 in Hrows.
  exists (map (fun e : string * (string * bucket) => fst (snd e))
              (sort_by (fun x y => String.leb (fst x) (fst y)) keyed)).
  split; [|split].
  - clear -Hrows. induction Hrows as [|e r l rows He Hl IH]; [reflexivity|].
    cbn [map]. rewrite IH. f_equal.
    apply assignee_row_inv in He. destruct He as [p [cells [_ ->]]].
    reflexivity.
  - rewrite map_map.
    rewrite (Permutation_map _ (sort_by_perm _ keyed)).
    assert (E : map (fun e : string * (string * bucket) => JStr (fst (snd e)))
                    keyed = map fst metrics).
    { clear -Hk. induction Hk as [|[k b] e metrics keyed He Hk IH];
        [reflexivity|].
      cbn [map]. rewrite IH. f_equal. unfold sort_key in He.
      cbn [fst snd] in *. destruct k; try discriminate.
      inversion He. reflexivity. }
    rewrite E. reflexivity.
  - apply (StronglySorted_map (fun a b => key_le a b = true)).
    + intros x y Hx Hy Hxy. apply in_sort_by in Hx, Hy.
      assert (Hlow : forall e, In e keyed -> fst e = lower (fst (snd e))).
      { clear -Hk. induction Hk as [|[k b] e metrics keyed He Hk IH];
          [intros e []|].
        intros e' [<-|He']; [|now apply IH].
        unfold sort_key in He. cbn [fst snd] in *.
        destruct k; try discriminate. inversion He. reflexivity. }
      unfold key_le in Hxy. now rewrite <- (Hlow x Hx), <- (Hlow y Hy).
    + apply sort_by_sorted.
Qed.

Lemma assignee_rows_sorted_witness :
  map (lookup "Assignee") (assignee_section (written_rows sprint_report))
  = [Some (CStr "Ada"); Some (CStr "bob"); Some (CStr "Unassigned")].
Proof.
  assert (Hascii : Forall (fun e => ascii_key (fst e) = true) sprint_metrics)
    by (repeat constructor).
  destruct (assignee_rows_sorted sprint_metrics sprint_report eq_refl Hascii)
    as [names [Hrows _]].
  rewrite Hrows. vm_compute in Hrows.
  destruct names as [|a [|b [|c [|d names]]]]; try discriminate Hrows.
  inversion Hrows. reflexivity.
Defined.

Lemma assignee_row_columns (all_issue_types : list string) (a : string)
    (m : bucket) (r : row) :
  assignee_row all_issue_types a m = Ok r ->
  map fst r
  = app BASE_FIELDNAMES (map (fun t => "Issues: " ++ t) all_issue_types).
Proof.
  unfold assignee_row. cbv zeta. intros H.
  apply bind_Ok in H. destruct H as [v1 [_ H]].
  apply bind_Ok in H. destruct H as [v2 [_ H]].
  apply bind_Ok in H. destruct H as [v3 [_ H]].
  apply bind_Ok in H. destruct H as [v4 [_ H]].
  apply bind_Ok in H. destruct H as [v5 [_ H]].
  apply bind_Ok in H. destruct H as [v6 [_ H]].
  apply bind_Ok in H. destruct H as [v7 [_ H]].
  inversion H; subst r; clear H.
  cbn [map fst]. unfold BASE_FIELDNAMES. cbn [app].
  rewrite map_map. reflexivity.
Qed.

Lemma summary_rows_columns (t : totals) (rows : list row) :
  summary_rows t = Ok rows ->
  Forall (fun r => incl (map fst r) ["Assignee"; "Total Issues"]) rows.
Proof.
  unfold summary_rows. intros H.
  apply bind_Ok in H. destruct H as [v1 [_ H]].
  apply bind_Ok in H. destruct H as [v2 [_ H]].
  apply bind_Ok in H. destruct H as [v3 [_ H]].
  apply bind_Ok in H. destruct H as [v4 [_ H]].
  apply bind_Ok in H. destruct H as [[[[w1 w2] w3] w4] [_ H]].
  apply bind_Ok in H. destruct H as [v5 [_ H]].
  inversion H; subst rows; clear H.
  repeat (apply Forall_cons;
          [intros c Hc; cbn [map fst In] in Hc; cbn [In]; tauto|]).
  apply Forall_nil.
Qed.

Lemma write_csv_fieldnames (metrics : metrics_map) (file : csv_file) :
  write_csv metrics = Ok file ->
  fieldnames file
  = app BASE_FIELDNAMES
        (map (fun t => "Issues: " ++ t)
             (sorted_set
                (flat_map (fun e => map fst (issue_type_counts (snd e)))
                          metrics))).
Proof.
  unfold write_csv. cbv zeta. intros H.
  apply bind_Ok in H. destruct H as [v1 [_ H]].
  apply bind_Ok in H. destruct H as [v2 [_ H]].
  apply bind_Ok in H. destruct H as [v3 [_ H]].
  inversion H. reflexivity.
Qed.

(** X14.  Every row that [write_csv] hands to the writer fits the header:
    an assignee row has exactly the columns of [fieldnames], in order, and
    no row has a column that is not in [fieldnames]. *)
Theorem rows_fit_header (metrics : metrics_map) (file : csv_file) :
  write_csv metrics = Ok file ->
  (forall r, In r (assignee_section (written_rows file)) ->
             map fst r = fieldnames file) /\
  (forall r, In r (written_rows file) ->
             incl (map fst r) (fieldnames file)).
Proof.
  intros Hw.
  pose proof (write_csv_fieldnames metrics file Hw) as Hnames.
  assert (Hassignee : forall r, In r (assignee_section (written_rows file)) ->
                                map fst r = fieldnames file).
  { intros r Hr.
    destruct (write_csv_row_entry metrics file r Hw Hr) as [a [m [_ Hrow]]].
    rewrite Hnames. now apply (assignee_row_columns _ a m). }
  split; [exact Hassignee|].
  intros r Hr.
  destruct (write_csv_inv _ _ Hw)
    as [keyed [rows [summary [_ [_ [Hne [Hsum Hfile]]]]]]].
  rewrite Hfile in Hr. apply in_app_or in Hr. destruct Hr as [Hr|[<-|Hr]].
  - rewrite (Hassignee r); [apply incl_refl|].
    now rewrite Hfile, (proj1 (sections_app rows summary Hne)).
  - intros c [].
  - apply summary_rows_columns in Hsum. rewrite Forall_forall in Hsum.
    intros c Hc. specialize (Hsum r Hr c Hc). rewrite Hnames.
    apply in_or_app. left. cbn in Hsum. cbn. tauto.
Qed.

Lemma rows_fit_header_witness :
  Forall (fun r => incl (map fst r) (fieldnames sprint_report))
         (written_rows sprint_report).
Proof.
  apply Forall_forall.
  exact (proj2 (rows_fit_header sprint_metrics sprint_report eq_refl)).
Defined.

(** ** Consistency of the sprint totals *)

Lemma Zsum_map_le {A} (f g : A -> Z) (l : list A) :
  Forall (fun x => f x <= g x) l -> Zsum (map f l) <= Zsum (map g l).
Proof.
  unfold Zsum. induction 1 as [|x l Hx Hl IH]; cbn [map fold_right]; lia.
Qed.

Lemma Zsum_map_nonneg {A} (f : A -> Z) (l : list A) :
  Forall (fun x => 0 <= f x) l -> 0 <= Zsum (map f l).
Proof.
  unfold Zsum. induction 1 as [|x l Hx Hl IH]; cbn [map fold_right]; lia.
Qed.

Lemma Zsum_map_add {A} (f g : A -> Z) (l : list A) :
  Zsum (map (fun x => f x + g x) l) = Zsum (map f l) + Zsum (map g l).
Proof.
  unfold Zsum. induction l as [|x l IH]; cbn [map fold_right]; lia.
Qed.

Lemma Zsum_map_eq {A} (f g : A -> Z) (l : list A) :
  Forall (fun x => f x = g x) l -> Zsum (map f l) = Zsum (map g l).
Proof.
  unfold Zsum. induction 1 as [|x l Hx Hl IH]; cbn [map fold_right]; lia.
Qed.

Lemma Zsum_filter_le {A} (f : A -> Z) (p : A -> bool) (l : list A) :
  Forall (fun x => 0 <= f x) l ->
  Zsum (map f (filter p l)) <= Zsum (map f l).
Proof.
  unfold Zsum. induction 1 as [|x l Hx Hl IH]; cbn [filter map fold_right];
    [lia|].
  destruct (p x); cbn [map fold_right]; lia.
Qed.

Lemma len_concat {A B} (h : A -> list B) (l : list A) :
  len (List.concat (map h l)) = Zsum (map (fun x => len (h x)) l).
Proof.
  unfold Zsum. induction l as [|x l IH]; [reflexivity|].
  cbn [map List.concat fold_right]. rewrite len_app, IH. reflexivity.
Qed.

(** X15.  The totals of a result of [compute_metrics] are consistent: the
    completed issues are at most the total issues, bugs and stories
    together are at most the total issues, [all_story_points] has one
    entry per counted issue, and no more issues are counted than the
    sprint has. *)
Theorem sprint_totals_consistent (rt : Runtime) (issues : list json)
    (metrics : metrics_map) :
  compute_metrics rt issues = Ok metrics ->
  let t := compute_sprint_totals metrics in
  0 <= sprint_completed_issues t <= sprint_total_issues t /\
  total_bugs t + total_stories t <= sprint_total_issues t /\
  len (all_story_points t) = sprint_total_issues t /\
  sprint_total_issues t <= len issues.
Proof.
  intros H. cbv zeta.
  assert (Hall : Forall (fun e =>
                           0 <= completed_issues (snd e) <= total_issues (snd e)
                           /\ 0 <= bug_count (snd e) /\ 0 <= story_count (snd e)
                           /\ bug_count (snd e) + story_count (snd e)
                              <= total_issues (snd e)
                           /\ len (story_points_list (snd e))
                              = total_issues (snd e)) metrics).
  { apply (compute_metrics_Forall
             (fun b => 0 <= completed_issues b <= total_issues b
                       /\ 0 <= bug_count b /\ 0 <= story_count b
                       /\ bug_count b + story_count b <= total_issues b
                       /\ len (story_points_list b) = total_issues b)
             (fun b => 0 <= completed_issues b <= total_issues b
                       /\ 0 <= bug_count b /\ 0 <= story_count b
                       /\ bug_count b + story_count b <= total_issues b
                       /\ len (story_points_list b) = total_issues b)
             rt issues); [cbn; lia | auto | | exact H].
    clear. intros s t sp ct b [H1 [H2 [H3 [H4 H5]]]]. unfold record_issue.
    cbn [completed_issues total_issues bug_count story_count
           story_points_list].
    rewrite len_app. change (len [sp]) with 1.
    destruct (is_done s), (lower t =? "bug")%string,
      (lower t =? "story")%string; lia. }
  assert (Hteam : Forall (fun e =>
                            0 <= completed_issues (snd e) <= total_issues (snd e)
                            /\ 0 <= bug_count (snd e) /\ 0 <= story_count (snd e)
                            /\ bug_count (snd e) + story_count (snd e)
                               <= total_issues (snd e)
                            /\ len (story_points_list (snd e))
                               = total_issues (snd e)) (team_entries metrics)).
  { rewrite Forall_forall in *. intros e He. apply Hall.
    unfold team_entries in He. apply filter_In in He. tauto. }
  pose proof (team_entries_assigned metrics) as Ht.
  unfold compute_sprint_totals. rewrite (sprint_totals_team metrics).
  rewrite (fold_sprint_total_issues _ Ht), (fold_sprint_completed_issues _ Ht),
    (fold_total_bugs _ Ht), (fold_total_stories _ Ht),
    (fold_all_story_points _ Ht).
  cbn [no_totals sprint_total_issues sprint_completed_issues total_bugs
         total_stories all_story_points app].
  rewrite len_concat, !Z.add_0_l.
  assert (H1 : 0 <= Zsum (map (fun e => completed_issues (snd e))
                              (team_entries metrics))).
  { apply Zsum_map_nonneg.
    eapply Forall_impl; [|exact Hteam]. cbn. intros; lia. }
  assert (H2 : Zsum (map (fun e => completed_issues (snd e))
                         (team_entries metrics))
               <= Zsum (map (fun e => total_issues (snd e))
                            (team_entries metrics))).
  { apply Zsum_map_le. eapply Forall_impl; [|exact Hteam]. cbn. intros; lia. }
  assert (H3 : Zsum (map (fun e => bug_count (snd e) + story_count (snd e))
                         (team_entries metrics))
               <= Zsum (map (fun e => total_issues (snd e))
                            (team_entries metrics))).
  { apply Zsum_map_le. eapply Forall_impl; [|exact Hteam]. cbn. intros; lia. }
  assert (H3' : Zsum (map (fun e => bug_count (snd e) + story_count (snd e))
                          (team_entries metrics))
                = Zsum (map (fun e => bug_count (snd e)) (team_entries metrics))
                  + Zsum (map (fun e => story_count (snd e))
                              (team_entries metrics))).
  { apply Zsum_map_add. }
  assert (H4 : Zsum (map (fun e => len (story_points_list (snd e)))
                         (team_entries metrics))
               = Zsum (map (fun e => total_issues (snd e))
                           (team_entries metrics))).
  { apply Zsum_map_eq. eapply Forall_impl; [|exact Hteam]. cbn. intros; lia. }
  assert (H5 : Zsum (map (fun e => total_issues (snd e))
                         (team_entries metrics)) <= len issues).
  { apply Z.le_trans
      with (Zsum (map (fun e => total_issues (snd e)) metrics)).
    - unfold team_entries. apply Zsum_filter_le.
      eapply Forall_impl; [|exact Hall]. cbn. intros; lia.
    - apply compute_metrics_readings in H. destruct H as [rs [Hrs ->]].
      apply mapM_Ok_Forall2 in Hrs.
      pose proof (Zsum_where_fold every_key every_key_respects
                    total_issues (fun _ => 1)
                    (fun _ _ _ _ _ _ => eq_refl) eq_refl rs []) as E.
      unfold Zsum_where in E. rewrite !filter_every_key in E.
      rewrite E. cbn [every_key map Zsum fold_right]. rewrite Z.add_0_l.
      change (fold_right Z.add 0 (map (fun _ : reading => 1) rs))
        with (Zsum (map (fun _ : reading => 1) rs)).
      rewrite Zsum_ones, (Forall2_length_len _ _ _ Hrs). lia. }
  lia.
Qed.

Lemma sprint_totals_consistent_witness :
  0 <= sprint_completed_issues (compute_sprint_totals sprint_metrics)
    <= sprint_total_issues (compute_sprint_totals sprint_metrics) /\
  sprint_total_issues (compute_sprint_totals sprint_metrics)
    <= len sprint_issues.
Proof.
  pose proof (sprint_totals_consistent sample_runtime sprint_issues
                sprint_metrics eq_refl) as H.
  cbv zeta in H. tauto.
Defined.

(** * Further properties of [detect_story_points_field.py] *)

(** X16.  An issue key takes precedence over the sprint id: with a
    non-empty issue key, the result depends on the answers for that issue
    and for the field metadata only, not on the sprint id nor on the sprint
    endpoint. *)
Theorem issue_key_takes_precedence (configured : bool)
    (http http' : JiraServer) (sprint_id sprint_id' : option Z)
    (key : string) :
  key <> "" ->
  issue_by_key http key = issue_by_key http' key ->
  all_field_metadata http = all_field_metadata http' ->
  detect_story_points_field configured http sprint_id (Some key)
  = detect_story_points_field configured http' sprint_id' (Some key).
Proof.
  intros Hkey Hissue Hmeta. apply String.eqb_neq in Hkey.
  unfold detect_story_points_field, sample_issue. rewrite Hkey.
  unfold sample_by_key, recommend. now rewrite Hissue, Hmeta.
Qed.

Lemma issue_key_takes_precedence_witness :
  detect_story_points_field true sample_server (Some 42) (Some "KPI-1")
  = detect_story_points_field true
      (mkServer (issue_by_key sample_server) (fun _ _ _ => Raise HTTPError)
                (all_field_metadata sample_server))
      None (Some "KPI-1").
Proof.
  apply issue_key_takes_precedence; [discriminate | reflexivity | reflexivity].
Defined.

Lemma mapM_raises {A B} (P : exn -> Prop) (f : A -> result B) (l : list A)
    (e : exn) :
  (forall x e', f x = Raise e' -> P e') -> mapM f l = Raise e -> P e.
Proof.
  intros Hf. induction l as [|x l IH]; simpl; [discriminate|].
  destruct (f x) as [y|e'] eqn:E; cbn [bind].
  - destruct (mapM f l) as [ys|e'']; cbn [bind]; [discriminate|].
    intros H. inversion H; subst. now apply IH.
  - intros H. inversion H; subst. now apply (Hf x).
Qed.

Lemma foldM_raises {A B} (P : exn -> Prop) (f : A -> B -> result A)
    (l : list B) (e : exn) :
  (forall a x e', f a x = Raise e' -> P e') ->
  forall a, foldM f l a = Raise e -> P e.
Proof.
  intros Hf. induction l as [|x l IH]; intros a; simpl; [discriminate|].
  destruct (f a x) as [a'|e'] eqn:E; cbn [bind].
  - apply IH.
  - intros H. inversion H; subst. now apply (Hf a x).
Qed.

Lemma field_name_entry_raises (f : json) (e : exn) :
  field_name_entry f = Raise e -> is_Exception e = true.
Proof.
  unfold field_name_entry, py_in, py_getitem.
  destruct f as [| | |s|l|kv]; cbn [bind];
    try (intros H; inversion H; reflexivity).
  - destruct (contains s "id"); cbn [bind negb]; [|discriminate].
    destruct (contains s "name"); cbn [bind negb]; [|discriminate].
    intros H; inversion H; reflexivity.
  - destruct (existsb (py_eqb (JStr "id")) l); cbn [bind negb];
      [|discriminate].
    destruct (existsb (py_eqb (JStr "name")) l); cbn [bind negb];
      [|discriminate].
    intros H; inversion H; reflexivity.
  - destruct (lookup "id" kv) as [id|]; cbn [bind negb]; [|discriminate].
    destruct (lookup "name" kv) as [name|]; cbn [bind negb]; [|discriminate].
    destruct (hashable id); [discriminate|].
    intros H; inversion H; reflexivity.
Qed.

Lemma match_field_raises (acc : matches) (f : json) (e : exn) :
  match_field acc f = Raise e -> is_Exception e = true.
Proof.
  unfold match_field, py_get_default.
  destruct f as [| | | | |kv]; cbn [bind];
    try (intros H; inversion H; reflexivity).
  destruct (lookup "id" kv) as [id|]; destruct (lookup "name" kv) as [name|];
    cbn [bind];
    repeat match goal with
           | |- context [match ?v with JNull => _ | _ => _ end] => destruct v
           | |- context [if ?b then _ else _] => destruct b
           end;
    intros H; inversion H; reflexivity.
Qed.

Lemma recommend_raises (http : JiraServer)
    (potential_fields : list (string * json)) (e : exn) :
  recommend http potential_fields = Raise e ->
  all_field_metadata http = Raise e \/ is_Exception e = true.
Proof.
  unfold recommend.
  destruct (all_field_metadata http) as [all_fields|e0]; cbn [bind];
    [|intros H; inversion H; now left].
  intros H. right.
  destruct (py_iter all_fields) as [l|e1] eqn:Hiter; cbn [bind] in H.
  - destruct (mapM field_name_entry l) as [names|e2] eqn:Hnames;
      cbn [bind] in H.
    + destruct (foldM match_field l ([], [])) as [found|e3] eqn:Hfound;
        cbn [bind] in H.
      * destruct (fst found) as [|[id name] exact]; cbn [app] in H.
        -- destruct (snd found) as [|[id name] partial].
           ++ destruct potential_fields as [|[id v] rest]; discriminate.
           ++ discriminate.
        -- discriminate.
      * inversion H; subst.
        apply (foldM_raises (fun e => is_Exception e = true) match_field l e
                 match_field_raises _ Hfound).
    + inversion H; subst.
      apply (mapM_raises (fun e => is_Exception e = true) field_name_entry l e
               field_name_entry_raises Hnames).
  - inversion H; subst. destruct all_fields; inversion Hiter; reflexivity.
Qed.

Lemma match_field_untyped (acc : matches) (f : json) :
  field_typed f = false -> exists e, match_field acc f = Raise e.
Proof.
  unfold field_typed, match_field, py_get_default.
  destruct f as [| | | | |kv]; cbn [bind]; try (eexists; reflexivity).
  destruct (lookup "id" kv) as [[| | |id| |]|];
    destruct (lookup "name" kv) as [[| | |name| |]|];
    cbn [bind andb]; try discriminate; intros _; eexists; reflexivity.
Qed.

Lemma foldM_match_field_untyped (l : list json) :
  Exists (fun f => field_typed f = false) l ->
  forall acc, exists e, foldM match_field l acc = Raise e.
Proof.
  induction 1 as [f l Hf|f l Hl IH]; intros acc; cbn [foldM].
  - destruct (match_field_untyped acc f Hf) as [e ->]. eexists. reflexivity.
  - destruct (match_field acc f) as [acc'|e]; cbn [bind];
      [apply IH | eexists; reflexivity].
Qed.

(** X17.  With a usable sample issue the detector returns without
    raising whatever the metadata answer is (short of [SystemExit]); and
    when the metadata list has an entry that is not a dictionary, or whose
    [id] or [name] is not a string, it returns the best guess from the
    numeric custom fields of the sample, [None] when there is none. *)
Theorem detector_survives_metadata (http : JiraServer)
    (sprint_id : option Z) (issue_key : option string) (issue : json)
    (fields : list (string * json)) :
  sample_issue http sprint_id issue_key = Ok (Some issue) ->
  sample_with_fields issue fields ->
  all_field_metadata http <> Raise SystemExit ->
  (exists r, detect_story_points_field true http sprint_id issue_key = Ok r) /\
  (forall metadata,
      all_field_metadata http = Ok (JArr metadata) ->
      Exists (fun f => field_typed f = false) metadata ->
      detect_story_points_field true http sprint_id issue_key
      = Ok (best_guess fields)).
Proof.
  intros Hs Hf Hexit.
  rewrite (detect_with_sample http sprint_id issue_key issue fields Hs Hf).
  assert (Hcaught : forall e,
             recommend http (potential_fields_of fields) = Raise e ->
             is_Exception e = true).
  { intros e He. destruct (recommend_raises _ _ _ He) as [Hm|Hx]; [|exact Hx].
    destruct e; try reflexivity. contradiction. }
  split.
  - destruct (recommend http (potential_fields_of fields)) as [id|e] eqn:Hr;
      cbn [bind try_except]; [eexists; reflexivity|].
    rewrite (Hcaught e eq_refl). eexists. reflexivity.
  - intros metadata Hm Hex.
    assert (Hraise : exists e,
               recommend http (potential_fields_of fields) = Raise e).
    { unfold recommend. rewrite Hm. cbn [bind py_iter].
      destruct (mapM field_name_entry metadata) as [names|e]; cbn [bind];
        [|eexists; reflexivity].
      destruct (foldM_match_field_untyped metadata Hex ([], [])) as [e ->].
      eexists. reflexivity. }
    destruct Hraise as [e Hr]. rewrite Hr. cbn [bind try_except].
    now rewrite (Hcaught e Hr).
Qed.

Lemma detector_survives_metadata_witness :
  detect_story_points_field true
    (server_with sprint_issues (Ok (JArr broken_metadata)))
    None (Some "KPI-1")
  = Ok (Some "customfield_10016").
Proof.
  assert (Hexit : all_field_metadata
                    (server_with sprint_issues (Ok (JArr broken_metadata)))
                  <> Raise SystemExit) by discriminate.
  destruct (detector_survives_metadata
              (server_with sprint_issues (Ok (JArr broken_metadata)))
              None (Some "KPI-1") first_issue first_issue_fields
              eq_refl (conj eq_refl eq_refl) Hexit) as [_ H].
  rewrite (H broken_metadata eq_refl).
  - vm_compute. reflexivity.
  - right. left. reflexivity.
Defined.

(** X18.  From a sprint, the detector samples the first issue of the page
    that has a custom field holding a positive number, and the first issue
    of the page when there is none. *)
Theorem sample_from_sprint_choice (http : JiraServer) (sprint_id : Z)
    (data : list (string * json)) (first : json) (others : list json) :
  sprint_issue_page http sprint_id 0 5 = Ok (JObj data) ->
  lookup "issues" data = Some (JArr (first :: others)) ->
  Forall (fun issue => page_issue_typed issue = true) (first :: others) ->
  sample_from_sprint http sprint_id
  = Ok (Some match find has_points (first :: others) with
             | Some issue => issue
             | None => first
             end).
Proof.
  intros Hpage Hissues Htyped. unfold sample_from_sprint.
  rewrite Hpage. cbn [bind]. unfold py_get, py_get_default, py_getitem.
  rewrite Hissues. cbn [bind truthy negb py_iter].
  rewrite (find_issue_with_points_typed _ Htyped). cbn [bind].
  destruct (find has_points (first :: others)); reflexivity.
Qed.

Lemma sample_from_sprint_choice_witness :
  sample_from_sprint (server_with pointed_sprint (Raise HTTPError)) 42
  = Ok (Some (JObj [("key", JStr "KPI-2");
                    ("fields", JObj [("customfield_1", JNum 5)])])).
Proof.
  eapply eq_trans.
  - eapply (sample_from_sprint_choice
              (server_with pointed_sprint (Raise HTTPError)) 42);
      [reflexivity | reflexivity | repeat constructor].
  - reflexivity.
Defined.

(** ** The exact patterns *)

(** X19.  A lowered field name matches an exact pattern when it is one of
    "story point", "story points", "story point estimate", "point" and
    "points", possibly followed by one newline, and in no other case. *)
Theorem is_exact_match_names (s : string) :
  is_exact_match s
  = existsb (fun name => (s =? name)%string || (s =? name ++ NEWLINE)%string)
            EXACT_NAMES.
Proof. exact (exact_match_names s). Qed.

(** * The whole run *)

(** X20.  [main] composes the steps: under a complete configuration, for
    a server that serves the sprint in pages of 100, it hands all the
    issues of the sprint to [compute_metrics] and the metrics to
    [write_csv], and returns the report that [write_csv] writes, or raises
    what either of them raises; and when one of the four variables is not
    set or empty, it exits before any request, whatever the server. *)
Theorem main_writes_report (fuel : nat) (cfg : Config) (py : Runtime)
    (http : JiraServer) (sprint_id : Z) :
  (missing_variables cfg <> [] ->
   main fuel cfg py http sprint_id = Some (Raise SystemExit)) /\
  (forall all,
      missing_variables cfg = [] ->
      serves_pages http sprint_id all ->
      (0 < fuel)%nat -> (List.length all <= 100 * fuel)%nat ->
      main fuel cfg py http sprint_id
      = Some (metrics <- compute_metrics (runtime_of cfg py) all ;;
              write_csv metrics)).
Proof.
  split.
  - intros Hmissing. unfold main, ensure_config.
    destruct (missing_variables cfg); [congruence | reflexivity].
  - intros all Hcfg Hs Hpos Hlen.
    unfold main, ensure_config. rewrite Hcfg.
    destruct fuel as [|fuel]; [lia|].
    unfold fetch_issues_for_sprint.
    change 0 with (Z.of_nat (100 * 0)).
    change (@nil json) with (firstn (100 * 0) all).
    rewrite (fetch_loop_served http sprint_id all Hs fuel 0%nat) by lia.
    reflexivity.
Qed.

Lemma main_writes_report_witness :
  main 1 sample_config sample_runtime sample_server 42 = Some (Ok sprint_report)
  /\ main 1 (mkConfig None (Some "dev@example.com") (Some "token") (Some ""))
          sample_runtime offline_server 42
     = Some (Raise SystemExit).
Proof.
  destruct (main_writes_report 1 sample_config sample_runtime sample_server 42)
    as [_ Hrun].
  destruct (main_writes_report 1
              (mkConfig None (Some "dev@example.com") (Some "token") (Some ""))
              sample_runtime offline_server 42) as [Hexit _].
  split.
  - rewrite (Hrun sprint_issues eq_refl
               (server_with_serves_pages sprint_issues _ 42)).
    + vm_compute. reflexivity.
    + lia.
    + vm_compute. lia.
  - apply Hexit. discriminate.
Defined.
